(** * vyatta_policy_qos_vci: the Interface builder, the command synthesizer
      and the QosConfig registries, embedded from
      [vyatta_policy_qos_vci/interface.py] and
      [vyatta_policy_qos_vci/qos_config.py]. *)

From Stdlib Require Import List String Ascii ZArith Bool Lia Arith.
From Stdlib Require Import DecimalString.
Import ListNotations.
Open Scope string_scope.
Open Scope Z_scope.

(** ** Python values of the configuration tree

    The configuration snapshot is decoded JSON.  A Python [dict] keeps its
    insertion order, so it is an association list; a well-formed one has no
    key twice.  Python's [bool] is a subclass of [int] with [True == 1], and
    the program only ever compares or looks values up, so JSON booleans are
    the numbers 1 and 0. *)

#[warnings="-register-all"]
Inductive json : Type :=
| JNull : json
| JNum  : Z -> json
| JStr  : string -> json
| JList : list json -> json
| JDict : list (string * json) -> json.

(** Python exceptions the embedded code can raise. *)
Inductive exn : Type :=
| KeyError (key : json)
| AttributeError (attr : string)
| TypeError (msg : string)
| IndexError
| UnboundLocalError (var : string).

Inductive result (A : Type) : Type :=
| Ok  (a : A)
| Err (e : exn).
Arguments Ok {A} a.
Arguments Err {A} e.

Definition bind {A B : Type} (m : result A) (k : A -> result B) : result B :=
  match m with
  | Ok a => k a
  | Err e => Err e
  end.

Notation "x <- m ;; k" := (bind m (fun x => k))
  (at level 61, m at next level, right associativity).
Notation "' p <- m ;; k" := (bind m (fun p => k))
  (at level 61, p pattern, m at next level, right associativity).

(** [try: body except KeyError: handler] *)
Definition except_KeyError {A : Type} (body : result A) (handler : result A)
  : result A :=
  match body with
  | Err (KeyError _) => handler
  | other => other
  end.

(** ** Dictionaries *)

Fixpoint lookup {V : Type} (k : string) (d : list (string * V)) : option V :=
  match d with
  | [] => None
  | (k', v) :: d' => if String.eqb k k' then Some v else lookup k d'
  end.

(** [d[k] = v] on an insertion-ordered dict: an existing key keeps its
    place, a new key goes last. *)
Fixpoint dict_set {V : Type} (k : string) (v : V) (d : list (string * V))
  : list (string * V) :=
  match d with
  | [] => [(k, v)]
  | (k', v') :: d' =>
      if String.eqb k k' then (k, v) :: d' else (k', v') :: dict_set k v d'
  end.

(** [obj.get(key)]: only a dict has the method. *)
Definition py_get (obj : json) (key : string) : result json :=
  match obj with
  | JDict d => Ok (match lookup key d with Some v => v | None => JNull end)
  | _ => Err (AttributeError "get")
  end.

(** [obj[key]] with a string key. *)
Definition py_getitem (obj : json) (key : string) : result json :=
  match obj with
  | JDict d =>
      match lookup key d with
      | Some v => Ok v
      | None => Err (KeyError (JStr key))
      end
  | JNull => Err (TypeError "'NoneType' object is not subscriptable")
  | JNum _ => Err (TypeError "'int' object is not subscriptable")
  | JStr _ => Err (TypeError "string indices must be integers")
  | JList _ => Err (TypeError "list indices must be integers or slices")
  end.

(** [registry[name]] where the registry is a dict with string keys and
    [name] is whatever the configuration holds. *)
Definition registry_getitem {V : Type} (reg : list (string * V)) (name : json)
  : result V :=
  match name with
  | JStr s =>
      match lookup s reg with
      | Some v => Ok v
      | None => Err (KeyError name)
      end
  | JNull | JNum _ => Err (KeyError name)
  | JList _ | JDict _ => Err (TypeError "unhashable type")
  end.

Definition chars (s : string) : list json :=
  map (fun c => JStr (String c EmptyString)) (list_ascii_of_string s).

(** [for x in obj] *)
Definition py_iter (obj : json) : result (list json) :=
  match obj with
  | JList l => Ok l
  | JDict d => Ok (map (fun kv => JStr (fst kv)) d)
  | JStr s => Ok (chars s)
  | JNull => Err (TypeError "'NoneType' object is not iterable")
  | JNum _ => Err (TypeError "'int' object is not iterable")
  end.

(** Python's [==] on decoded JSON.  Two dicts are equal when they have the
    same number of items and every key of the first is a key of the second
    with an equal value, in any order. *)
Fixpoint py_eq (a b : json) : bool :=
  match a, b with
  | JNull, JNull => true
  | JNum x, JNum y => Z.eqb x y
  | JStr x, JStr y => String.eqb x y
  | JList xs, JList ys =>
      (fix list_eq (xs ys : list json) : bool :=
         match xs, ys with
         | [], [] => true
         | x :: xs', y :: ys' => py_eq x y && list_eq xs' ys'
         | _, _ => false
         end) xs ys
  | JDict xs, JDict ys =>
      Nat.eqb (List.length xs) (List.length ys) &&
      (fix items_eq (xs : list (string * json)) : bool :=
         match xs with
         | [] => true
         | (k, v) :: xs' =>
             match lookup k ys with
             | Some w => py_eq v w
             | None => false
             end && items_eq xs'
         end) xs
  | _, _ => false
  end.

(** [str(n)] for an integer. *)
Definition str_of_Z (n : Z) : string := NilZero.string_of_int (Z.to_int n).

(** [str(x)] for an optional string: [None] prints as [None]. *)
Definition str_of_opt (o : option string) : string :=
  match o with
  | Some s => s
  | None => "None"
  end.

(** [s.replace('\n', '')] *)
Definition newline : ascii := ascii_of_nat 10.

Fixpoint remove_newlines (s : string) : string :=
  match s with
  | EmptyString => EmptyString
  | String c s' =>
      if Ascii.eqb c newline then remove_newlines s'
      else String c (remove_newlines s')
  end.

(** ** Policies, subports and ingress maps

    The classes [Policy], [Subport], [IngressMap] and [IngressMapBinding]
    live in modules of the package that [interface.py] imports. *)

Inductive ProfileRef : Type :=
| GlobalProfile (name : string)
| LocalProfile (name : string).

(** Modelled from the spec: the [Policy] class (module [policy]), "a named
    shaper definition: name, ordered class list, per-class profile refs,
    default profile ref, frame overhead", owning its local profile set.  The
    profile references are already resolved to a global or a policy-local
    profile, as Policy construction does. *)
Record Policy : Type := mkPolicy {
  policy_name : string;
  policy_classes : list ProfileRef;
  policy_default : option ProfileRef;
  policy_local_profiles : list string;
  policy_overhead : Z
}.

(** Modelled from the spec: [Policy.max_pipes(current_max)] "returns
    max(current_max, number_of_classes_in_this_policy)". *)
Definition Policy_max_pipes (p : Policy) (current_max : Z) : Z :=
  Z.max current_max (Z.of_nat (List.length (policy_classes p))).

(** Modelled from the spec: the [Subport] object built by
    [Subport(self, subport_id, vlan_id, policy)]: "id, VLAN tag (0 for
    trunk), attached Policy (nullable)". *)
Record Subport : Type := mkSubport {
  subport_id : Z;
  subport_vlan : json;
  subport_policy : option Policy
}.

(** Modelled from the spec: the [IngressMap] class, "a table remarking
    incoming traffic", known here by its name only. *)
Record IngressMap : Type := mkIngressMap {
  ingress_map_name : string
}.

(** Modelled from the spec: [IngressMapBinding(self, vlan_id, ingress_map)]
    "carrying the VLAN tag (0 for trunk)" and the referenced ingress-map. *)
Record IngressMapBinding : Type := mkBinding {
  binding_vlan : json;
  binding_map : IngressMap
}.

(** A key of the per-interface profile index: "(scope, profile_name) where
    scope is the literal token global for globally-declared profiles or the
    subport's VLAN tag". *)
Definition ProfileKey : Type := (json * string)%type.

Definition key_eqb (a b : ProfileKey) : bool :=
  py_eq (fst a) (fst b) && String.eqb (snd a) (snd b).

Definition global_scope : json := JStr "global".

(** ** The Interface object *)

Record Interface : Type := mkInterface {
  _if_dict : json;
  _name : json;
  _ifindex : option string;
  _subports : list Subport;
  _ingress_map_bindings : list IngressMapBinding;
  _policies : list Policy;
  _profile_index : list (ProfileKey * Z)
}.

(** The back-references that construction appends on the other side of a
    cross-link: [policy.add_interface(self)] and
    [ingress_map.add_binding(binding)], recorded by the policy's and the
    map's name with the interface's name. *)
Record Links : Type := mkLinks {
  policy_interfaces : list (string * json);
  ingress_map_users : list (string * (json * json))
}.

Definition no_links : Links := mkLinks [] [].

Definition add_interface (p : Policy) (self : Interface) (l : Links) : Links :=
  mkLinks (policy_interfaces l ++ [(policy_name p, _name self)])
          (ingress_map_users l).

Definition add_binding (m : IngressMap) (self : Interface)
    (b : IngressMapBinding) (l : Links) : Links :=
  mkLinks (policy_interfaces l)
          (ingress_map_users l ++ [(ingress_map_name m, (_name self, binding_vlan b))]).

Definition append_subport (self : Interface) (s : Subport) : Interface :=
  mkInterface (_if_dict self) (_name self) (_ifindex self)
    (_subports self ++ [s]) (_ingress_map_bindings self) (_policies self)
    (_profile_index self).

Definition append_policy (self : Interface) (p : Policy) : Interface :=
  mkInterface (_if_dict self) (_name self) (_ifindex self)
    (_subports self) (_ingress_map_bindings self) (_policies self ++ [p])
    (_profile_index self).

Definition append_binding (self : Interface) (b : IngressMapBinding)
  : Interface :=
  mkInterface (_if_dict self) (_name self) (_ifindex self)
    (_subports self) (_ingress_map_bindings self ++ [b]) (_policies self)
    (_profile_index self).

Definition set_ifindex (self : Interface) (ix : option string) : Interface :=
  mkInterface (_if_dict self) (_name self) ix
    (_subports self) (_ingress_map_bindings self) (_policies self)
    (_profile_index self).

(** *** The profile index ([profile_index_get], [profile_index_set],
        [profile_index_size]) *)

Fixpoint index_lookup (key : ProfileKey) (d : list (ProfileKey * Z))
  : option Z :=
  match d with
  | [] => None
  | (k, v) :: d' => if key_eqb key k then Some v else index_lookup key d'
  end.

Fixpoint index_set (key : ProfileKey) (value : Z) (d : list (ProfileKey * Z))
  : list (ProfileKey * Z) :=
  match d with
  | [] => [(key, value)]
  | (k, v) :: d' =>
      if key_eqb key k then (k, value) :: d' else (k, v) :: index_set key value d'
  end.

Definition profile_index_get (self : Interface) (key : ProfileKey) : option Z :=
  index_lookup key (_profile_index self).

Definition profile_index_set (self : Interface) (key : ProfileKey) (value : Z)
  : Interface :=
  mkInterface (_if_dict self) (_name self) (_ifindex self)
    (_subports self) (_ingress_map_bindings self) (_policies self)
    (index_set key value (_profile_index self)).

Definition profile_index_size (self : Interface) : Z :=
  Z.of_nat (List.length (_profile_index self)).

(** ** Subport methods used by the interface *)

Definition profile_key (vlan : json) (r : ProfileRef) : ProfileKey :=
  match r with
  | GlobalProfile n => (global_scope, n)
  | LocalProfile n => (vlan, n)
  end.

(** A key gets the next free index the first time it is met and keeps it
    afterwards. *)
Definition register_profile (self : Interface) (key : ProfileKey) : Interface :=
  match profile_index_get self key with
  | Some _ => self
  | None => profile_index_set self key (profile_index_size self)
  end.

Definition policy_profile_refs (p : Policy) : list ProfileRef :=
  match policy_default p with
  | Some r => r :: policy_classes p
  | None => policy_classes p
  end.

Fixpoint global_names (refs : list ProfileRef) : list string :=
  match refs with
  | [] => []
  | GlobalProfile n :: refs' => n :: global_names refs'
  | LocalProfile _ :: refs' => global_names refs'
  end.

(** Modelled from the spec: [Subport.build_profile_index(interface)], "for
    each subport's attached policy, first register any global profile it
    references (only once), then register that policy's local profiles
    under the subport's VLAN-tag scope.  Index values are assigned as
    consecutive integers starting at 0, in the exact order keys are first
    encountered". *)
Definition Subport_build_profile_index (s : Subport) (self : Interface)
  : Interface :=
  match subport_policy s with
  | None => self
  | Some p =>
      let self1 :=
        fold_left (fun i n => register_profile i (global_scope, n))
                  (global_names (policy_profile_refs p)) self in
      fold_left (fun i n => register_profile i (subport_vlan s, n))
                (policy_local_profiles p) self1
  end.

(** ** Interface.__init__ *)

Definition POLICY_KEY : list (string * string) :=
  [ ("bonding", "vyatta-interfaces-bonding-qos-v1");
    ("dataplane", "vyatta-policy-qos-v1");
    ("vhost", "vyatta-interfaces-vhost-qos-v1") ].

Definition POLICY_KEY_getitem (if_type : string) : result string :=
  match lookup if_type POLICY_KEY with
  | Some ns => Ok ns
  | None => Err (KeyError (JStr if_type))
  end.

Definition is_None (v : json) : bool :=
  match v with
  | JNull => true
  | _ => false
  end.

(** Lines 49-63: the trunk's policy dictionary, the normal VM style first
    and the hardware-switch style second.  The result is the pair
    [(if_policy_dict, port_params_dict)] as the two variables stand after
    the nested [try]; an assignment made before a [KeyError] is kept. *)
Definition trunk_policy_dicts (if_dict : json) (policy_namespace : string)
  : result (json * json) :=
  match py_getitem if_dict (policy_namespace ++ ":policy") with
  | Ok d => Ok (d, JNull)
  | Err (KeyError _) =>
      match py_getitem if_dict
              "vyatta-interfaces-dataplane-switch-v1:switch-group" with
      | Ok switch_group =>
          match py_getitem switch_group "port-parameters" with
          | Ok port_params =>
              match py_getitem port_params
                      "vyatta-interfaces-switch-policy-v1:policy" with
              | Ok d => Ok (d, port_params)
              | Err (KeyError _) => Ok (switch_group, port_params)
              | Err e => Err e
              end
          | Err (KeyError _) => Ok (switch_group, JNull)
          | Err e => Err e
          end
      | Err (KeyError _) => Ok (JNull, JNull)
      | Err e => Err e
      end
  | Err e => Err e
  end.

(** [if_policy_dict.get(f'{namespace}:qos')] followed by the registry
    lookup when the name is not [None]. *)
Definition attached_policy (if_policy_dict : json) (namespace : string)
    (qos_policy_dict : list (string * Policy)) : result (option Policy) :=
  if_policy_name <- py_get if_policy_dict (namespace ++ ":qos") ;;
  if is_None if_policy_name then Ok None
  else
    policy <- registry_getitem qos_policy_dict if_policy_name ;;
    Ok (Some policy).

(** The [try] block binding an ingress-map (lines 82-92 and 147-157): any
    [KeyError] raised inside it, by the configuration lookup or by the
    registry lookup, is passed over. *)
Definition bind_ingress_map (self : Interface) (links : Links)
    (if_policy_dict : json) (vlan_id : json)
    (ingress_map_dict : list (string * IngressMap))
  : result (Interface * Links) :=
  except_KeyError
    (ingress_map_name <-
       py_getitem if_policy_dict "vyatta-policy-qos-v1:ingress-map" ;;
     ingress_map <- registry_getitem ingress_map_dict ingress_map_name ;;
     let binding := mkBinding vlan_id ingress_map in
     Ok (append_binding self binding,
         add_binding ingress_map self binding links))
    (Ok (self, links)).

(** Lines 100-116: the loop over the [vif] list. *)
Fixpoint vif_loop (policy_namespace namespace : string)
    (qos_policy_dict : list (string * Policy))
    (vif_list : list json) (subport_id : Z)
    (self : Interface) (links : Links) : result (Interface * Links) :=
  match vif_list with
  | [] => Ok (self, links)
  | vif :: rest =>
      vlan_id <- py_getitem vif "tagnode" ;;
      if_policy_dict <- py_getitem vif (policy_namespace ++ ":policy") ;;
      policy <- attached_policy if_policy_dict namespace qos_policy_dict ;;
      let self1 := append_subport self (mkSubport subport_id vlan_id policy) in
      let '(self2, links2) :=
        match policy with
        | Some p => (append_policy self1 p, add_interface p self1 links)
        | None => (self1, links)
        end in
      vif_loop policy_namespace namespace qos_policy_dict rest
               (subport_id + 1) self2 links2
  end.

(** Lines 120-127: the hardware-switch VLAN list. *)
Definition switch_vlan_list (port_params_dict : json) : result json :=
  if is_None port_params_dict then Ok JNull
  else
    except_KeyError
      (vlan_params_dict <- py_getitem port_params_dict "vlan-parameters" ;;
       qos_params_dict <- py_getitem vlan_params_dict "qos-parameters" ;;
       py_getitem qos_params_dict "vlan")
      (Ok JNull).

(** Lines 131-157: the loop over the hardware-switch VLANs. *)
Fixpoint vlan_loop (namespace : string)
    (qos_policy_dict : list (string * Policy))
    (ingress_map_dict : list (string * IngressMap))
    (vlan_list : list json) (subport_id : Z)
    (self : Interface) (links : Links) : result (Interface * Links) :=
  match vlan_list with
  | [] => Ok (self, links)
  | vlan :: rest =>
      vlan_id <- py_getitem vlan "vlan-id" ;;
      if_policy_dict <-
        py_getitem vlan "vyatta-interfaces-switch-policy-v1:policy" ;;
      policy <- attached_policy if_policy_dict namespace qos_policy_dict ;;
      let '(self1, links1, subport_id1) :=
        match policy with
        | Some p =>
            let s := append_subport self (mkSubport subport_id vlan_id policy) in
            (append_policy s p, add_interface p s links, subport_id + 1)
        | None => (self, links, subport_id)
        end in
      '(self2, links2) <-
        bind_ingress_map self1 links1 if_policy_dict vlan_id ingress_map_dict ;;
      vlan_loop namespace qos_policy_dict ingress_map_dict rest
                subport_id1 self2 links2
  end.

(** Lines 160-161. *)
Definition build_profile_indexes (self : Interface) : Interface :=
  fold_left (fun i s => Subport_build_profile_index s i) (_subports self) self.

(** Lines 82-161: the trunk's ingress-map, the two VLAN loops and the
    profile index, run on the interface as the trunk's policy left it. *)
Definition init_after_trunk (if_dict : json)
    (policy_namespace vif_namespace namespace : string)
    (qos_policy_dict : list (string * Policy))
    (ingress_map_dict : list (string * IngressMap))
    (if_policy_dict port_params_dict : json)
    (self : Interface) (links : Links) : result (Interface * Links) :=
  '(self, links) <-
    bind_ingress_map self links if_policy_dict (JNum 0) ingress_map_dict ;;
  vif_list <- py_get if_dict (vif_namespace ++ "vif") ;;
  '(self, links) <-
    (if is_None vif_list then Ok (self, links)
     else
       vifs <- py_iter vif_list ;;
       vif_loop policy_namespace namespace qos_policy_dict vifs 1 self links) ;;
  vlan_list <- switch_vlan_list port_params_dict ;;
  '(self, links) <-
    (if is_None vlan_list then Ok (self, links)
     else
       vlans <- py_iter vlan_list ;;
       vlan_loop namespace qos_policy_dict ingress_map_dict vlans 1
                 self links) ;;
  Ok (build_profile_indexes self, links).

(** Lines 35-42: what the interface type selects. *)
Definition name_key (if_type : string) : string :=
  if String.eqb if_type "vhost" then "name" else "tagnode".

Definition policy_namespace_of (if_type : string) : string :=
  if String.eqb if_type "vhost" then "vyatta-interfaces-vhost-policy-v1"
  else "vyatta-interfaces-policy-v1".

Definition vif_namespace_of (if_type : string) : string :=
  if String.eqb if_type "vhost" then "vyatta-interfaces-vhost-vif-v1:"
  else "".

Definition Interface_init (if_type : string) (if_dict : json)
    (qos_policy_dict : list (string * Policy))
    (ingress_map_dict : list (string * IngressMap)) (links : Links)
  : result (Interface * Links) :=
  name <- py_get if_dict (name_key if_type) ;;
  let policy_namespace := policy_namespace_of if_type in
  let vif_namespace := vif_namespace_of if_type in
  let self := mkInterface if_dict name None [] [] [] [] in
  '(if_policy_dict, port_params_dict) <-
    trunk_policy_dicts if_dict policy_namespace ;;
  namespace <- POLICY_KEY_getitem if_type ;;
  policy <- attached_policy if_policy_dict namespace qos_policy_dict ;;
  let '(self, links) :=
    match policy with
    | Some p =>
        let s := append_subport self (mkSubport 0 (JNum 0) policy) in
        (append_policy s p, add_interface p s links)
    | None => (self, links)
    end in
  init_after_trunk if_dict policy_namespace vif_namespace namespace
    qos_policy_dict ingress_map_dict if_policy_dict port_params_dict
    self links.

(** ** Interface.__eq__ *)

Definition Interface_eq (self interface : Interface) : bool :=
  if py_eq (_if_dict self) (_if_dict interface) then true else false.

(** ** Interface.ifindex

    [sysfs name] is what reading [/sys/class/net/<name>/ifindex] gives at the
    moment of the access: [Some contents], or [None] when [open] raises
    [OSError]. *)
Definition Interface_ifindex (sysfs : json -> option string)
    (self : Interface) : option string * Interface :=
  match _ifindex self with
  | Some ix => (Some ix, self)
  | None =>
      match sysfs (_name self) with
      | Some contents =>
          let ix := remove_newlines contents in
          (Some ix, set_ifindex self (Some ix))
      | None => (None, self)
      end
  end.

(** ** Interface.commands *)

Section Commands.

(** The text of one pipe command: the command prefix, the pipe number and
    the index of the pipe's profile.  Its grammar belongs to the Subport
    and Policy modules. *)
Variable pipe_command : string -> nat -> option Z -> string.

Fixpoint pipe_commands (self : Interface) (prefix : string) (vlan : json)
    (classes : list ProfileRef) (pipe : nat) : list string :=
  match classes with
  | [] => []
  | r :: rest =>
      pipe_command prefix pipe (profile_index_get self (profile_key vlan r))
      :: pipe_commands self prefix vlan rest (S pipe)
  end.

(** Modelled from the spec: [Subport.commands(interface)], "that subport's
    own command subsequence (pipe/profile bindings, per-class shaper
    parameters) addressed by the profile indices", one pipe command per
    traffic class of the attached policy, and "no command is ever emitted
    for a VLAN subport that resolved to no policy". *)
Definition Subport_commands (ifindex : option string) (s : Subport)
    (interface : Interface) : list string :=
  match subport_policy s with
  | None => []
  | Some p =>
      pipe_commands interface
        ("qos " ++ str_of_opt ifindex ++ " subport " ++ str_of_Z (subport_id s))
        (subport_vlan s) (policy_classes p) 0
  end.

(** Lines 257-263: the loop computing [max_pipes] and [overhead]; the
    latter stays unbound ([None]) until a subport with id 0 and a policy
    is met. *)
Fixpoint pipes_and_overhead (subports : list Subport) (max_pipes : Z)
    (overhead : option Z) : Z * option Z :=
  match subports with
  | [] => (max_pipes, overhead)
  | s :: rest =>
      match subport_policy s with
      | Some p =>
          pipes_and_overhead rest (Policy_max_pipes p max_pipes)
            (if Z.eqb (subport_id s) 0 then Some (policy_overhead p)
             else overhead)
      | None => pipes_and_overhead rest max_pipes overhead
      end
  end.

Definition Interface_max_pipes (self : Interface) : Z :=
  fst (pipes_and_overhead (_subports self) 0 None).

Definition port_command (cmd_prefix : string) (max_subports max_pipes
    profiles overhead : Z) : string :=
  cmd_prefix ++ " port subports " ++ str_of_Z max_subports ++
  " pipes " ++ str_of_Z max_pipes ++
  " profiles " ++ str_of_Z profiles ++
  " overhead " ++ str_of_Z overhead.

Definition enable_command (cmd_prefix : string) : string :=
  cmd_prefix ++ " enable".

Definition subport_command_list (ifindex : option string)
    (self : Interface) : list string :=
  flat_map (fun s => Subport_commands ifindex s self) (_subports self).

Definition Interface_commands (sysfs : json -> option string)
    (self : Interface) : result (list string) * Interface :=
  let '(ifindex, self) := Interface_ifindex sysfs self in
  let cmd_prefix := "qos " ++ str_of_opt ifindex in
  let max_subports := Z.of_nat (List.length (_subports self)) in
  let '(max_pipes, overhead) := pipes_and_overhead (_subports self) 0 None in
  let header :=
    if negb (Z.eqb max_pipes 0) then
      match overhead with
      | Some o =>
          Ok [port_command cmd_prefix max_subports max_pipes
                (profile_index_size self) o]
      | None => Err (UnboundLocalError "overhead")
      end
    else Ok [] in
  (cmd_list <- header ;;
   let cmd_list := (cmd_list ++ subport_command_list ifindex self)%list in
   Ok (if negb (Z.eqb max_pipes 0)
       then (cmd_list ++ [enable_command cmd_prefix])%list
       else cmd_list),
   self).

End Commands.

(** ** QosConfig *)

(** [key.split(':')] *)
Fixpoint split_colon (s : string) : list string :=
  match s with
  | EmptyString => [EmptyString]
  | String c s' =>
      if Ascii.eqb c ":"%char then EmptyString :: split_colon s'
      else
        match split_colon s' with
        | [] => [String c EmptyString]
        | piece :: pieces => String c piece :: pieces
        end
  end.

(** Modelled from the spec: the [Profile] object built by
    [Profile(profile_id, profile_dict, parent_policy)]: "numeric id
    (scope-relative), shaping parameters", and the name it is filed under. *)
Record Profile : Type := mkProfile {
  profile_id : Z;
  profile_name : string;
  profile_dict : json;
  profile_parent : option string
}.

Section QosConfig.

(** The classes of the modules [action] and [mark_map], and what the
    constructors of [Profile] and [Policy] read from their dictionaries. *)
Variable Action : Type.
Variable Action_init : json -> result Action.
Variable Action_name : Action -> string.
Variable MarkMap : Type.
Variable MarkMap_init : json -> result MarkMap.
Variable MarkMap_name : MarkMap -> string.
Variable Profile_read_name : json -> result string.
Variable Policy_init :
  json -> list (string * Profile) -> list (string * MarkMap) -> result Policy.

Definition Profile_init (id : Z) (d : json) (parent_policy : option string)
  : result Profile :=
  name <- Profile_read_name d ;;
  Ok (mkProfile id name d parent_policy).

Record QosConfig : Type := mkQosConfig {
  _action_groups : list (string * Action);
  _mark_maps : list (string * MarkMap);
  _global_profiles : list (string * Profile);
  _interfaces : list (json * Interface);
  _qos_policies : list (string * Policy)
}.

Definition empty_config : QosConfig := mkQosConfig [] [] [] [] [].

Fixpoint action_loop (action_list : list json)
    (groups : list (string * Action)) : result (list (string * Action)) :=
  match action_list with
  | [] => Ok groups
  | act_dict :: rest =>
      action <- Action_init act_dict ;;
      action_loop rest (dict_set (Action_name action) action groups)
  end.

Definition _process_action (self : QosConfig) (action_dict : json)
  : result QosConfig :=
  if is_None action_dict then Ok self
  else
    action_list <- py_get action_dict "name" ;;
    if is_None action_list then Ok self
    else
      items <- py_iter action_list ;;
      groups <- action_loop items (_action_groups self) ;;
      Ok (mkQosConfig groups (_mark_maps self) (_global_profiles self)
            (_interfaces self) (_qos_policies self)).

Fixpoint mark_map_loop (l : list json) (maps : list (string * MarkMap))
  : result (list (string * MarkMap)) :=
  match l with
  | [] => Ok maps
  | mark_map_dict :: rest =>
      mark_map <- MarkMap_init mark_map_dict ;;
      mark_map_loop rest (dict_set (MarkMap_name mark_map) mark_map maps)
  end.

(** Lines 69-73: [profile_id] starts at 0 and grows by one per entry. *)
Fixpoint profile_loop (l : list json) (profile_id : Z)
    (profiles : list (string * Profile)) : result (list (string * Profile)) :=
  match l with
  | [] => Ok profiles
  | d :: rest =>
      profile <- Profile_init profile_id d None ;;
      profile_loop rest (profile_id + 1)
        (dict_set (profile_name profile) profile profiles)
  end.

Fixpoint policy_loop (l : list json) (profiles : list (string * Profile))
    (maps : list (string * MarkMap)) (policies : list (string * Policy))
  : result (list (string * Policy)) :=
  match l with
  | [] => Ok policies
  | policy_dict :: rest =>
      policy <- Policy_init policy_dict profiles maps ;;
      policy_loop rest profiles maps
        (dict_set (policy_name policy) policy policies)
  end.

Definition _process_qos (self : QosConfig) (qos_dict : json)
  : result QosConfig :=
  mark_maps_list <- py_get qos_dict "mark-map" ;;
  maps <-
    (if is_None mark_maps_list then Ok (_mark_maps self)
     else
       items <- py_iter mark_maps_list ;;
       mark_map_loop items (_mark_maps self)) ;;
  global_profiles_list <- py_get qos_dict "profile" ;;
  profiles <-
    (if is_None global_profiles_list then Ok (_global_profiles self)
     else
       items <- py_iter global_profiles_list ;;
       profile_loop items 0 (_global_profiles self)) ;;
  policy_name_list <- py_get qos_dict "name" ;;
  policies <-
    (if is_None policy_name_list then Ok (_qos_policies self)
     else
       items <- py_iter policy_name_list ;;
       policy_loop items profiles maps (_qos_policies self)) ;;
  Ok (mkQosConfig (_action_groups self) maps profiles (_interfaces self)
        policies).

(** A call [Interface(...)]: [None] for the fourth argument stands for a
    call that passes three arguments only, which the interpreter refuses
    before the constructor's body runs. *)
Definition Interface_call (if_type : string) (if_dict : json)
    (qos_policy_dict : list (string * Policy))
    (ingress_map_dict : option (list (string * IngressMap)))
    (links : Links) : result (Interface * Links) :=
  match ingress_map_dict with
  | Some maps => Interface_init if_type if_dict qos_policy_dict maps links
  | None =>
      Err (TypeError
        "__init__() missing 1 required positional argument: 'ingress_map_dict'")
  end.

Definition json_key_eqb (a b : json) : bool := py_eq a b.

Fixpoint interfaces_set (k : json) (v : Interface)
    (d : list (json * Interface)) : list (json * Interface) :=
  match d with
  | [] => [(k, v)]
  | (k', v') :: d' =>
      if json_key_eqb k k' then (k, v) :: d'
      else (k', v') :: interfaces_set k v d'
  end.

(** Lines 88-90: the loop over the entries of one interface type. *)
Fixpoint interface_loop (if_type : string) (interfaces : list json)
    (self : QosConfig) (links : Links) : result (QosConfig * Links) :=
  match interfaces with
  | [] => Ok (self, links)
  | interface :: rest =>
      '(int_obj, links1) <-
        Interface_call if_type interface (_qos_policies self) None links ;;
      interface_loop if_type rest
        (mkQosConfig (_action_groups self) (_mark_maps self)
           (_global_profiles self)
           (interfaces_set (_name int_obj) int_obj (_interfaces self))
           (_qos_policies self))
        links1
  end.

(** Lines 86-90: the loop over [if_dict.items()]. *)
Fixpoint items_loop (items : list (string * json)) (self : QosConfig)
    (links : Links) : result (QosConfig * Links) :=
  match items with
  | [] => Ok (self, links)
  | (key, interfaces) :: rest =>
      if_type <-
        match nth_error (split_colon key) 1 with
        | Some t => Ok t
        | None => Err IndexError
        end ;;
      entries <- py_iter interfaces ;;
      '(self1, links1) <- interface_loop if_type entries self links ;;
      items_loop rest self1 links1
  end.

Definition _process_interfaces (self : QosConfig) (if_dict : json)
    (links : Links) : result (QosConfig * Links) :=
  match if_dict with
  | JNull => Ok (self, links)
  | JDict items => items_loop items self links
  | _ => Err (AttributeError "items")
  end.

Definition QosConfig_init (config_dict : json)
  : result (QosConfig * Links) :=
  let self := empty_config in
  policy_dict <- py_get config_dict "vyatta-policy-v1:policy" ;;
  if is_None policy_dict then Ok (self, no_links)
  else
    action_dict <- py_get policy_dict "vyatta-policy-action-v1:action" ;;
    self <- _process_action self action_dict ;;
    qos_dict <- py_getitem policy_dict "vyatta-policy-qos-v1:qos" ;;
    self <- _process_qos self qos_dict ;;
    if_dict <- py_get config_dict "vyatta-interfaces-v1:interfaces" ;;
    _process_interfaces self if_dict no_links.

End QosConfig.

(** ** Sample configurations *)

Definition sample_pipe_command (prefix : string) (pipe : nat)
    (index : option Z) : string :=
  prefix ++ " pipe " ++ str_of_Z (Z.of_nat pipe) ++ " profile " ++
  match index with
  | Some i => str_of_Z i
  | None => "None"
  end.

Definition STD_POLICY : string := "vyatta-interfaces-policy-v1:policy".
Definition SWITCH_GROUP : string :=
  "vyatta-interfaces-dataplane-switch-v1:switch-group".
Definition SWITCH_POLICY : string := "vyatta-interfaces-switch-policy-v1:policy".
Definition QOS : string := "vyatta-policy-qos-v1:qos".
Definition INGRESS_MAP : string := "vyatta-policy-qos-v1:ingress-map".

(** A policy with one class served by its one local profile. *)
Definition one_class_policy (name profile : string) (overhead : Z) : Policy :=
  mkPolicy name [LocalProfile profile] None [profile] overhead.

(** A dataplane interface whose trunk policy dictionary has no QoS entry
    and whose only VLAN carries the policy [policy]. *)
Definition vlan_only_if_dict (ifname policy : string) (vlan : Z) : json :=
  JDict [ ("tagnode", JStr ifname);
          (STD_POLICY, JDict []);
          ("vif", JList [ JDict [ ("tagnode", JNum vlan);
                                  (STD_POLICY, JDict [ (QOS, JStr policy) ]) ] ]) ].

(** The interface [Interface.__init__] builds from [vlan_only_if_dict]. *)
Definition vlan_only_interface (ifname policy profile : string)
    (vlan overhead : Z) : Interface :=
  let p := one_class_policy policy profile overhead in
  mkInterface (vlan_only_if_dict ifname policy vlan) (JStr ifname) None
    [mkSubport 1 (JNum vlan) (Some p)] [] [p] [((JNum vlan, profile), 0)].

(** An interface entry with no policy attachment of either style. *)
Definition bare_if_dict : json := JDict [ ("tagnode", JStr "dp0p1") ].

(** An interface with a trunk policy and one VLAN without any attachment. *)
Definition bare_vif_if_dict : json :=
  JDict [ ("tagnode", JStr "dp0p1");
          (STD_POLICY, JDict [ (QOS, JStr "P1") ]);
          ("vif", JList [ JDict [ ("tagnode", JNum 10) ] ]) ].

(** An interface naming an ingress-map on its trunk. *)
Definition trunk_map_if_dict (map_name : string) : json :=
  JDict [ ("tagnode", JStr "dp0p1");
          (STD_POLICY, JDict [ (INGRESS_MAP, JStr map_name) ]) ].

(** A hardware-switch interface naming an ingress-map on VLAN 10. *)
Definition vlan_map_if_dict (map_name : string) : json :=
  JDict [ ("tagnode", JStr "dp0p1");
          (SWITCH_GROUP,
           JDict [ ("port-parameters",
                    JDict [ (SWITCH_POLICY, JDict []);
                            ("vlan-parameters",
                             JDict [ ("qos-parameters",
                                      JDict [ ("vlan",
                                               JList [ JDict [ ("vlan-id", JNum 10);
                                                               (SWITCH_POLICY,
                                                                JDict [ (INGRESS_MAP, JStr map_name) ]) ] ]) ]) ]) ]) ]) ].

(** A snapshot with one interface entry and no policy subtree. *)
Definition interfaces_only_config : json :=
  JDict [ ("vyatta-interfaces-v1:interfaces",
           JDict [ ("vyatta-interfaces-dataplane-v1:dataplane",
                    JList [ bare_if_dict ]) ]) ].

(** A snapshot with an empty QoS subtree and one interface entry. *)
Definition policy_and_interface_config : json :=
  JDict [ ("vyatta-policy-v1:policy",
           JDict [ ("vyatta-policy-qos-v1:qos", JDict []) ]);
          ("vyatta-interfaces-v1:interfaces",
           JDict [ ("vyatta-interfaces-dataplane-v1:dataplane",
                    JList [ bare_if_dict ]) ]) ].

Definition has_entries (v : json) : bool :=
  match py_iter v with
  | Ok (_ :: _) => true
  | _ => false
  end.

(** The interfaces subtree holds at least one interface entry. *)
Definition has_interface_entry (config_dict : json) : bool :=
  match py_get config_dict "vyatta-interfaces-v1:interfaces" with
  | Ok (JDict items) => existsb (fun kv => has_entries (snd kv)) items
  | _ => false
  end.

(** ** Auxiliary definitions for the properties *)

(** The subport's attached policy has at least one traffic class. *)
Definition has_traffic_class (s : Subport) : bool :=
  match subport_policy s with
  | Some p => negb (Nat.eqb (List.length (policy_classes p)) 0)
  | None => false
  end.

(** The subport is the trunk's, with a policy: the one case in which the
    loop of [commands()] assigns [overhead]. *)
Definition assigns_overhead (s : Subport) : bool :=
  match subport_policy s with
  | Some _ => Z.eqb (subport_id s) 0
  | None => false
  end.

(** Constructors for the classes of the modules [action] and [mark_map] that
    accept every dictionary, to run [QosConfig] on sample snapshots. *)
Definition sample_init (_ : json) : result unit := Ok tt.
Definition sample_name (_ : unit) : string := "any".
Definition sample_profile_name (d : json) : result string :=
  match py_getitem d "id" with
  | Ok (JStr s) => Ok s
  | Ok _ => Err (TypeError "profile name")
  | Err e => Err e
  end.
Definition sample_policy_init (d : json) (_ : list (string * Profile))
    (_ : list (string * unit)) : result Policy :=
  match py_getitem d "id" with
  | Ok (JStr s) => Ok (mkPolicy s [] None [] 24)
  | Ok _ => Err (TypeError "policy name")
  | Err e => Err e
  end.
Definition sample_QosConfig_init (config_dict : json)
  : result (QosConfig unit unit * Links) :=
  QosConfig_init unit sample_init sample_name unit sample_init sample_name
    sample_profile_name sample_policy_init config_dict.

(** A QoS subtree declaring the global profiles [prof-a] and [prof-b]. *)
Definition two_profiles : list json :=
  [ JDict [("id", JStr "prof-a")]; JDict [("id", JStr "prof-b")] ].

Definition two_profiles_qos_dict : json :=
  JDict [ ("profile", JList two_profiles) ].

Definition two_profiles_registry : list (string * Profile) :=
  [ ("prof-a", mkProfile 0 "prof-a" (JDict [("id", JStr "prof-a")]) None);
    ("prof-b", mkProfile 1 "prof-b" (JDict [("id", JStr "prof-b")]) None) ].

(** No key occurs twice. *)
Fixpoint keys_unique (keys : list string) : bool :=
  match keys with
  | [] => true
  | k :: rest => negb (existsb (String.eqb k) rest) && keys_unique rest
  end.

(** A decoded JSON value is well formed when no dict in it has a key
    twice, which is all a Python dict can be. *)
Fixpoint wf_json (j : json) : bool :=
  match j with
  | JList l => forallb wf_json l
  | JDict d =>
      keys_unique (map fst d) && forallb (fun kv => wf_json (snd kv)) d
  | _ => true
  end.

(** A deep copy of a configuration subtree. *)
Fixpoint deepcopy (j : json) : json :=
  match j with
  | JList l => JList (map deepcopy l)
  | JDict d => JDict (map (fun kv => (fst kv, deepcopy (snd kv))) d)
  | other => other
  end.

(** A field of the configuration subtree is reached by a path of dict keys
    and list positions. *)
Inductive step : Type :=
| Key (k : string)
| Index (n : nat).

Fixpoint get_path (path : list step) (j : json) : option json :=
  match path with
  | [] => Some j
  | Key k :: path' =>
      match j with
      | JDict d =>
          match lookup k d with
          | Some child => get_path path' child
          | None => None
          end
      | _ => None
      end
  | Index n :: path' =>
      match j with
      | JList l =>
          match nth_error l n with
          | Some child => get_path path' child
          | None => None
          end
      | _ => None
      end
  end.

(** [l[n] = v] on an existing position. *)
Fixpoint list_set (n : nat) (v : json) (l : list json) : list json :=
  match l, n with
  | [], _ => []
  | _ :: l', O => v :: l'
  | x :: l', S n' => x :: list_set n' v l'
  end.

(** Assigning [value] to the existing field at [path]. *)
Fixpoint set_path (path : list step) (value : json) (j : json) : option json :=
  match path with
  | [] => Some value
  | Key k :: path' =>
      match j with
      | JDict d =>
          match lookup k d with
          | Some child =>
              match set_path path' value child with
              | Some child' => Some (JDict (dict_set k child' d))
              | None => None
              end
          | None => None
          end
      | _ => None
      end
  | Index n :: path' =>
      match j with
      | JList l =>
          match nth_error l n with
          | Some child =>
              match set_path path' value child with
              | Some child' => Some (JList (list_set n child' l))
              | None => None
              end
          | None => None
          end
      | _ => None
      end
  end.

(** The two inner loops of [py_eq], on their own. *)
Fixpoint list_eq (xs ys : list json) : bool :=
  match xs, ys with
  | [], [] => true
  | x :: xs', y :: ys' => py_eq x y && list_eq xs' ys'
  | _, _ => false
  end.

Definition items_match (ys xs : list (string * json)) : bool :=
  forallb (fun kv => match lookup (fst kv) ys with
                     | Some w => py_eq (snd kv) w
                     | None => false
                     end) xs.

(** An interface with a trunk policy, and the same with another policy. *)
Definition trunk_if_dict (policy : string) : json :=
  JDict [ ("tagnode", JStr "dp0p1");
          (STD_POLICY, JDict [ (QOS, JStr policy) ]) ].

Definition two_policies : list (string * Policy) :=
  [ ("P1", one_class_policy "P1" "prof-a" 24);
    ("P2", one_class_policy "P2" "local-x" 24) ].

(** The policy dictionary [d] names, under the QoS key of [namespace], a
    policy that the registry does not hold. *)
Definition names_missing_policy (d : json) (namespace : string)
    (policies : list (string * Policy)) (name : string) : Prop :=
  py_get d (namespace ++ ":qos") = Ok (JStr name) /\
  lookup name policies = None.

(** Every subport's policy is one the registry holds. *)
Definition no_dangling_policy (policies : list (string * Policy))
    (self : Interface) : Prop :=
  Forall (fun s => match subport_policy s with
                   | Some p => exists name, lookup name policies = Some p
                   | None => True
                   end) (_subports self).

(** ** Auxiliary definitions: the shape of a built interface *)

(** [n] consecutive ids from [start] on. *)
Fixpoint ids_from (start : Z) (n : nat) : list Z :=
  match n with
  | O => []
  | S n' => start :: ids_from (start + 1) n'
  end.

(** The policies the subports carry, in subport order. *)
Definition subport_policies (subports : list Subport) : list Policy :=
  flat_map (fun s => match subport_policy s with
                     | Some p => [p]
                     | None => []
                     end) subports.

(** What the first subport alone makes of [overhead]. *)
Definition trunk_overhead (subports : list Subport) : option Z :=
  match subports with
  | s :: _ =>
      if Z.eqb (subport_id s) 0 then option_map policy_overhead (subport_policy s)
      else None
  | [] => None
  end.

(** The subport list of an interface: the trunk's subport when the trunk
    has a policy, then one subport per [vif] entry, then one per
    hardware-switch VLAN that has a policy, each group numbered from 1. *)
Definition subport_layout (subports trunk vif_part vlan_part : list Subport)
  : Prop :=
  subports = (trunk ++ vif_part ++ vlan_part)%list /\
  (trunk = [] \/ exists p, trunk = [mkSubport 0 (JNum 0) (Some p)]) /\
  map subport_id vif_part = ids_from 1 (List.length vif_part) /\
  map subport_id vlan_part = ids_from 1 (List.length vlan_part) /\
  Forall (fun s => subport_policy s <> None) vlan_part.

(** A dataplane interface with a trunk policy and two [vif] entries, the
    second of which has a policy dictionary without a QoS policy. *)
Definition trunk_and_vifs_if_dict : json :=
  JDict [ ("tagnode", JStr "dp0p1");
          (STD_POLICY, JDict [ (QOS, JStr "P1"); (INGRESS_MAP, JStr "in-map-1") ]);
          ("vif", JList [ JDict [ ("tagnode", JNum 10);
                                  (STD_POLICY, JDict [ (QOS, JStr "P2") ]) ];
                          JDict [ ("tagnode", JNum 20);
                                  (STD_POLICY, JDict [ (INGRESS_MAP, JStr "in-map-1") ]) ] ]) ].

Definition one_map : list (string * IngressMap) :=
  [ ("in-map-1", mkIngressMap "in-map-1") ].

(** ** QosConfig accessors *)

(** [QosConfig.find_interface]: [self._interfaces.get(name)]. *)
Fixpoint interfaces_get (name : json) (d : list (json * Interface))
  : option Interface :=
  match d with
  | [] => None
  | (k, v) :: d' => if py_eq name k then Some v else interfaces_get name d'
  end.

Definition find_interface {Action MarkMap : Type}
    (self : QosConfig Action MarkMap) (name : json) : option Interface :=
  interfaces_get name (_interfaces Action MarkMap self).

(** Lines 107-112: the loop of [deferred_interfaces] over
    [self._interfaces.values()].  Each interface is asked for its ifindex,
    which may store it in the interface; the result is the list of deferred
    names with the interfaces as the accesses left them. *)
Fixpoint deferred_loop (sysfs : json -> option string)
    (interfaces : list (json * Interface))
  : list json * list (json * Interface) :=
  match interfaces with
  | [] => ([], [])
  | (key, interface) :: rest =>
      let '(ifindex, interface') := Interface_ifindex sysfs interface in
      let '(deferred_list, rest') := deferred_loop sysfs rest in
      (match ifindex with
       | None => _name interface' :: deferred_list
       | Some _ => deferred_list
       end,
       (key, interface') :: rest')
  end.

Definition deferred_interfaces {Action MarkMap : Type}
    (sysfs : json -> option string) (self : QosConfig Action MarkMap)
  : list json * QosConfig Action MarkMap :=
  let '(deferred_list, interfaces) :=
    deferred_loop sysfs (_interfaces Action MarkMap self) in
  (deferred_list,
   mkQosConfig Action MarkMap (_action_groups _ _ self) (_mark_maps _ _ self)
     (_global_profiles _ _ self) interfaces (_qos_policies _ _ self)).

(** The names of the interfaces that hold no ifindex. *)
Fixpoint unresolved_names (interfaces : list (json * Interface)) : list json :=
  match interfaces with
  | [] => []
  | (_, interface) :: rest =>
      match _ifindex interface with
      | None => _name interface :: unresolved_names rest
      | Some _ => unresolved_names rest
      end
  end.

(** [a] is [b] with some elements left out. *)
Inductive sublist {A : Type} : list A -> list A -> Prop :=
| sublist_nil : sublist [] []
| sublist_skip : forall x a b, sublist a b -> sublist a (x :: b)
| sublist_keep : forall x a b, sublist a b -> sublist (x :: a) (x :: b).

(** A QoS subtree declaring two global profiles and the policy [P1]. *)
Definition profiles_and_policy_qos_dict : json :=
  JDict [ ("profile", JList two_profiles);
          ("name", JList [ JDict [("id", JStr "P1")] ]) ].

(** A snapshot whose policy subtree has no QoS entry. *)
Definition policy_without_qos_config : json :=
  JDict [ ("vyatta-policy-v1:policy", JDict []) ].

(** * qos_op_mode.py: the operational-state converter

    The dataplane's JSON holds integers where the code computes with them;
    the embedding raises [TypeError] on anything else, as the interpreter
    does for strings, lists, dicts and [None]. *)

Definition TC_SHIFT : Z := 2.
Definition TC_MASK : Z := 3.
Definition WRR_MASK : Z := 7.

(** [0xffffffff] and the seven-digit [0xfffffff] of [convert_tcs]. *)
Definition MASK32 : Z := 4294967295.
Definition MASK28 : Z := 268435455.

Definition get_traffic_class (qmap_value : Z) : Z :=
  Z.land qmap_value TC_MASK.

Definition get_queue_number (qmap_value : Z) : Z :=
  Z.land (Z.shiftr qmap_value TC_SHIFT) WRR_MASK.

(** An operand of [&], [>>] or [-]. *)
Definition as_int (v : json) : result Z :=
  match v with
  | JNum z => Ok z
  | _ => Err (TypeError "unsupported operand type(s)")
  end.

(** [v & mask] *)
Definition py_and (v : json) (mask : Z) : result json :=
  z <- as_int v ;; Ok (JNum (Z.land z mask)).

(** [a - b] *)
Definition py_sub (a b : json) : result json :=
  x <- as_int a ;; y <- as_int b ;; Ok (JNum (x - y)).

(** [del d[k]] *)
Fixpoint dict_del {V : Type} (k : string) (d : list (string * V))
  : list (string * V) :=
  match d with
  | [] => []
  | (k', v) :: d' =>
      if String.eqb k k' then d' else (k', v) :: dict_del k d'
  end.

(** Lines 193-204 *)
Fixpoint tc_rates_loop (tc_rates_in : list json) (tc_id : Z) : list json :=
  match tc_rates_in with
  | [] => []
  | tc_rate :: rest =>
      let tc_rate_out := dict_set "traffic-class" (JNum tc_id) [] in
      let tc_rate_out := dict_set "rate" tc_rate tc_rate_out in
      JDict tc_rate_out :: tc_rates_loop rest (tc_id + 1)
  end.

Definition convert_tc_rates (tc_rates_in : json) : result json :=
  items <- py_iter tc_rates_in ;;
  Ok (JList (tc_rates_loop items 0)).

(** Lines 212-223 *)
Fixpoint wrr_weights_loop (wrr_weights_in : list json) (queue_id : Z)
  : list json :=
  match wrr_weights_in with
  | [] => []
  | wrr :: rest =>
      let wrr_weight_out := dict_set "queue" (JNum queue_id) [] in
      let wrr_weight_out := dict_set "weight" wrr wrr_weight_out in
      JDict wrr_weight_out :: wrr_weights_loop rest (queue_id + 1)
  end.

Definition convert_wrr_weights (wrr_weights_in : json) : result json :=
  items <- py_iter wrr_weights_in ;;
  Ok (JList (wrr_weights_loop items 0)).

(** Dicts keyed by integers: the reverse map from traffic class and queue
    to the code points sent there. *)
Fixpoint zlookup {V : Type} (k : Z) (d : list (Z * V)) : option V :=
  match d with
  | [] => None
  | (k', v) :: d' => if Z.eqb k k' then Some v else zlookup k d'
  end.

Fixpoint zdict_set {V : Type} (k : Z) (v : V) (d : list (Z * V))
  : list (Z * V) :=
  match d with
  | [] => [(k, v)]
  | (k', v') :: d' =>
      if Z.eqb k k' then (k, v) :: d' else (k', v') :: zdict_set k v d'
  end.

Definition tc_queue_map : Type := list (Z * list (Z * list Z)).

(** Lines 251-268: the code points of [(tc_id, q_id)] so far, the new one
    appended, stored back; the inner dict is created when the traffic
    class is met for the first time. *)
Definition record_code_point (m : tc_queue_map) (tc_id q_id code_point : Z)
  : tc_queue_map :=
  let values :=
    match zlookup tc_id m with
    | Some queues =>
        match zlookup q_id queues with
        | Some values => values
        | None => []
        end
    | None => []
    end in
  let values := (values ++ [code_point])%list in
  match zlookup tc_id m with
  | Some queues => zdict_set tc_id (zdict_set q_id values queues) m
  | None => zdict_set tc_id (zdict_set q_id values []) m
  end.

Definition code_point_entry (tag : string) (id tc_id q_id : Z) : json :=
  let out := dict_set tag (JNum id) [] in
  let out :=
    dict_set "vyatta-policy-qos-groupings-v1:traffic-class" (JNum tc_id) out in
  let out := dict_set "vyatta-policy-qos-groupings-v1:queue" (JNum q_id) out in
  JDict out.

(** Lines 237-270 *)
Fixpoint dscp_loop (dscp_map_in : list json) (dscp_id : Z)
    (dscp_map_out : list json) (m : tc_queue_map)
  : result (list json * tc_queue_map) :=
  match dscp_map_in with
  | [] => Ok (dscp_map_out, m)
  | dscp_map_value :: rest =>
      v <- as_int dscp_map_value ;;
      let tc_id := get_traffic_class v in
      let q_id := get_queue_number v in
      let dscp_map_out :=
        (dscp_map_out ++ [code_point_entry "dscp" dscp_id tc_id q_id])%list in
      dscp_loop rest (dscp_id + 1) dscp_map_out
        (record_code_point m tc_id q_id dscp_id)
  end.

Definition convert_dscp_map (dscp_map_in : json)
  : result (list json * tc_queue_map) :=
  if is_None dscp_map_in then Ok ([], [])
  else
    items <- py_iter dscp_map_in ;;
    dscp_loop items 0 [] [].

(** [l[i]] on a list, with Python's negative positions. *)
Definition list_getitem {A : Type} (l : list A) (i : Z) : result A :=
  let n := Z.of_nat (List.length l) in
  let pos := if Z.ltb i 0 then i + n else i in
  if Z.ltb pos 0 then Err IndexError
  else
    match nth_error l (Z.to_nat pos) with
    | Some x => Ok x
    | None => Err IndexError
    end.

Fixpoint list_update {A : Type} (n : nat) (v : A) (l : list A) : list A :=
  match l, n with
  | [], _ => []
  | _ :: l', O => v :: l'
  | x :: l', S n' => x :: list_update n' v l'
  end.

(** [l[i] = v] on a list. *)
Definition list_setitem {A : Type} (l : list A) (i : Z) (v : A)
  : result (list A) :=
  let n := Z.of_nat (List.length l) in
  let pos := if Z.ltb i 0 then i + n else i in
  if Z.ltb pos 0 then Err IndexError
  else if Z.ltb pos n then Ok (list_update (Z.to_nat pos) v l)
  else Err IndexError.

(** [tc_queue_to_pcp_map] starts as a list (line 282); its cells would be
    [None] or a list of code points. *)
Definition tc_queue_list : Type := list (list (option (list Z))).

(** Lines 286-308 *)
Fixpoint pcp_loop (pcp_map_in : list json) (pcp_id : Z)
    (pcp_map_out : list json) (m : tc_queue_list)
  : result (list json * tc_queue_list) :=
  match pcp_map_in with
  | [] => Ok (pcp_map_out, m)
  | pcp_value :: rest =>
      v <- as_int pcp_value ;;
      let tc_id := get_traffic_class v in
      let q_id := get_queue_number v in
      let pcp_map_out :=
        (pcp_map_out ++ [code_point_entry "pcp" pcp_id tc_id q_id])%list in
      queues <- list_getitem m tc_id ;;
      cell <- list_getitem queues q_id ;;
      match cell with
      | Some _ => pcp_loop rest pcp_id pcp_map_out m
      | None =>
          let pcp_values := [pcp_id] in
          queues <- list_getitem m tc_id ;;
          queues' <- list_setitem queues q_id (Some pcp_values) ;;
          m' <- list_setitem m tc_id queues' ;;
          pcp_loop rest (pcp_id + 1) pcp_map_out m'
      end
  end.

Definition convert_pcp_map (pcp_map_in : json)
  : result (list json * tc_queue_list) :=
  if is_None pcp_map_in then Ok ([], [])
  else
    items <- py_iter pcp_map_in ;;
    pcp_loop items 0 [] [].

(** Lines 315-323 *)
Definition convert_map_list (map_list : list Z) (map_type : string) : json :=
  JList (map (fun value => JDict (dict_set map_type (JNum value) [])) map_list).

(** Lines 331-340 *)
Fixpoint wred_map_loop (map_list_in : list json) : result (list json) :=
  match map_list_in with
  | [] => Ok []
  | map_in :: rest =>
      res_grp <- py_getitem map_in "res_grp" ;;
      let map_out := dict_set "res-grp" res_grp [] in
      drop <- py_getitem map_in "random_dscp_drop" ;;
      drop32 <- py_and drop MASK32 ;;
      let map_out := dict_set "random-dscp-drop" drop32 map_out in
      rest_out <- wred_map_loop rest ;;
      Ok (JDict map_out :: rest_out)
  end.

Definition convert_wred_map_list (map_list_in : json) : result json :=
  items <- py_iter map_list_in ;;
  out <- wred_map_loop items ;;
  Ok (JList out).

(** Lines 348-357 *)
Fixpoint wred_map_loop_64 (map_list_in : list json) : result (list json) :=
  match map_list_in with
  | [] => Ok []
  | map_in :: rest =>
      res_grp <- py_getitem map_in "res_grp" ;;
      let map_out := dict_set "res-grp-64" res_grp [] in
      drop <- py_getitem map_in "random_dscp_drop" ;;
      let map_out := dict_set "random-dscp-drop-64" drop map_out in
      rest_out <- wred_map_loop_64 rest ;;
      Ok (JDict map_out :: rest_out)
  end.

Definition convert_wred_map_list_64 (map_list_in : json) : result json :=
  items <- py_iter map_list_in ;;
  out <- wred_map_loop_64 items ;;
  Ok (JList out).

(** The reverse map handed to [convert_tc_queues]: the dict that
    [convert_dscp_map] builds or the list that [convert_pcp_map] returns. *)
Inductive reverse_map : Type :=
| ReverseDict (m : tc_queue_map)
| ReverseList (m : tc_queue_list).

(** [reverse_map[tc_id][queue_id]]; [None] is a cell holding [None]. *)
Definition reverse_getitem (r : reverse_map) (tc_id queue_id : Z)
  : result (option (list Z)) :=
  match r with
  | ReverseDict m =>
      match zlookup tc_id m with
      | Some queues =>
          match zlookup queue_id queues with
          | Some values => Ok (Some values)
          | None => Err (KeyError (JNum queue_id))
          end
      | None => Err (KeyError (JNum tc_id))
      end
  | ReverseList m =>
      queues <- list_getitem m tc_id ;;
      list_getitem queues queue_id
  end.

(** Lines 369-426: one queue of a traffic class; [None] when the reverse
    map has no entry for it and the [KeyError] is passed over. *)
Definition convert_tc_queue (queue : json) (queue_id tc_id : Z)
    (reverse : reverse_map) (map_type_values : string)
  : result (option json) :=
  let queue_out := dict_set "queue" (JNum queue_id) [] in
  packets <- py_getitem queue "packets" ;;
  packets32 <- py_and packets MASK32 ;;
  let queue_out :=
    dict_set "vyatta-policy-qos-groupings-v1:packets" packets32 queue_out in
  bytes <- py_getitem queue "bytes" ;;
  bytes32 <- py_and bytes MASK32 ;;
  let queue_out :=
    dict_set "vyatta-policy-qos-groupings-v1:bytes" bytes32 queue_out in
  dropped <- py_getitem queue "dropped" ;;
  random_drop <- py_getitem queue "random_drop" ;;
  tail_drop <- py_sub dropped random_drop ;;
  tail_drop32 <- py_and tail_drop MASK32 ;;
  let queue_out :=
    dict_set "vyatta-policy-qos-groupings-v1:dropped" tail_drop32 queue_out in
  random_drop <- py_getitem queue "random_drop" ;;
  random_drop32 <- py_and random_drop MASK32 ;;
  let queue_out :=
    dict_set "vyatta-policy-qos-groupings-v1:random-drop" random_drop32
      queue_out in
  wred_map <- py_get queue "wred_map" ;;
  queue_out <-
    (if is_None wred_map then Ok queue_out
     else
       wred_map <- py_getitem queue "wred_map" ;;
       converted <- convert_wred_map_list wred_map ;;
       Ok (dict_set "vyatta-policy-qos-groupings-v1:wred-map" converted
             queue_out)) ;;
  packets <- py_getitem queue "packets" ;;
  let queue_out :=
    dict_set "vyatta-policy-qos-groupings-v1:packets-64" packets queue_out in
  bytes <- py_getitem queue "bytes" ;;
  let queue_out :=
    dict_set "vyatta-policy-qos-groupings-v1:bytes-64" bytes queue_out in
  dropped <- py_getitem queue "dropped" ;;
  random_drop <- py_getitem queue "random_drop" ;;
  tail_drop <- py_sub dropped random_drop ;;
  let queue_out :=
    dict_set "vyatta-policy-qos-groupings-v1:dropped-64" tail_drop queue_out in
  random_drop <- py_getitem queue "random_drop" ;;
  let queue_out :=
    dict_set "vyatta-policy-qos-groupings-v1:random-drop-64" random_drop
      queue_out in
  wred_map <- py_get queue "wred_map" ;;
  queue_out <-
    (if is_None wred_map then Ok queue_out
     else
       wred_map <- py_getitem queue "wred_map" ;;
       converted <- convert_wred_map_list_64 wred_map ;;
       Ok (dict_set "vyatta-policy-qos-groupings-v1:wred-map-64" converted
             queue_out)) ;;
  qlen <- py_get queue "qlen" ;;
  queue_out <-
    (if is_None qlen then
       qlen_bytes <- py_getitem queue "qlen-bytes" ;;
       Ok (dict_set "vyatta-policy-qos-groupings-v1:qlen-bytes" qlen_bytes
             queue_out)
     else
       qlen <- py_getitem queue "qlen" ;;
       qlen32 <- py_and qlen MASK32 ;;
       let queue_out :=
         dict_set "vyatta-policy-qos-groupings-v1:qlen" qlen32 queue_out in
       qlen <- py_getitem queue "qlen" ;;
       Ok (dict_set "vyatta-policy-qos-groupings-v1:qlen-packets" qlen
             queue_out)) ;;
  prio_local <- py_getitem queue "prio_local" ;;
  let queue_out := dict_set "priority-local" prio_local queue_out in
  let map_type :=
    if String.eqb map_type_values "dscp-values" then "dscp" else "pcp" in
  except_KeyError
    (cp_list <- reverse_getitem reverse tc_id queue_id ;;
     match cp_list with
     | Some values =>
         Ok (Some (JDict (dict_set map_type_values
                            (convert_map_list values map_type) queue_out)))
     | None => Err (TypeError "'NoneType' object is not iterable")
     end)
    (Ok None).

(** Lines 368-430 *)
Fixpoint tc_queues_loop (tc_queues_in : list json) (queue_id tc_id : Z)
    (reverse : reverse_map) (map_type_values : string)
  : result (list json) :=
  match tc_queues_in with
  | [] => Ok []
  | queue :: rest =>
      queue_out <-
        convert_tc_queue queue queue_id tc_id reverse map_type_values ;;
      rest_out <-
        tc_queues_loop rest (queue_id + 1) tc_id reverse map_type_values ;;
      Ok (match queue_out with
          | Some q => q :: rest_out
          | None => rest_out
          end)
  end.

Definition convert_tc_queues (tc_queues_in : json) (tc_id : Z)
    (reverse : reverse_map) (map_type_values : string) : result json :=
  items <- py_iter tc_queues_in ;;
  out <- tc_queues_loop items 0 tc_id reverse map_type_values ;;
  Ok (JList out).

(** Lines 441-452 *)
Fixpoint tc_queue_list_loop (tc_queues_list_in : list json) (tc_id : Z)
    (reverse : reverse_map) (map_type_values : string)
  : result (list json) :=
  match tc_queues_list_in with
  | [] => Ok []
  | tc_queues_in :: rest =>
      let tc_queues_out := dict_set "traffic-class" (JNum tc_id) [] in
      stats <- convert_tc_queues tc_queues_in tc_id reverse map_type_values ;;
      let tc_queues_out := dict_set "queue-statistics" stats tc_queues_out in
      rest_out <-
        tc_queue_list_loop rest (tc_id + 1) reverse map_type_values ;;
      Ok (JDict tc_queues_out :: rest_out)
  end.

Definition convert_tc_queue_list (tc_queues_list_in : json)
    (reverse : reverse_map) (map_type_values : string) : result json :=
  items <- py_iter tc_queues_list_in ;;
  out <- tc_queue_list_loop items 0 reverse map_type_values ;;
  Ok (JList out).

(** [del d[k]], which raises when the key is absent. *)
Definition py_del (d : list (string * json)) (k : string)
  : result (list (string * json)) :=
  match lookup k d with
  | Some _ => Ok (dict_del k d)
  | None => Err (KeyError (JStr k))
  end.

(** Lines 460-501 *)
Definition convert_pipe (cmd : string) (pipe_in : json) (pipe_id : Z)
    (profile_name : json) : result json :=
  let pipe_out := dict_set "pipe" (JNum pipe_id) [] in
  let pipe_out := dict_set "qos-class" (JNum pipe_id) pipe_out in
  let pipe_out := dict_set "qos-profile" profile_name pipe_out in
  pipe_out <-
    (if String.eqb cmd "all" then
       params <- py_getitem pipe_in "params" ;;
       tb_rate <- py_getitem params "tb_rate" ;;
       let pipe_out :=
         dict_set "vyatta-policy-qos-groupings-v1:token-bucket-rate" tb_rate
           pipe_out in
       params <- py_getitem pipe_in "params" ;;
       tb_size <- py_getitem params "tb_size" ;;
       let pipe_out :=
         dict_set "vyatta-policy-qos-groupings-v1:token-bucket-size" tb_size
           pipe_out in
       params <- py_getitem pipe_in "params" ;;
       tc_period <- py_getitem params "tc_period" ;;
       let pipe_out :=
         dict_set "vyatta-policy-qos-groupings-v1:traffic-class-period"
           tc_period pipe_out in
       params <- py_getitem pipe_in "params" ;;
       tc_rates <- py_getitem params "tc_rates" ;;
       rates <- convert_tc_rates tc_rates ;;
       let pipe_out :=
         dict_set "vyatta-policy-qos-groupings-v1:traffic-class-rates" rates
           pipe_out in
       params <- py_getitem pipe_in "params" ;;
       wrr_weights <- py_getitem params "wrr_weights" ;;
       weights <- convert_wrr_weights wrr_weights ;;
       Ok (dict_set
             "vyatta-policy-qos-groupings-v1:weighted-round-robin-weights"
             weights pipe_out)
     else Ok pipe_out) ;;
  dscp2q <- py_get pipe_in "dscp2q" ;;
  '(dscp_map, reverse_dscp_map) <- convert_dscp_map dscp2q ;;
  let pipe_out := dict_set "dscp-to-queue-map" (JList dscp_map) pipe_out in
  pcp2q <- py_get pipe_in "pcp2q" ;;
  '(pcp_map, reverse_pcp_map) <- convert_pcp_map pcp2q ;;
  let pipe_out := dict_set "pcp-to-queue-map" (JList pcp_map) pipe_out in
  dscp_to_queue_map <- py_get (JDict pipe_out) "dscp-to-queue-map" ;;
  queue_list <-
    (if is_None dscp_to_queue_map then
       tc <- py_getitem pipe_in "tc" ;;
       convert_tc_queue_list tc (ReverseList reverse_pcp_map) "pcp-values"
     else
       tc <- py_getitem pipe_in "tc" ;;
       convert_tc_queue_list tc (ReverseDict reverse_dscp_map) "dscp-values") ;;
  let pipe_out := dict_set "traffic-class-queues-list" queue_list pipe_out in
  pipe_out <-
    (if String.eqb cmd "stats" then
       pipe_out <- py_del pipe_out "dscp-to-queue-map" ;;
       py_del pipe_out "pcp-to-queue-map"
     else Ok pipe_out) ;;
  Ok (JDict pipe_out).

(** Lines 536-565: one traffic class of a subport. *)
Definition convert_tc (tc_in : json) (tc_id : Z) : result json :=
  let tc_out := dict_set "traffic-class" (JNum tc_id) [] in
  packets <- py_getitem tc_in "packets" ;;
  packets32 <- py_and packets MASK32 ;;
  let tc_out :=
    dict_set "vyatta-policy-qos-groupings-v1:packets" packets32 tc_out in
  bytes <- py_getitem tc_in "bytes" ;;
  bytes28 <- py_and bytes MASK28 ;;
  let tc_out :=
    dict_set "vyatta-policy-qos-groupings-v1:bytes" bytes28 tc_out in
  dropped <- py_getitem tc_in "dropped" ;;
  random_drop <- py_getitem tc_in "random_drop" ;;
  tail_drop <- py_sub dropped random_drop ;;
  tail_drop32 <- py_and tail_drop MASK32 ;;
  let tc_out :=
    dict_set "vyatta-policy-qos-groupings-v1:dropped" tail_drop32 tc_out in
  random_drop <- py_getitem tc_in "random_drop" ;;
  random_drop32 <- py_and random_drop MASK32 ;;
  let tc_out :=
    dict_set "vyatta-policy-qos-groupings-v1:random-drop" random_drop32
      tc_out in
  packets <- py_getitem tc_in "packets" ;;
  let tc_out :=
    dict_set "vyatta-policy-qos-groupings-v1:packets-64" packets tc_out in
  bytes <- py_getitem tc_in "bytes" ;;
  let tc_out :=
    dict_set "vyatta-policy-qos-groupings-v1:bytes-64" bytes tc_out in
  dropped <- py_getitem tc_in "dropped" ;;
  random_drop <- py_getitem tc_in "random_drop" ;;
  tail_drop <- py_sub dropped random_drop ;;
  let tc_out :=
    dict_set "vyatta-policy-qos-groupings-v1:dropped-64" tail_drop tc_out in
  random_drop <- py_getitem tc_in "random_drop" ;;
  let tc_out :=
    dict_set "vyatta-policy-qos-groupings-v1:random-drop-64" random_drop
      tc_out in
  Ok (JDict tc_out).

Fixpoint tcs_loop (tcs_in : list json) (tc_id : Z) : result (list json) :=
  match tcs_in with
  | [] => Ok []
  | tc_in :: rest =>
      tc_out <- convert_tc tc_in tc_id ;;
      rest_out <- tcs_loop rest (tc_id + 1) ;;
      Ok (tc_out :: rest_out)
  end.

Definition convert_tcs (tcs_in : json) : result json :=
  items <- py_iter tcs_in ;;
  out <- tcs_loop items 0 ;;
  Ok (JList out).

(** Lines 683-692 *)
Fixpoint vlans_loop (vlans_in : list json) : result (list json) :=
  match vlans_in with
  | [] => Ok []
  | vlan :: rest =>
      tag <- py_getitem vlan "tag" ;;
      let vlan_out := dict_set "tag" tag [] in
      subport <- py_getitem vlan "subport" ;;
      let vlan_out := dict_set "subport" subport vlan_out in
      rest_out <- vlans_loop rest ;;
      Ok (JDict vlan_out :: rest_out)
  end.

Definition convert_vlans (vlans_in : json) : result json :=
  items <- py_iter vlans_in ;;
  out <- vlans_loop items ;;
  Ok (JList out).

(** ** Looking names up in the running configuration *)

(** [s.find(sub)]: the position of the first occurrence; [None] is -1. *)
Fixpoint str_find (sub s : string) : option nat :=
  match s with
  | EmptyString => if prefix sub EmptyString then Some O else None
  | String _ s' =>
      if prefix sub s then Some O else option_map S (str_find sub s')
  end.

(** [s[n:]] *)
Fixpoint str_drop (n : nat) (s : string) : string :=
  match n, s with
  | O, _ => s
  | S n', EmptyString => EmptyString
  | S n', String _ s' => str_drop n' s'
  end.

(** [s[:n]] *)
Fixpoint str_take (n : nat) (s : string) : string :=
  match n, s with
  | O, _ => EmptyString
  | S n', EmptyString => EmptyString
  | S n', String c s' => String c (str_take n' s')
  end.

(** Lines 124-130: the interface name and the VLAN tag of a subport name
    of the form [<if-name>[ vif <vlan-tag>]]. *)
Definition split_subport_name (subport_name : string)
  : string * option string :=
  match str_find " vif " subport_name with
  | None => (subport_name, None)
  | Some index =>
      (str_take index subport_name, Some (str_drop (index + 5) subport_name))
  end.

(** Lines 72-84 *)
Definition get_port_policy_name (if_type_dict : json) : result json :=
  policy_dict <-
    match py_getitem if_type_dict "vyatta-interfaces-policy-v1:policy" with
    | Ok d => Ok (Some d)
    | Err (KeyError _) =>
        except_KeyError
          (switch_group <-
             py_getitem if_type_dict
               "vyatta-interfaces-dataplane-switch-v1:switch-group" ;;
           port_params_dict <- py_getitem switch_group "port-parameters" ;;
           d <- py_getitem port_params_dict
                  "vyatta-interfaces-switch-policy-v1:policy" ;;
           Ok (Some d))
          (Ok None)
    | Err e => Err e
    end ;;
  match policy_dict with
  | Some d => py_getitem d "vyatta-policy-qos-v1:qos"
  | None => Ok JNull
  end.

(** Lines 96-99: the first [vif] entry whose [tagnode] equals the tag
    decides. *)
Fixpoint vif_search (vif_list : list json) (vlan_tag : json) : result json :=
  match vif_list with
  | [] => Ok JNull
  | vif_dict :: rest =>
      tagnode <- py_getitem vif_dict "tagnode" ;;
      if py_eq tagnode vlan_tag then
        policy_dict <- py_getitem vif_dict "vyatta-interfaces-policy-v1:policy" ;;
        py_getitem policy_dict "vyatta-policy-qos-v1:qos"
      else vif_search rest vlan_tag
  end.

(** Lines 107-110 *)
Fixpoint vlan_search (vlan_list : list json) (port_params_dict vlan_tag : json)
  : result json :=
  match vlan_list with
  | [] => Ok JNull
  | vlan_dict :: rest =>
      vlan_id <- py_getitem vlan_dict "vlan-id" ;;
      if py_eq vlan_id vlan_tag then
        policy_dict <-
          py_getitem port_params_dict
            "vyatta-interfaces-switch-policy-v1:policy" ;;
        py_getitem policy_dict "vyatta-policy-qos-v1:qos"
      else vlan_search rest port_params_dict vlan_tag
  end.

(** Lines 93-114 *)
Definition get_vlan_policy_name (if_type_dict vlan_tag : json) : result json :=
  vif_list <- py_get if_type_dict "vif" ;;
  if is_None vif_list then
    except_KeyError
      (switch_group <-
         py_getitem if_type_dict
           "vyatta-interfaces-dataplane-switch-v1:switch-group" ;;
       port_params_dict <- py_getitem switch_group "port-parameters" ;;
       qos_params_dict <- py_getitem port_params_dict "qos-parameters" ;;
       vlan_list <- py_getitem qos_params_dict "vlan" ;;
       vlans <- py_iter vlan_list ;;
       vlan_search vlans port_params_dict vlan_tag)
      (Ok JNull)
  else
    vifs <- py_iter vif_list ;;
    vif_search vifs vlan_tag.

(** [if config == {}: config = get_existing_config()], where [existing]
    is what the provisioner returns. *)
Definition load_config (config existing : json) : json :=
  if py_eq config (JDict []) then existing else config.

(** [d.values()] *)
Definition py_values (d : json) : result (list json) :=
  match d with
  | JDict items => Ok (map snd items)
  | _ => Err (AttributeError "values")
  end.

(** Lines 138-143: [None] when the list holds no interface of that name. *)
Fixpoint if_list_search (if_list : list json) (if_name : string)
    (vlan_tag : option string) : result (option json) :=
  match if_list with
  | [] => Ok None
  | if_dict :: rest =>
      tagnode <- py_getitem if_dict "tagnode" ;;
      if py_eq tagnode (JStr if_name) then
        match vlan_tag with
        | None => name <- get_port_policy_name if_dict ;; Ok (Some name)
        | Some tag =>
            name <- get_vlan_policy_name if_dict (JStr tag) ;; Ok (Some name)
        end
      else if_list_search rest if_name vlan_tag
  end.

(** Lines 137-145 *)
Fixpoint if_types_search (if_lists : list json) (if_name : string)
    (vlan_tag : option string) : result json :=
  match if_lists with
  | [] => Ok JNull
  | if_list :: rest =>
      interfaces <- py_iter if_list ;;
      found <- if_list_search interfaces if_name vlan_tag ;;
      match found with
      | Some name => Ok name
      | None => if_types_search rest if_name vlan_tag
      end
  end.

(** Lines 117-145.  The module's global [config] goes in and comes out. *)
Definition get_if_subport_policy_name (config existing : json)
    (subport_name : string) : result json * json :=
  let '(if_name, vlan_tag) := split_subport_name subport_name in
  let config := load_config config existing in
  (if_types_dict <- py_get config "vyatta-interfaces-v1:interfaces" ;;
   if is_None if_types_dict then Ok JNull
   else
     if_lists <- py_values if_types_dict ;;
     if_types_search if_lists if_name vlan_tag,
   config).

(** Lines 171-173 *)
Fixpoint class_search (class_list : list json) (pipe_id : Z)
  : result (option json) :=
  match class_list with
  | [] => Ok None
  | class_dict :: rest =>
      id <- py_getitem class_dict "id" ;;
      if py_eq id (JNum pipe_id) then
        profile <- py_get class_dict "profile" ;; Ok (Some profile)
      else class_search rest pipe_id
  end.

(** Lines 163-173 *)
Fixpoint policy_search (policy_name_list : list json) (policy_name : json)
    (pipe_id : Z) : result json :=
  match policy_name_list with
  | [] => Ok JNull
  | policy :: rest =>
      id <- py_getitem policy "id" ;;
      if py_eq id policy_name then
        shaper_dict <- py_getitem policy "shaper" ;;
        if Z.eqb pipe_id 0 then py_get shaper_dict "default"
        else
          class_list <- py_get shaper_dict "class" ;;
          if is_None class_list then policy_search rest policy_name pipe_id
          else
            classes <- py_iter class_list ;;
            found <- class_search classes pipe_id ;;
            match found with
            | Some profile => Ok profile
            | None => policy_search rest policy_name pipe_id
            end
      else policy_search rest policy_name pipe_id
  end.

(** Lines 148-175 *)
Definition get_policy_class_profile_name (config existing : json)
    (policy_name : json) (pipe_id : Z) : result json * json :=
  let config := load_config config existing in
  (policy_dict <- py_get config "vyatta-policy-v1:policy" ;;
   if is_None policy_dict then Ok JNull
   else
     qos_policy_dict <- py_get policy_dict "vyatta-policy-qos-v1:qos" ;;
     policy_name_list <- py_getitem qos_policy_dict "name" ;;
     policies <- py_iter policy_name_list ;;
     policy_search policies policy_name pipe_id,
   config).

(** Lines 517-523 *)
Fixpoint pipes_loop (existing : json) (cmd : string) (pipes_in : list json)
    (policy_name : json) (pipe_id : Z) (config : json)
  : result (list json) * json :=
  match pipes_in with
  | [] => (Ok [], config)
  | pipe_in :: rest =>
      let '(profile_name, config) :=
        get_policy_class_profile_name config existing policy_name pipe_id in
      match profile_name with
      | Err e => (Err e, config)
      | Ok profile_name =>
          let pipe_out :=
            if is_None profile_name then Ok None
            else
              converted <- convert_pipe cmd pipe_in pipe_id profile_name ;;
              Ok (Some converted) in
          match pipe_out with
          | Err e => (Err e, config)
          | Ok pipe_out =>
              let '(rest_out, config) :=
                pipes_loop existing cmd rest policy_name (pipe_id + 1) config in
              (rest_out <- rest_out ;;
               Ok (match pipe_out with
                   | Some p => p :: rest_out
                   | None => rest_out
                   end),
               config)
          end
      end
  end.

(** Lines 509-525.  [None] stands for the early [return None]. *)
Definition convert_pipes (config existing : json) (cmd : string)
    (pipes_in : json) (subport_name : string) : result json * json :=
  let '(policy_name, config) :=
    get_if_subport_policy_name config existing subport_name in
  match policy_name with
  | Err e => (Err e, config)
  | Ok policy_name =>
      if is_None policy_name then (Ok JNull, config)
      else
        match py_iter pipes_in with
        | Err e => (Err e, config)
        | Ok pipes =>
            let '(out, config) :=
              pipes_loop existing cmd pipes policy_name 0 config in
            (out <- out ;; Ok (JList out), config)
        end
  end.

(** ** Auxiliary definitions for the converter's properties *)

(** The code points the reverse map holds for a traffic class and queue. *)
Definition code_points_of (m : tc_queue_map) (tc_id q_id : Z) : list Z :=
  match zlookup tc_id m with
  | Some queues =>
      match zlookup q_id queues with
      | Some values => values
      | None => []
      end
  | None => []
  end.

Definition has_entry (m : tc_queue_map) (tc_id q_id : Z) : bool :=
  match zlookup tc_id m with
  | Some queues =>
      match zlookup q_id queues with
      | Some _ => true
      | None => false
      end
  | None => false
  end.

(** The positions, counted from [start], of the values that decode to the
    traffic class [tc_id] and the queue [q_id]. *)
Fixpoint positions_from (values : list Z) (start tc_id q_id : Z) : list Z :=
  match values with
  | [] => []
  | v :: rest =>
      if Z.eqb (get_traffic_class v) tc_id && Z.eqb (get_queue_number v) q_id
      then start :: positions_from rest (start + 1) tc_id q_id
      else positions_from rest (start + 1) tc_id q_id
  end.

(** A pipe of the dataplane's answer with two DSCP values and no queues,
    and what a [stats] request makes of it. *)
Definition sample_pipe_in : json :=
  JDict [ ("dscp2q", JList [JNum 0; JNum 5]); ("tc", JList []) ].

Definition sample_pipe_out : json :=
  JDict [ ("pipe", JNum 0); ("qos-class", JNum 0);
          ("qos-profile", JStr "prof-a");
          ("traffic-class-queues-list", JList []) ].


(** The [queue] tag of a converted queue. *)
Definition queue_tag (queue_out : json) : option json :=
  match queue_out with
  | JDict items => lookup "queue" items
  | _ => None
  end.

(** A queue of the dataplane's answer, and a reverse map that knows queue 0
    of traffic class 0 only. *)
Definition sample_queue : json :=
  JDict [ ("packets", JNum 10); ("bytes", JNum 1000); ("dropped", JNum 3);
          ("random_drop", JNum 1); ("qlen", JNum 0); ("prio_local", JNum 0) ].

Definition sample_reverse_map : tc_queue_map := [ (0, [ (0, [0; 8]) ]) ].

(** No character of the string is a space. *)
Fixpoint no_space (s : string) : bool :=
  match s with
  | EmptyString => true
  | String c s' => negb (Ascii.eqb c " "%char) && no_space s'
  end.

(** A dataplane interface as the running configuration holds it, with a
    trunk policy and a [vif] whose [tagnode] is a number. *)
Definition running_if_dict : json :=
  JDict [ ("tagnode", JStr "dp0p1");
          (STD_POLICY, JDict [ (QOS, JStr "P1") ]);
          ("vif", JList [ JDict [ ("tagnode", JNum 10);
                                  (STD_POLICY, JDict [ (QOS, JStr "P2") ]) ] ]) ].

(** The [pipe] tag of a converted pipe. *)
Definition pipe_tag (pipe_out : json) : option json :=
  match pipe_out with
  | JDict items => lookup "pipe" items
  | _ => None
  end.

(** The configuration names a profile for the pipe of a policy. *)
Definition has_profile (config existing policy_name : json) (pipe_id : Z)
  : bool :=
  match fst (get_policy_class_profile_name config existing policy_name pipe_id)
  with
  | Ok profile_name => negb (is_None profile_name)
  | Err _ => false
  end.

(** A running configuration with one policy that has a default profile and
    a profile for class 2 only, attached to the trunk of [dp0p1]. *)
Definition running_config : json :=
  JDict [ ("vyatta-interfaces-v1:interfaces",
           JDict [ ("vyatta-interfaces-dataplane-v1:dataplane",
                    JList [ running_if_dict ]) ]);
          ("vyatta-policy-v1:policy",
           JDict [ ("vyatta-policy-qos-v1:qos",
                    JDict [ ("name",
                             JList [ JDict [ ("id", JStr "P1");
                                             ("shaper",
                                              JDict [ ("default", JStr "prof-a");
                                                      ("class",
                                                       JList [ JDict [ ("id", JNum 2);
                                                                       ("profile", JStr "prof-b") ] ]) ]) ] ]) ]) ]) ].


(** ** Auxiliary definitions: resolving the entries of an interface *)

(** What the [try] block of lines 82-92 and 147-157 finds: the ingress-map
    to bind, [None] when a [KeyError] is passed over. *)
Definition ingress_map_of (if_policy_dict : json)
    (ingress_map_dict : list (string * IngressMap))
  : result (option IngressMap) :=
  except_KeyError
    (ingress_map_name <-
       py_getitem if_policy_dict "vyatta-policy-qos-v1:ingress-map" ;;
     ingress_map <- registry_getitem ingress_map_dict ingress_map_name ;;
     Ok (Some ingress_map))
    (Ok None).

(** The [vif] entry goes through its turn of the loop without error. *)
Definition vif_resolves (policy_namespace namespace : string)
    (policies : list (string * Policy)) (vif : json) : Prop :=
  exists vlan_id d policy,
    py_getitem vif "tagnode" = Ok vlan_id /\
    py_getitem vif (policy_namespace ++ ":policy") = Ok d /\
    attached_policy d namespace policies = Ok policy.

(** The hardware-switch VLAN entry goes through its turn without error. *)
Definition vlan_resolves (namespace : string)
    (policies : list (string * Policy)) (maps : list (string * IngressMap))
    (vlan : json) : Prop :=
  exists vlan_id d policy binding,
    py_getitem vlan "vlan-id" = Ok vlan_id /\
    py_getitem vlan SWITCH_POLICY = Ok d /\
    attached_policy d namespace policies = Ok policy /\
    ingress_map_of d maps = Ok binding.

(** The subport list the trunk's policy gives. *)
Definition trunk_subports (trunk_policy : option Policy) : list Subport :=
  match trunk_policy with
  | Some p => [mkSubport 0 (JNum 0) (Some p)]
  | None => []
  end.

(** The subport [s] is the one of the [vif] entry: its VLAN tag is the
    entry's [tagnode] and its policy what the entry's policy dictionary
    resolves to, [None] included. *)
Definition vif_subport (policy_namespace namespace : string)
    (policies : list (string * Policy)) (vif : json) (s : Subport) : Prop :=
  exists d,
    py_getitem vif "tagnode" = Ok (subport_vlan s) /\
    py_getitem vif (policy_namespace ++ ":policy") = Ok d /\
    attached_policy d namespace policies = Ok (subport_policy s).

(** The subports of the hardware-switch VLAN list, numbered from [id]: an
    entry whose policy dictionary names no policy gives none and uses no
    id, an entry with a policy gives the subport with the next id, the
    entry's [vlan-id] and that policy. *)
Inductive switch_subports (namespace : string)
    (policies : list (string * Policy))
  : Z -> list json -> list Subport -> Prop :=
| switch_done : forall id, switch_subports namespace policies id [] []
| switch_skip : forall id vlan vlans part vlan_id d,
    py_getitem vlan "vlan-id" = Ok vlan_id ->
    py_getitem vlan SWITCH_POLICY = Ok d ->
    attached_policy d namespace policies = Ok None ->
    switch_subports namespace policies id vlans part ->
    switch_subports namespace policies id (vlan :: vlans) part
| switch_keep : forall id vlan vlans part vlan_id d p,
    py_getitem vlan "vlan-id" = Ok vlan_id ->
    py_getitem vlan SWITCH_POLICY = Ok d ->
    attached_policy d namespace policies = Ok (Some p) ->
    switch_subports namespace policies (id + 1) vlans part ->
    switch_subports namespace policies id (vlan :: vlans)
      (mkSubport id vlan_id (Some p) :: part).

(** An interface whose trunk and whose only [vif] both name a policy the
    registry does not hold. *)
Definition two_missing_if_dict : json :=
  JDict [ ("tagnode", JStr "dp0p1");
          (STD_POLICY, JDict [ (QOS, JStr "P3") ]);
          ("vif", JList [ JDict [ ("tagnode", JNum 10);
                                  (STD_POLICY, JDict [ (QOS, JStr "PX") ]) ] ]) ].

(** An interface with a [vif] without policy dictionary before the [vif]
    that names a policy the registry does not hold. *)
Definition bare_then_missing_if_dict : json :=
  JDict [ ("tagnode", JStr "dp0p1");
          (STD_POLICY, JDict [ (QOS, JStr "P1") ]);
          ("vif", JList [ JDict [ ("tagnode", JNum 10) ];
                          JDict [ ("tagnode", JNum 20);
                                  (STD_POLICY, JDict [ (QOS, JStr "PX") ]) ] ]) ].

(** An interface whose second [vif] names a policy the registry does not
    hold, the trunk and the first [vif] naming policies it holds. *)
Definition second_vif_missing_if_dict : json :=
  JDict [ ("tagnode", JStr "dp0p1");
          (STD_POLICY, JDict [ (QOS, JStr "P1") ]);
          ("vif", JList [ JDict [ ("tagnode", JNum 10);
                                  (STD_POLICY, JDict [ (QOS, JStr "P2") ]) ];
                          JDict [ ("tagnode", JNum 20);
                                  (STD_POLICY, JDict [ (QOS, JStr "PX") ]) ] ]) ].

(** A hardware-switch interface with a trunk policy and two VLANs, the
    first without QoS policy, the second with the policy [P2]. *)
Definition switch_if_dict : json :=
  JDict [ ("tagnode", JStr "dp0p1");
          (SWITCH_GROUP,
           JDict [ ("port-parameters",
                    JDict [ (SWITCH_POLICY, JDict [ (QOS, JStr "P1") ]);
                            ("vlan-parameters",
                             JDict [ ("qos-parameters",
                                      JDict [ ("vlan",
                                               JList [ JDict [ ("vlan-id", JNum 10);
                                                               (SWITCH_POLICY, JDict []) ];
                                                       JDict [ ("vlan-id", JNum 20);
                                                               (SWITCH_POLICY,
                                                                JDict [ (QOS, JStr "P2") ]) ] ]) ]) ]) ]) ]) ].

(** * Properties *)

(** ** Basic facts about the error monad and the dictionaries *)

Lemma bind_Ok_inv {A B : Type} (m : result A) (k : A -> result B) (b : B) :
  bind m k = Ok b -> exists a, m = Ok a /\ k a = Ok b.
Proof.
  destruct m as [a|e]; simpl; intros H.
  - exists a; split; [reflexivity | exact H].
  - discriminate H.
Qed.

Lemma lookup_dict_set_same {V : Type} (k : string) (v : V) d :
  lookup k (dict_set k v d) = Some v.
Proof.
  induction d as [|[k' v'] d IH]; simpl.
  - rewrite String.eqb_refl; reflexivity.
  - destruct (String.eqb k k') eqn:E; simpl.
    + rewrite String.eqb_refl; reflexivity.
    + rewrite E; exact IH.
Qed.

Lemma lookup_dict_set_other {V : Type} (k k0 : string) (v : V) d :
  String.eqb k0 k = false -> lookup k0 (dict_set k v d) = lookup k0 d.
Proof.
  intros Hne. induction d as [|[k' v'] d IH]; simpl.
  - rewrite Hne; reflexivity.
  - destruct (String.eqb k k') eqn:E; simpl.
    + apply String.eqb_eq in E; subst k'. rewrite Hne; reflexivity.
    + destruct (String.eqb k0 k'); [reflexivity | exact IH].
Qed.

(** ** The ifindex accessor *)

(** C9: the accessor returns the cached value when there is one; otherwise
    it reads the system file, and a failed read gives [None] and leaves the
    interface unresolved, with no exception; once a read has succeeded,
    every later access returns that same value whatever the file system
    says by then. *)
Theorem ifindex_cached_deferred_idempotent :
  forall (sysfs : json -> option string) (self : Interface),
    (forall ix, _ifindex self = Some ix ->
       Interface_ifindex sysfs self = (Some ix, self)) /\
    (_ifindex self = None -> sysfs (_name self) = None ->
       Interface_ifindex sysfs self = (None, self)) /\
    (forall contents, _ifindex self = None ->
       sysfs (_name self) = Some contents ->
       Interface_ifindex sysfs self =
         (Some (remove_newlines contents),
          set_ifindex self (Some (remove_newlines contents)))) /\
    (forall ix self', Interface_ifindex sysfs self = (Some ix, self') ->
       forall sysfs', Interface_ifindex sysfs' self' = (Some ix, self')).
Proof.
  intros sysfs self. unfold Interface_ifindex.
  repeat split.
  - intros ix H; rewrite H; reflexivity.
  - intros H1 H2; rewrite H1, H2; reflexivity.
  - intros c H1 H2; rewrite H1, H2; reflexivity.
  - intros ix self' H sysfs'.
    destruct (_ifindex self) as [c|] eqn:Hc.
    + inversion H; subst. rewrite Hc; reflexivity.
    + destruct (sysfs (_name self)) as [c|]; inversion H; subst.
      reflexivity.
Qed.

Lemma ifindex_cached_deferred_idempotent_witness :
  Interface_ifindex (fun _ => Some (String "7" (String newline "")))
    (mkInterface bare_if_dict (JStr "dp0p1") None [] [] [] []) =
    (Some "7", mkInterface bare_if_dict (JStr "dp0p1") (Some "7") [] [] [] [])
  /\ Interface_ifindex (fun _ => None)
       (mkInterface bare_if_dict (JStr "dp0p1") (Some "7") [] [] [] []) =
     (Some "7", mkInterface bare_if_dict (JStr "dp0p1") (Some "7") [] [] [] []).
Proof.
  split.
  - reflexivity.
  - apply (proj2 (proj2 (proj2
      (ifindex_cached_deferred_idempotent
         (fun _ => Some (String "7" (String newline "")))
         (mkInterface bare_if_dict (JStr "dp0p1") None [] [] [] []))))).
    reflexivity.
Defined.

(** ** Construction on configurations without a policy attachment *)

(** An interface dictionary that has neither the standard policy key nor
    the switch-group key leaves [if_policy_dict] at [None]. *)
Lemma trunk_policy_dicts_absent :
  forall (items : list (string * json)) (policy_namespace : string),
    lookup (policy_namespace ++ ":policy") items = None ->
    lookup SWITCH_GROUP items = None ->
    trunk_policy_dicts (JDict items) policy_namespace = Ok (JNull, JNull).
Proof.
  intros items ns H1 H2. unfold trunk_policy_dicts; simpl.
  rewrite H1. unfold SWITCH_GROUP in H2. rewrite H2. reflexivity.
Qed.

(** Whatever the interface type, the registries and the rest of the
    dictionary, such an entry makes the constructor raise: either the type
    has no entry in [POLICY_KEY], or [None.get] raises [AttributeError]. *)
Lemma init_without_attachment_raises :
  forall if_type items policies maps links,
    lookup (policy_namespace_of if_type ++ ":policy") items = None ->
    lookup SWITCH_GROUP items = None ->
    exists e, Interface_init if_type (JDict items) policies maps links = Err e.
Proof.
  intros if_type items policies maps links H1 H2.
  unfold Interface_init. cbn [py_get bind].
  rewrite (trunk_policy_dicts_absent items _ H1 H2). cbn [bind].
  destruct (POLICY_KEY_getitem if_type) as [ns|e]; eexists; reflexivity.
Qed.

(** C4: on an interface entry with no policy attachment of either style the
    constructor raises [AttributeError] (line 70 calls [get] on [None]), and
    on a declared VLAN with no policy attachment it raises [KeyError]
    (line 102); neither absence is taken as "no policy attached". *)
Theorem init_without_attachment_fails :
  Interface_init "dataplane" bare_if_dict [] [] no_links
    = Err (AttributeError "get") /\
  Interface_init "dataplane" bare_vif_if_dict
    [("P1", one_class_policy "P1" "prof-a" 24)] [] no_links
    = Err (KeyError (JStr STD_POLICY)).
Proof. split; reflexivity. Qed.

(** ** Ingress-map references *)

(** The [try] block around the binding passes over a name the registry does
    not hold: the interface and the links come back unchanged. *)
Lemma bind_ingress_map_unknown_name :
  forall self links d vlan_id (maps : list (string * IngressMap)) name,
    py_getitem d INGRESS_MAP = Ok (JStr name) ->
    lookup name maps = None ->
    bind_ingress_map self links d vlan_id maps = Ok (self, links).
Proof.
  intros self links d vlan_id maps name Hd Hn.
  unfold bind_ingress_map. unfold INGRESS_MAP in Hd. rewrite Hd. simpl.
  rewrite Hn. reflexivity.
Qed.

(** C5: an ingress-map name that the registry does not hold raises nothing.
    On the trunk and on a hardware-switch VLAN alike, construction succeeds
    and the interface carries no binding. *)
Theorem unknown_ingress_map_is_skipped :
  Interface_init "dataplane" (trunk_map_if_dict "in-map-1") [] [] no_links
    = Ok (mkInterface (trunk_map_if_dict "in-map-1") (JStr "dp0p1") None
            [] [] [] [], no_links) /\
  Interface_init "dataplane" (vlan_map_if_dict "in-map-1") [] [] no_links
    = Ok (mkInterface (vlan_map_if_dict "in-map-1") (JStr "dp0p1") None
            [] [] [] [], no_links).
Proof. split; reflexivity. Qed.

(** ** The command list *)

(** C1: the interface whose only policy sits on VLAN 10 is built without
    error and has [max_pipes = 1], yet [commands()] returns no list for it:
    [overhead] was never assigned and building the port command raises
    [UnboundLocalError]. *)
Theorem commands_raise_without_trunk_policy :
  forall (pipe_command : string -> nat -> option Z -> string)
         (sysfs : json -> option string),
    Interface_init "dataplane" (vlan_only_if_dict "dp0p1" "P2" 10)
      [("P2", one_class_policy "P2" "local-x" 24)] [] no_links
      = Ok (vlan_only_interface "dp0p1" "P2" "local-x" 10 24,
            mkLinks [("P2", JStr "dp0p1")] []) /\
    Interface_max_pipes (vlan_only_interface "dp0p1" "P2" "local-x" 10 24) = 1 /\
    fst (Interface_commands pipe_command sysfs
           (vlan_only_interface "dp0p1" "P2" "local-x" 10 24))
      = Err (UnboundLocalError "overhead").
Proof.
  intros pipe_command sysfs. split; [reflexivity | split; [reflexivity |]].
  unfold Interface_commands, Interface_ifindex. simpl _ifindex.
  destruct (sysfs _); reflexivity.
Qed.

Lemma pipes_zero_iff :
  forall subports max_pipes overhead,
    0 <= max_pipes ->
    (fst (pipes_and_overhead subports max_pipes overhead) = 0 <->
     max_pipes = 0 /\ existsb has_traffic_class subports = false).
Proof.
  induction subports as [|s rest IH]; intros m o Hm; simpl.
  - split; [intros ->; split; reflexivity | intros [-> _]; reflexivity].
  - unfold has_traffic_class at 1.
    destruct (subport_policy s) as [p|]; simpl.
    + rewrite IH by (unfold Policy_max_pipes; lia).
      unfold Policy_max_pipes.
      destruct (policy_classes p) as [|c cs]; simpl List.length.
      * simpl. rewrite Z.max_l by lia. reflexivity.
      * simpl negb. simpl orb. split.
        -- intros [H _]. lia.
        -- intros [_ H]. discriminate H.
    + apply IH; exact Hm.
Qed.

Lemma ifindex_keeps_subports :
  forall sysfs self,
    _subports (snd (Interface_ifindex sysfs self)) = _subports self.
Proof.
  intros sysfs self. unfold Interface_ifindex.
  destruct (_ifindex self); [reflexivity |].
  destruct (sysfs (_name self)); reflexivity.
Qed.

Lemma overhead_stays :
  forall subports max_pipes v,
    exists o, snd (pipes_and_overhead subports max_pipes (Some v)) = Some o.
Proof.
  induction subports as [|s rest IH]; intros m v.
  - exists v; reflexivity.
  - cbn [pipes_and_overhead].
    destruct (subport_policy s) as [p|]; [| apply IH].
    destruct (Z.eqb (subport_id s) 0); apply IH.
Qed.

Lemma overhead_assigned :
  forall subports max_pipes overhead,
    existsb assigns_overhead subports = true ->
    exists o, snd (pipes_and_overhead subports max_pipes overhead) = Some o.
Proof.
  induction subports as [|s rest IH]; intros m o H; [discriminate H |].
  cbn [existsb] in H. cbn [pipes_and_overhead].
  unfold assigns_overhead in H at 1.
  destruct (subport_policy s) as [p|].
  - destruct (Z.eqb (subport_id s) 0).
    + apply overhead_stays.
    + apply IH; exact H.
  - apply IH; exact H.
Qed.

Section CommandFacts.

Variable pipe_command : string -> nat -> option Z -> string.

Lemma idle_subport_is_silent :
  forall ifindex s interface,
    has_traffic_class s = false ->
    Subport_commands pipe_command ifindex s interface = [].
Proof.
  intros ifindex s interface H.
  unfold has_traffic_class in H. unfold Subport_commands.
  destruct (subport_policy s) as [p|]; [| reflexivity].
  destruct (policy_classes p); [reflexivity | discriminate H].
Qed.

Lemma idle_subports_are_silent :
  forall ifindex interface subports,
    existsb has_traffic_class subports = false ->
    flat_map (fun s => Subport_commands pipe_command ifindex s interface)
      subports = [].
Proof.
  intros ifindex interface. induction subports as [|s rest IH]; simpl.
  - reflexivity.
  - intros H. apply orb_false_iff in H as [H1 H2].
    rewrite (idle_subport_is_silent _ _ _ H1), (IH H2). reflexivity.
Qed.

(** The shape of what [commands()] computes, by the value of
    [max_pipes] and by whether [overhead] was assigned. *)
Lemma commands_cases :
  forall sysfs self,
    let ifindex := fst (Interface_ifindex sysfs self) in
    let self' := snd (Interface_ifindex sysfs self) in
    let prefix := "qos " ++ str_of_opt ifindex in
    let body := subport_command_list pipe_command ifindex self' in
    fst (Interface_commands pipe_command sysfs self) =
      if Z.eqb (Interface_max_pipes self) 0 then Ok body
      else
        match snd (pipes_and_overhead (_subports self) 0 None) with
        | Some o =>
            Ok (port_command prefix
                  (Z.of_nat (List.length (_subports self)))
                  (Interface_max_pipes self) (profile_index_size self') o
                :: body ++ [enable_command prefix])%list
        | None => Err (UnboundLocalError "overhead")
        end.
Proof.
  intros sysfs self. cbv zeta.
  unfold Interface_commands, Interface_max_pipes.
  pose proof (ifindex_keeps_subports sysfs self) as Hs.
  destruct (Interface_ifindex sysfs self) as [ix self']. simpl in Hs.
  simpl fst; simpl snd. rewrite Hs.
  destruct (pipes_and_overhead (_subports self) 0 None) as [mp oh].
  simpl fst; simpl snd.
  destruct (Z.eqb mp 0); simpl; [reflexivity |].
  destruct oh; reflexivity.
Qed.

(** C2: [commands()] returns the empty list exactly when the [max_pipes]
    fold over the subports yields 0, which is exactly when no subport's
    attached policy has a traffic class. *)
Theorem commands_empty_iff_disabled :
  forall sysfs self,
    (fst (Interface_commands pipe_command sysfs self) = Ok [] <->
     Interface_max_pipes self = 0) /\
    (Interface_max_pipes self = 0 <->
     existsb has_traffic_class (_subports self) = false).
Proof.
  intros sysfs self.
  assert (Hz : Interface_max_pipes self = 0 <->
               existsb has_traffic_class (_subports self) = false).
  { unfold Interface_max_pipes.
    rewrite (pipes_zero_iff (_subports self) 0 None) by lia.
    split; [intros [_ H]; exact H | intros H; split; [reflexivity | exact H]]. }
  split; [| exact Hz].
  rewrite commands_cases.
  destruct (Z.eqb (Interface_max_pipes self) 0) eqn:E.
  - apply Z.eqb_eq in E. split; [intros _; exact E | intros _].
    unfold subport_command_list.
    rewrite (ifindex_keeps_subports sysfs self).
    rewrite idle_subports_are_silent; [reflexivity |].
    apply Hz; exact E.
  - apply Z.eqb_neq in E. split; [| intros H; contradiction].
    destruct (snd (pipes_and_overhead (_subports self) 0 None));
      intros H; discriminate H.
Qed.

(** When the trunk's subport carries a policy, an interface with nonzero
    [max_pipes] gets the port command first, the enable command last and
    the subports' commands between them. *)
Lemma commands_with_trunk_policy :
  forall sysfs self,
    existsb assigns_overhead (_subports self) = true ->
    Interface_max_pipes self <> 0 ->
    let ifindex := fst (Interface_ifindex sysfs self) in
    let self' := snd (Interface_ifindex sysfs self) in
    let prefix := "qos " ++ str_of_opt ifindex in
    exists o,
      snd (pipes_and_overhead (_subports self) 0 None) = Some o /\
      fst (Interface_commands pipe_command sysfs self) =
        Ok (port_command prefix (Z.of_nat (List.length (_subports self)))
              (Interface_max_pipes self) (profile_index_size self') o
            :: subport_command_list pipe_command ifindex self'
               ++ [enable_command prefix])%list.
Proof.
  intros sysfs self Htrunk Hpipes. cbv zeta.
  destruct (overhead_assigned (_subports self) 0 None Htrunk) as [o Ho].
  exists o. split; [exact Ho |].
  rewrite commands_cases. rewrite Ho.
  apply Z.eqb_neq in Hpipes. rewrite Hpipes. reflexivity.
Qed.

End CommandFacts.

(** ** Building a QosConfig *)

Section ConfigFacts.

Variable Action : Type.
Variable Action_init : json -> result Action.
Variable Action_name : Action -> string.
Variable MarkMap : Type.
Variable MarkMap_init : json -> result MarkMap.
Variable MarkMap_name : MarkMap -> string.
Variable Profile_read_name : json -> result string.
Variable Policy_init :
  json -> list (string * Profile) -> list (string * MarkMap) -> result Policy.

Abbreviation QosConfig := (QosConfig Action MarkMap).
Abbreviation QosConfig_init :=
  (QosConfig_init Action Action_init Action_name MarkMap MarkMap_init
     MarkMap_name Profile_read_name Policy_init).
Abbreviation _process_qos :=
  (_process_qos Action MarkMap MarkMap_init MarkMap_name Profile_read_name
     Policy_init).

(** The three-argument call is refused for the first entry met. *)
Lemma interface_loop_entry_raises :
  forall if_type entry rest (self : QosConfig) links,
    exists e,
      interface_loop Action MarkMap if_type (entry :: rest) self links = Err e.
Proof.
  intros. simpl. eexists; reflexivity.
Qed.

Lemma items_loop_entry_raises :
  forall items (self : QosConfig) links,
    existsb (fun kv => has_entries (snd kv)) items = true ->
    exists e, items_loop Action MarkMap items self links = Err e.
Proof.
  induction items as [|[key interfaces] rest IH]; intros self links H.
  - discriminate H.
  - simpl in H. cbn [items_loop].
    destruct (nth_error (split_colon key) 1) as [if_type|];
      [| eexists; reflexivity].
    unfold has_entries in H. cbn [bind].
    destruct (py_iter interfaces) as [entries|e]; [| eexists; reflexivity].
    destruct entries as [|entry entries].
    + simpl in H. cbn [interface_loop bind]. apply IH; exact H.
    + eexists; reflexivity.
Qed.

(** No path through the constructor stores an Interface object. *)
Lemma items_loop_stores_nothing :
  forall items (self self' : QosConfig) links links',
    items_loop Action MarkMap items self links = Ok (self', links') ->
    self' = self /\ links' = links.
Proof.
  induction items as [|[key interfaces] rest IH]; intros self self' l l' H.
  - inversion H; split; reflexivity.
  - cbn [items_loop] in H.
    destruct (nth_error (split_colon key) 1) as [if_type|]; [| discriminate H].
    cbn [bind] in H.
    destruct (py_iter interfaces) as [entries|e]; [| discriminate H].
    destruct entries as [|entry entries].
    + cbn [interface_loop bind] in H. apply IH; exact H.
    + discriminate H.
Qed.

(** C3, as the code has it: on a snapshot whose interfaces subtree holds an
    interface entry, construction either raises, or there is no policy
    subtree and it returns at once with nothing built; whenever a policy
    subtree is present it raises, and in no case is an Interface stored. *)
Theorem config_with_interface_never_stores_one :
  forall config_dict,
    has_interface_entry config_dict = true ->
    ((exists e, QosConfig_init config_dict = Err e) \/
     (py_get config_dict "vyatta-policy-v1:policy" = Ok JNull /\
      QosConfig_init config_dict = Ok (empty_config Action MarkMap, no_links)))
    /\
    (forall policy_dict,
       py_get config_dict "vyatta-policy-v1:policy" = Ok policy_dict ->
       is_None policy_dict = false ->
       exists e, QosConfig_init config_dict = Err e)
    /\
    (forall q links,
       QosConfig_init config_dict = Ok (q, links) -> _interfaces _ _ q = []).
Proof.
  intros config_dict Hentry.
  unfold has_interface_entry in Hentry.
  destruct (py_get config_dict "vyatta-interfaces-v1:interfaces")
    as [if_dict|] eqn:Hif; [| discriminate Hentry].
  destruct if_dict as [| | | |items]; try discriminate Hentry.
  assert (Hraise : forall policy_dict,
             py_get config_dict "vyatta-policy-v1:policy" = Ok policy_dict ->
             is_None policy_dict = false ->
             exists e, QosConfig_init config_dict = Err e).
  { intros policy_dict Hp Hnone. unfold QosConfig_init.
    rewrite Hp. cbn [bind]. rewrite Hnone.
    destruct (py_get policy_dict "vyatta-policy-action-v1:action")
      as [action_dict|e]; [| eexists; reflexivity].
    cbn [bind].
    destruct (_process_action _ _ _ _ _ action_dict) as [self1|e];
      [| eexists; reflexivity].
    cbn [bind].
    destruct (py_getitem policy_dict "vyatta-policy-qos-v1:qos")
      as [qos_dict|e]; [| eexists; reflexivity].
    cbn [bind].
    destruct (_process_qos self1 qos_dict) as [self2|e];
      [| eexists; reflexivity].
    cbn [bind]. rewrite Hif. cbn [bind _process_interfaces].
    apply items_loop_entry_raises; exact Hentry. }
  destruct (py_get config_dict "vyatta-policy-v1:policy")
    as [policy_dict|e] eqn:Hp.
  - destruct (is_None policy_dict) eqn:Hnone.
    + assert (Hok : QosConfig_init config_dict
                    = Ok (empty_config Action MarkMap, no_links)).
      { unfold QosConfig_init. rewrite Hp. cbn [bind]. rewrite Hnone.
        reflexivity. }
      destruct policy_dict; try discriminate Hnone.
      split; [right; split; [reflexivity | exact Hok] |].
      split; [exact Hraise |].
      intros q links Hq. rewrite Hok in Hq. inversion Hq. reflexivity.
    + destruct (Hraise policy_dict eq_refl Hnone) as [e He].
      split; [left; exists e; exact He |].
      split; [exact Hraise |].
      intros q links Hq. rewrite He in Hq. discriminate Hq.
  - assert (He : QosConfig_init config_dict = Err e).
    { unfold QosConfig_init. rewrite Hp. reflexivity. }
    split; [left; exists e; exact He |].
    split; [exact Hraise |].
    intros q links Hq. rewrite He in Hq. discriminate Hq.
Qed.

End ConfigFacts.

(** C3 as stated fails: a snapshot with an interface entry and no policy
    subtree makes the constructor return before anything is processed, and
    no error is raised. *)
Lemma config_without_policy_returns :
  has_interface_entry interfaces_only_config = true /\
  ~ (exists e, sample_QosConfig_init interfaces_only_config = Err e).
Proof.
  split; [reflexivity |].
  intros [e He]. discriminate He.
Qed.

Lemma config_with_interface_never_stores_one_witness :
  has_interface_entry policy_and_interface_config = true /\
  exists e, sample_QosConfig_init policy_and_interface_config = Err e.
Proof.
  split; [reflexivity |].
  apply (proj1 (proj2
    (config_with_interface_never_stores_one unit sample_init sample_name unit
       sample_init sample_name sample_profile_name sample_policy_init
       policy_and_interface_config eq_refl))
    (JDict [("vyatta-policy-qos-v1:qos", JDict [])])).
  - reflexivity.
  - reflexivity.
Defined.

(** ** Numbering the global profiles *)

Section ProfileFacts.

Variable Profile_read_name : json -> result string.

Abbreviation number_profiles := (profile_loop Profile_read_name).
Abbreviation new_profile := (Profile_init Profile_read_name).

Lemma Profile_init_Ok :
  forall id d parent p,
    new_profile id d parent = Ok p ->
    exists name, Profile_read_name d = Ok name /\ p = mkProfile id name d parent.
Proof.
  intros id d parent p H. unfold Profile_init in H.
  destruct (Profile_read_name d) as [name|e]; [| discriminate H].
  inversion H. exists name; split; reflexivity.
Qed.

Lemma profile_loop_cons :
  forall d rest k reg reg',
    number_profiles (d :: rest) k reg = Ok reg' ->
    exists name,
      Profile_read_name d = Ok name /\
      number_profiles rest (k + 1)
        (dict_set name (mkProfile k name d None) reg) = Ok reg'.
Proof.
  intros d rest k reg reg' H. cbn [profile_loop] in H.
  apply bind_Ok_inv in H as [p [Hp H]].
  apply Profile_init_Ok in Hp as [name [Hn ->]].
  exists name; split; [exact Hn | exact H].
Qed.

(** Every profile found in the registry after the loop was there before or
    was built from the entry at the position its id tells. *)
Lemma profile_loop_origin :
  forall l k reg reg',
    number_profiles l k reg = Ok reg' ->
    forall n p,
      lookup n reg' = Some p ->
      lookup n reg = Some p \/
      exists i, nth_error l i = Some (profile_dict p) /\
                profile_id p = k + Z.of_nat i /\
                Profile_read_name (profile_dict p) = Ok n.
Proof.
  induction l as [|d rest IH]; intros k reg reg' H n p Hl.
  - inversion H; subst. left; exact Hl.
  - apply profile_loop_cons in H as [name [Hn H]].
    destruct (IH _ _ _ H n p Hl) as [Hin | [i [Hi [Hid Hr]]]].
    + destruct (String.eqb n name) eqn:E.
      * apply String.eqb_eq in E; subst n.
        rewrite lookup_dict_set_same in Hin. inversion Hin; subst p.
        right. exists 0%nat. simpl. repeat split; [lia | exact Hn].
      * rewrite lookup_dict_set_other in Hin by exact E. left; exact Hin.
    + right. exists (S i). simpl. repeat split; [exact Hi | lia | exact Hr].
Qed.

(** Entries filed under other names leave a name's profile alone. *)
Lemma profile_loop_keeps :
  forall l k reg reg' n,
    number_profiles l k reg = Ok reg' ->
    (forall d, In d l -> Profile_read_name d <> Ok n) ->
    lookup n reg' = lookup n reg.
Proof.
  induction l as [|d rest IH]; intros k reg reg' n H Hother.
  - inversion H; reflexivity.
  - apply profile_loop_cons in H as [name [Hn H]].
    rewrite (IH _ _ _ n H) by (intros d' Hd'; apply Hother; right; exact Hd').
    apply lookup_dict_set_other.
    destruct (String.eqb n name) eqn:E; [| reflexivity].
    apply String.eqb_eq in E; subst name.
    exfalso. apply (Hother d); [left; reflexivity | exact Hn].
Qed.

(** The entry at position [i] is filed with id [k + i], and stays so unless
    a later entry carries the same name. *)
Lemma profile_loop_position :
  forall l k reg reg' i d,
    number_profiles l k reg = Ok reg' ->
    nth_error l i = Some d ->
    exists n,
      Profile_read_name d = Ok n /\
      ((forall j d', (i < j)%nat -> nth_error l j = Some d' ->
                     Profile_read_name d' <> Ok n) ->
       lookup n reg' = Some (mkProfile (k + Z.of_nat i) n d None)).
Proof.
  induction l as [|d0 rest IH]; intros k reg reg' i d H Hi.
  - destruct i; discriminate Hi.
  - apply profile_loop_cons in H as [name [Hn H]].
    destruct i as [|i].
    + simpl in Hi. inversion Hi; subst d0.
      exists name; split; [exact Hn |]. intros Hlater.
      rewrite (profile_loop_keeps _ _ _ _ name H).
      * rewrite lookup_dict_set_same. rewrite Z.add_0_r. reflexivity.
      * intros d' Hd'. apply In_nth_error in Hd' as [j Hj].
        apply (Hlater (S j) d'); [lia | exact Hj].
    + simpl in Hi. destruct (IH _ _ _ i d H Hi) as [n [Hr Hpos]].
      exists n; split; [exact Hr |]. intros Hlater.
      replace (k + Z.of_nat (S i)) with (k + 1 + Z.of_nat i) by lia.
      apply Hpos. intros j d' Hlt Hj.
      apply (Hlater (S j) d'); [lia | exact Hj].
Qed.

End ProfileFacts.

Section ProcessQosFacts.

Variable Action : Type.
Variable MarkMap : Type.
Variable MarkMap_init : json -> result MarkMap.
Variable MarkMap_name : MarkMap -> string.
Variable Profile_read_name : json -> result string.
Variable Policy_init :
  json -> list (string * Profile) -> list (string * MarkMap) -> result Policy.

Abbreviation process_qos :=
  (_process_qos Action MarkMap MarkMap_init MarkMap_name Profile_read_name
     Policy_init).

(** What [_process_qos] leaves in [_global_profiles] is what the profile
    loop makes of the declared list, started at id 0. *)
Lemma process_qos_profiles :
  forall (self self' : QosConfig Action MarkMap) qos_dict l,
    process_qos self qos_dict = Ok self' ->
    py_get qos_dict "profile" = Ok (JList l) ->
    profile_loop Profile_read_name l 0 (_global_profiles _ _ self)
      = Ok (_global_profiles _ _ self').
Proof.
  intros self self' qos_dict l H Hl. unfold _process_qos in H.
  apply bind_Ok_inv in H as [mark_maps_list [_ H]].
  apply bind_Ok_inv in H as [maps [_ H]].
  rewrite Hl in H. cbn [bind is_None py_iter] in H.
  apply bind_Ok_inv in H as [profiles [Hp H]].
  apply bind_Ok_inv in H as [policy_name_list [_ H]].
  apply bind_Ok_inv in H as [policies [_ H]].
  inversion H; subst self'. simpl. exact Hp.
Qed.

(** C8: after [_process_qos] on a QoS subtree whose [profile] entry is the
    list [l], every global profile in the registry was built from the entry
    of [l] at the position equal to its id, and the entry at position [i]
    is filed with id [i] (a later entry of the same name takes its place
    in the registry, with its own position as id).  Nothing of the
    interfaces enters: [self] is arbitrary but for an empty profile
    registry. *)
Theorem global_profile_id_is_position :
  forall (self self' : QosConfig Action MarkMap) qos_dict l,
    process_qos self qos_dict = Ok self' ->
    py_get qos_dict "profile" = Ok (JList l) ->
    _global_profiles _ _ self = [] ->
    (forall n p,
       lookup n (_global_profiles _ _ self') = Some p ->
       0 <= profile_id p /\
       nth_error l (Z.to_nat (profile_id p)) = Some (profile_dict p) /\
       Profile_read_name (profile_dict p) = Ok n) /\
    (forall i d,
       nth_error l i = Some d ->
       exists n,
         Profile_read_name d = Ok n /\
         ((forall j d', (i < j)%nat -> nth_error l j = Some d' ->
                        Profile_read_name d' <> Ok n) ->
          lookup n (_global_profiles _ _ self')
            = Some (mkProfile (Z.of_nat i) n d None))).
Proof.
  intros self self' qos_dict l H Hl Hempty.
  pose proof (process_qos_profiles _ _ _ _ H Hl) as Hloop.
  rewrite Hempty in Hloop. split.
  - intros n p Hp.
    destruct (profile_loop_origin _ _ _ _ _ Hloop n p Hp)
      as [Hin | [i [Hi [Hid Hr]]]].
    + discriminate Hin.
    + rewrite Hid. simpl. rewrite Nat2Z.id.
      split; [lia | split; [exact Hi | exact Hr]].
  - intros i d Hi.
    destruct (profile_loop_position _ _ _ _ _ i d Hloop Hi) as [n [Hr Hpos]].
    exists n; split; [exact Hr | exact Hpos].
Qed.

End ProcessQosFacts.

Lemma global_profile_id_is_position_witness :
  _process_qos unit unit sample_init sample_name sample_profile_name
    sample_policy_init (empty_config unit unit) two_profiles_qos_dict
    = Ok (mkQosConfig unit unit [] [] two_profiles_registry [] []) /\
  0 <= 1 /\
  nth_error two_profiles (Z.to_nat 1) = Some (JDict [("id", JStr "prof-b")]) /\
  sample_profile_name (JDict [("id", JStr "prof-b")]) = Ok "prof-b".
Proof.
  split; [reflexivity |].
  exact (proj1
    (global_profile_id_is_position unit unit sample_init sample_name
       sample_profile_name sample_policy_init
       (empty_config unit unit)
       (mkQosConfig unit unit [] [] two_profiles_registry [] [])
       two_profiles_qos_dict two_profiles eq_refl eq_refl eq_refl)
    "prof-b" (mkProfile 1 "prof-b" (JDict [("id", JStr "prof-b")]) None)
    eq_refl).
Defined.

(** ** The VLAN-only scenario *)

Lemma vlan_only_build :
  forall ifname pname prof vlan overhead maps links,
    Interface_init "dataplane" (vlan_only_if_dict ifname pname vlan)
      [(pname, one_class_policy pname prof overhead)] maps links
    = Ok (vlan_only_interface ifname pname prof vlan overhead,
          mkLinks (policy_interfaces links ++ [(pname, JStr ifname)])
                  (ingress_map_users links)).
Proof.
  intros. unfold Interface_init, vlan_only_if_dict, vlan_only_interface.
  cbn. rewrite String.eqb_refl. cbn.
  unfold build_profile_indexes, Subport_build_profile_index, register_profile,
    profile_index_get, profile_index_set, profile_index_size.
  cbn. reflexivity.
Qed.

(** C7 as stated fails: the build of the scenario's interface gives the
    subport list with the single id 1; no subport 0 exists. *)
Lemma vlan_only_has_no_trunk_subport :
  exists self links,
    Interface_init "dataplane" (vlan_only_if_dict "dp0p1" "P2" 10)
      [("P2", one_class_policy "P2" "local-x" 24)] [] no_links
      = Ok (self, links) /\
    map subport_id (_subports self) <> [0; 1].
Proof.
  eexists. eexists. split; [reflexivity |].
  simpl. intros H. discriminate H.
Qed.

(** C7, as the code has it: with a trunk policy dictionary that names no
    QoS policy and one VLAN carrying a one-class policy with one local
    profile, the build yields the subport list with the single id 1,
    [max_pipes = 1], a profile count of 1, and the VLAN's subport emits one
    pipe command, which carries the index 0 of the local profile. *)
Theorem vlan_only_scenario :
  forall (pipe_command : string -> nat -> option Z -> string)
         ifname pname prof vlan overhead maps links ifindex,
    exists self links',
      Interface_init "dataplane" (vlan_only_if_dict ifname pname vlan)
        [(pname, one_class_policy pname prof overhead)] maps links
        = Ok (self, links') /\
      map subport_id (_subports self) = [1] /\
      Interface_max_pipes self = 1 /\
      profile_index_size self = 1 /\
      profile_index_get self (JNum vlan, prof) = Some 0 /\
      map (fun s => Subport_commands pipe_command ifindex s self)
          (_subports self)
        = [[pipe_command ("qos " ++ str_of_opt ifindex ++ " subport 1") 0%nat
              (Some 0)]].
Proof.
  intros. eexists. eexists.
  split; [apply vlan_only_build |].
  unfold vlan_only_interface. cbn [_subports map subport_id].
  split; [reflexivity |]. split; [reflexivity |]. split; [reflexivity |].
  assert (Hkey : key_eqb (JNum vlan, prof) (JNum vlan, prof) = true).
  { unfold key_eqb. simpl. rewrite Z.eqb_refl, String.eqb_refl. reflexivity. }
  split.
  - unfold profile_index_get. cbn [_profile_index index_lookup].
    rewrite Hkey. reflexivity.
  - unfold Subport_commands.
    cbn [subport_policy one_class_policy policy_classes pipe_commands
         subport_vlan subport_id profile_key].
    unfold profile_index_get. cbn [_profile_index index_lookup].
    rewrite Hkey. reflexivity.
Qed.

(** ** Equality of interfaces *)

Lemma py_eq_list : forall xs ys, py_eq (JList xs) (JList ys) = list_eq xs ys.
Proof.
  induction xs as [|x xs IH]; intros [|y ys]; reflexivity.
Qed.

Lemma py_eq_dict :
  forall xs ys,
    py_eq (JDict xs) (JDict ys) =
    Nat.eqb (List.length xs) (List.length ys) && items_match ys xs.
Proof.
  intros xs ys. cbn [py_eq]. f_equal.
  induction xs as [|[k v] xs IH]; [reflexivity |].
  cbn [items_match forallb fst snd]. unfold items_match in IH.
  rewrite <- IH. reflexivity.
Qed.

Lemma json_induction (P : json -> Prop) :
  P JNull ->
  (forall z, P (JNum z)) ->
  (forall s, P (JStr s)) ->
  (forall l, Forall P l -> P (JList l)) ->
  (forall d, Forall (fun kv => P (snd kv)) d -> P (JDict d)) ->
  forall j, P j.
Proof.
  intros HNull HNum HStr HList HDict.
  fix IH 1. intros [|z|s|l|d].
  - exact HNull.
  - apply HNum.
  - apply HStr.
  - apply HList. induction l as [|x l IHl]; constructor;
      [apply IH | exact IHl].
  - apply HDict. induction d as [|[k v] d IHd]; constructor;
      [apply IH | exact IHd].
Qed.

Lemma deepcopy_same : forall j, deepcopy j = j.
Proof.
  induction j as [| | |l IH|d IH] using json_induction; try reflexivity.
  - cbn [deepcopy]. f_equal.
    induction IH as [|x l Hx _ IHl]; [reflexivity |].
    cbn [map]. rewrite Hx, IHl. reflexivity.
  - cbn [deepcopy]. f_equal.
    induction IH as [|[k v] d Hv _ IHd]; [reflexivity |].
    cbn [map fst snd]. simpl in Hv. rewrite Hv, IHd. reflexivity.
Qed.

Lemma lookup_In {V : Type} :
  forall (d : list (string * V)) k v, lookup k d = Some v -> In (k, v) d.
Proof.
  induction d as [|[k' v'] d IH]; intros k v H; [discriminate H |].
  simpl in H. destruct (String.eqb k k') eqn:E.
  - apply String.eqb_eq in E; subst k'. inversion H; subst. left; reflexivity.
  - right. apply IH; exact H.
Qed.

Lemma unique_lookup :
  forall (d : list (string * json)) k v,
    keys_unique (map fst d) = true -> In (k, v) d -> lookup k d = Some v.
Proof.
  induction d as [|[k' v'] d IH]; intros k v Hu Hin; [destruct Hin |].
  simpl in Hu. apply andb_true_iff in Hu as [Hfresh Hu].
  simpl. destruct Hin as [Heq | Hin].
  - inversion Heq; subst. rewrite String.eqb_refl. reflexivity.
  - destruct (String.eqb k k') eqn:E.
    + apply String.eqb_eq in E; subst k'.
      apply negb_true_iff in Hfresh.
      assert (Hex : existsb (String.eqb k) (map fst d) = true).
      { apply existsb_exists. exists k. split.
        - change k with (fst (k, v)). apply in_map; exact Hin.
        - apply String.eqb_refl. }
      rewrite Hex in Hfresh. discriminate Hfresh.
    + apply IH; assumption.
Qed.

(** A well-formed value equals itself. *)
Lemma py_eq_refl : forall j, wf_json j = true -> py_eq j j = true.
Proof.
  induction j as [|z|s|l IH|d IH] using json_induction; intros Hwf.
  - reflexivity.
  - apply Z.eqb_refl.
  - apply String.eqb_refl.
  - rewrite py_eq_list. cbn [wf_json] in Hwf.
    induction IH as [|x l Hx _ IHl]; [reflexivity |].
    cbn [forallb] in Hwf. apply andb_true_iff in Hwf as [Hwx Hwl].
    cbn [list_eq]. rewrite (Hx Hwx), (IHl Hwl). reflexivity.
  - rewrite py_eq_dict, Nat.eqb_refl. cbn [andb].
    cbn [wf_json] in Hwf. apply andb_true_iff in Hwf as [Hu Hwf].
    unfold items_match. apply forallb_forall. intros [k v] Hin.
    cbn [fst snd]. rewrite (unique_lookup d k v Hu Hin).
    rewrite Forall_forall in IH. apply (IH (k, v) Hin).
    rewrite forallb_forall in Hwf. apply (Hwf (k, v) Hin).
Qed.

Lemma dict_set_length_present {V : Type} :
  forall (d : list (string * V)) k c v,
    lookup k d = Some c -> List.length (dict_set k v d) = List.length d.
Proof.
  induction d as [|[k' v'] d IH]; intros k c v H; [discriminate H |].
  simpl in *. destruct (String.eqb k k'); simpl; [reflexivity |].
  f_equal. apply (IH k c v H).
Qed.

Lemma list_set_differs :
  forall l n c c',
    nth_error l n = Some c -> py_eq c c' = false ->
    list_eq l (list_set n c' l) = false.
Proof.
  induction l as [|x l IH]; intros n c c' Hn Hne.
  - destruct n; discriminate Hn.
  - destruct n as [|n]; simpl in Hn.
    + inversion Hn; subst x. cbn [list_set list_eq]. rewrite Hne. reflexivity.
    + cbn [list_set list_eq]. rewrite (IH n c c' Hn Hne).
      apply andb_false_r.
Qed.

Lemma dict_set_differs :
  forall d k c c',
    lookup k d = Some c -> py_eq c c' = false ->
    items_match (dict_set k c' d) d = false.
Proof.
  intros d k c c' Hk Hne.
  destruct (items_match (dict_set k c' d) d) eqn:E; [| reflexivity].
  unfold items_match in E. rewrite forallb_forall in E.
  specialize (E (k, c) (lookup_In d k c Hk)). cbn [fst snd] in E.
  rewrite lookup_dict_set_same in E. rewrite Hne in E. discriminate E.
Qed.

(** Assigning to the field at [path] a value that differs from the one it
    holds gives a subtree that differs from the original. *)
Lemma set_path_differs :
  forall path j old new j',
    get_path path j = Some old ->
    py_eq old new = false ->
    set_path path new j = Some j' ->
    py_eq j j' = false.
Proof.
  induction path as [|[k|n] path IH]; intros j old new j' Hget Hne Hset.
  - simpl in Hget, Hset. inversion Hget; inversion Hset; subst. exact Hne.
  - destruct j as [| | | |d]; try discriminate Hget.
    cbn [get_path set_path] in Hget, Hset.
    destruct (lookup k d) as [child|] eqn:Hk; [| discriminate Hget].
    destruct (set_path path new child) as [child'|] eqn:Hc;
      [| discriminate Hset].
    inversion Hset; subst j'.
    rewrite py_eq_dict.
    rewrite (dict_set_differs d k child child' Hk
               (IH child old new child' Hget Hne Hc)).
    apply andb_false_r.
  - destruct j as [| | |l|]; try discriminate Hget.
    cbn [get_path set_path] in Hget, Hset.
    destruct (nth_error l n) as [child|] eqn:Hn; [| discriminate Hget].
    destruct (set_path path new child) as [child'|] eqn:Hc;
      [| discriminate Hset].
    inversion Hset; subst j'.
    rewrite py_eq_list.
    apply (list_set_differs l n child child' Hn
             (IH child old new child' Hget Hne Hc)).
Qed.

(** *** The constructor keeps the dictionary it was given *)

Lemma bind_ingress_map_if_dict :
  forall self links d vlan_id maps self' links',
    bind_ingress_map self links d vlan_id maps = Ok (self', links') ->
    _if_dict self' = _if_dict self.
Proof.
  intros self links d vlan_id maps self' links' H.
  unfold bind_ingress_map, except_KeyError in H.
  destruct (py_getitem d "vyatta-policy-qos-v1:ingress-map") as [name|e];
    cbn [bind] in H.
  - destruct (registry_getitem maps name) as [m|e]; cbn [bind] in H.
    + inversion H; reflexivity.
    + destruct e; inversion H; reflexivity.
  - destruct e; inversion H; reflexivity.
Qed.

Lemma vif_loop_if_dict :
  forall pns ns policies vifs subport_id self links self' links',
    vif_loop pns ns policies vifs subport_id self links = Ok (self', links') ->
    _if_dict self' = _if_dict self.
Proof.
  induction vifs as [|vif rest IH]; intros sid self links self' links' H.
  - inversion H; reflexivity.
  - cbn [vif_loop] in H.
    apply bind_Ok_inv in H as [vlan_id [_ H]].
    apply bind_Ok_inv in H as [d [_ H]].
    apply bind_Ok_inv in H as [policy [_ H]].
    destruct policy as [p|]; apply IH in H; exact H.
Qed.

Lemma vlan_loop_if_dict :
  forall ns policies maps vlans subport_id self links self' links',
    vlan_loop ns policies maps vlans subport_id self links = Ok (self', links') ->
    _if_dict self' = _if_dict self.
Proof.
  induction vlans as [|vlan rest IH]; intros sid self links self' links' H.
  - inversion H; reflexivity.
  - cbn [vlan_loop] in H.
    apply bind_Ok_inv in H as [vlan_id [_ H]].
    apply bind_Ok_inv in H as [d [_ H]].
    apply bind_Ok_inv in H as [policy [_ H]].
    destruct policy as [p|];
      apply bind_Ok_inv in H as [[self2 links2] [Hb H]];
      apply bind_ingress_map_if_dict in Hb; apply IH in H;
      rewrite H, Hb; reflexivity.
Qed.

(** Building the profile index touches no field but the index: every
    projection that [profile_index_set] leaves alone is left alone. *)
Section IndexOnly.

Variable A : Type.
Variable field : Interface -> A.
Hypothesis field_untouched :
  forall self key value, field (profile_index_set self key value) = field self.

Lemma register_profile_field :
  forall self key, field (register_profile self key) = field self.
Proof.
  intros self key. unfold register_profile.
  destruct (profile_index_get self key);
    [reflexivity | apply field_untouched].
Qed.

Lemma register_profiles_field :
  forall (scope : json) names self,
    field (fold_left (fun i n => register_profile i (scope, n)) names self)
    = field self.
Proof.
  intros scope. induction names as [|n names IH]; intros self;
    [reflexivity |].
  cbn [fold_left]. rewrite IH. apply register_profile_field.
Qed.

Lemma build_profile_index_field :
  forall s self, field (Subport_build_profile_index s self) = field self.
Proof.
  intros s self. unfold Subport_build_profile_index.
  destruct (subport_policy s) as [p|]; [| reflexivity].
  cbv zeta. rewrite !register_profiles_field. reflexivity.
Qed.

Lemma build_profile_indexes_field :
  forall self, field (build_profile_indexes self) = field self.
Proof.
  intros self. unfold build_profile_indexes.
  generalize (_subports self) as subports. intros subports.
  revert self. induction subports as [|s rest IH]; intros self;
    [reflexivity |].
  cbn [fold_left]. rewrite IH. apply build_profile_index_field.
Qed.

End IndexOnly.

Lemma build_profile_indexes_if_dict :
  forall self, _if_dict (build_profile_indexes self) = _if_dict self.
Proof.
  apply build_profile_indexes_field. reflexivity.
Qed.

Lemma build_profile_indexes_subports :
  forall self, _subports (build_profile_indexes self) = _subports self.
Proof.
  apply build_profile_indexes_field. reflexivity.
Qed.

Lemma init_after_trunk_if_dict :
  forall if_dict pns vns ns policies maps if_policy_dict port_params_dict
         self links self' links',
    init_after_trunk if_dict pns vns ns policies maps if_policy_dict
      port_params_dict self links = Ok (self', links') ->
    _if_dict self' = _if_dict self.
Proof.
  intros if_dict pns vns ns policies maps if_policy_dict port_params_dict
         self links self' links' H.
  unfold init_after_trunk in H.
  apply bind_Ok_inv in H as [[self1 links1] [H1 H]].
  apply bind_ingress_map_if_dict in H1.
  apply bind_Ok_inv in H as [vif_list [_ H]].
  apply bind_Ok_inv in H as [[self2 links2] [H2 H]].
  assert (E2 : _if_dict self2 = _if_dict self1).
  { destruct (is_None vif_list).
    - inversion H2; reflexivity.
    - apply bind_Ok_inv in H2 as [vifs [_ H2]].
      apply vif_loop_if_dict in H2; exact H2. }
  apply bind_Ok_inv in H as [vlan_list [_ H]].
  apply bind_Ok_inv in H as [[self3 links3] [H3 H]].
  assert (E3 : _if_dict self3 = _if_dict self2).
  { destruct (is_None vlan_list).
    - inversion H3; reflexivity.
    - apply bind_Ok_inv in H3 as [vlans [_ H3]].
      apply vlan_loop_if_dict in H3; exact H3. }
  inversion H; subst.
  rewrite build_profile_indexes_if_dict, E3, E2, H1. reflexivity.
Qed.

Lemma init_keeps_if_dict :
  forall if_type if_dict policies maps links self links',
    Interface_init if_type if_dict policies maps links = Ok (self, links') ->
    _if_dict self = if_dict.
Proof.
  intros if_type if_dict policies maps links self links' H.
  unfold Interface_init in H.
  apply bind_Ok_inv in H as [name [_ H]].
  apply bind_Ok_inv in H as [[if_policy_dict port_params_dict] [_ H]].
  apply bind_Ok_inv in H as [namespace [_ H]].
  apply bind_Ok_inv in H as [policy [_ H]].
  destruct policy as [p|]; apply init_after_trunk_if_dict in H; exact H.
Qed.

(** C10: two interfaces compare equal exactly when the dictionaries they
    were built from are equal; interfaces built from a subtree and from a
    deep copy of it are equal, and assigning to any field of the copy a
    value different from the one it holds makes them unequal.  Neither the
    interface type nor the registries enter the comparison. *)
Theorem interface_eq_is_dict_eq :
  forall t1 t2 d1 d2 policies1 policies2 maps1 maps2 links1 links2
         self1 self2 links1' links2',
    Interface_init t1 d1 policies1 maps1 links1 = Ok (self1, links1') ->
    Interface_init t2 d2 policies2 maps2 links2 = Ok (self2, links2') ->
    (Interface_eq self1 self2 = true <-> py_eq d1 d2 = true) /\
    (wf_json d1 = true -> d2 = deepcopy d1 ->
     Interface_eq self1 self2 = true) /\
    (forall path old new,
       get_path path d1 = Some old ->
       py_eq old new = false ->
       set_path path new (deepcopy d1) = Some d2 ->
       Interface_eq self1 self2 = false).
Proof.
  intros t1 t2 d1 d2 policies1 policies2 maps1 maps2 links1 links2
         self1 self2 links1' links2' H1 H2.
  apply init_keeps_if_dict in H1. apply init_keeps_if_dict in H2.
  unfold Interface_eq. rewrite H1, H2.
  split; [| split].
  - destruct (py_eq d1 d2); split; intros H; (reflexivity || exact H).
  - intros Hwf ->. rewrite deepcopy_same, (py_eq_refl d1 Hwf). reflexivity.
  - intros path old new Hget Hne Hset. rewrite deepcopy_same in Hset.
    rewrite (set_path_differs path d1 old new d2 Hget Hne Hset). reflexivity.
Qed.

Lemma interface_eq_is_dict_eq_witness :
  exists self1 self2 links1 links2,
    Interface_init "dataplane" (trunk_if_dict "P1") two_policies [] no_links
      = Ok (self1, links1) /\
    Interface_init "dataplane" (trunk_if_dict "P2") two_policies [] no_links
      = Ok (self2, links2) /\
    Interface_eq self1 self1 = true /\
    Interface_eq self1 self2 = false.
Proof.
  eexists. eexists. eexists. eexists.
  split; [reflexivity |]. split; [reflexivity |].
  split.
  - apply (proj1 (proj2
      (interface_eq_is_dict_eq "dataplane" "dataplane"
         (trunk_if_dict "P1") (trunk_if_dict "P1") two_policies two_policies
         [] [] no_links no_links _ _ _ _ eq_refl eq_refl)));
      reflexivity.
  - apply (proj2 (proj2
      (interface_eq_is_dict_eq "dataplane" "dataplane"
         (trunk_if_dict "P1") (trunk_if_dict "P2") two_policies two_policies
         [] [] no_links no_links _ _ _ _ eq_refl eq_refl))
      [Key STD_POLICY; Key QOS] (JStr "P1") (JStr "P2"));
      reflexivity.
Defined.

(** ** Policy references *)

Lemma bind_fails {A B : Type} (m : result A) (k : A -> result B) :
  (forall a, m = Ok a -> exists e, k a = Err e) ->
  exists e, bind m k = Err e.
Proof.
  intros H. destruct m as [a|e]; simpl.
  - apply H; reflexivity.
  - exists e; reflexivity.
Qed.

Lemma attached_policy_missing :
  forall d namespace policies name,
    names_missing_policy d namespace policies name ->
    attached_policy d namespace policies = Err (KeyError (JStr name)).
Proof.
  intros d namespace policies name [Hget Hmiss].
  unfold attached_policy. rewrite Hget. cbn [bind is_None registry_getitem].
  rewrite Hmiss. reflexivity.
Qed.

Lemma attached_policy_found :
  forall d namespace policies p,
    attached_policy d namespace policies = Ok (Some p) ->
    exists name, lookup name policies = Some p.
Proof.
  intros d namespace policies p H. unfold attached_policy in H.
  apply bind_Ok_inv in H as [name [_ H]].
  destruct (is_None name); [discriminate H |].
  apply bind_Ok_inv in H as [p' [Hp H]]. inversion H; subst p'.
  destruct name as [| |s| |]; try discriminate Hp.
  simpl in Hp. destruct (lookup s policies) as [q|] eqn:E;
    [| discriminate Hp].
  inversion Hp; subst q. exists s; exact E.
Qed.

(** The loop raises on the entry it has reached. *)
Lemma vif_loop_missing_head :
  forall pns ns policies vif rest subport_id self links vlan_id d name,
    py_getitem vif "tagnode" = Ok vlan_id ->
    py_getitem vif (pns ++ ":policy") = Ok d ->
    names_missing_policy d ns policies name ->
    vif_loop pns ns policies (vif :: rest) subport_id self links
      = Err (KeyError (JStr name)).
Proof.
  intros pns ns policies vif rest sid self links vlan_id d name Ht Hd Hm.
  cbn [vif_loop]. rewrite Ht. cbn [bind]. rewrite Hd. cbn [bind].
  rewrite (attached_policy_missing _ _ _ _ Hm). reflexivity.
Qed.

Lemma vlan_loop_missing_head :
  forall ns policies maps vlan rest subport_id self links vlan_id d name,
    py_getitem vlan "vlan-id" = Ok vlan_id ->
    py_getitem vlan SWITCH_POLICY = Ok d ->
    names_missing_policy d ns policies name ->
    vlan_loop ns policies maps (vlan :: rest) subport_id self links
      = Err (KeyError (JStr name)).
Proof.
  intros ns policies maps vlan rest sid self links vlan_id d name Ht Hd Hm.
  cbn [vlan_loop]. rewrite Ht. cbn [bind].
  unfold SWITCH_POLICY in Hd. rewrite Hd. cbn [bind].
  rewrite (attached_policy_missing _ _ _ _ Hm). reflexivity.
Qed.

(** Wherever the offending entry stands in the list, the loop fails. *)
Lemma vif_loop_missing :
  forall pns ns policies vifs vif d name,
    In vif vifs ->
    py_getitem vif (pns ++ ":policy") = Ok d ->
    names_missing_policy d ns policies name ->
    forall subport_id self links,
      exists e, vif_loop pns ns policies vifs subport_id self links = Err e.
Proof.
  intros pns ns policies vifs vif d name Hin Hd Hm.
  induction vifs as [|v rest IH]; [destruct Hin |].
  intros sid self links. cbn [vif_loop].
  apply bind_fails; intros vlan_id Ht.
  apply bind_fails; intros d' Hd'.
  apply bind_fails; intros policy Hp.
  destruct Hin as [-> | Hin].
  - rewrite Hd in Hd'. inversion Hd'; subst d'.
    rewrite (attached_policy_missing _ _ _ _ Hm) in Hp. discriminate Hp.
  - destruct policy; apply (IH Hin).
Qed.

Lemma vlan_loop_missing :
  forall ns policies maps vlans vlan d name,
    In vlan vlans ->
    py_getitem vlan SWITCH_POLICY = Ok d ->
    names_missing_policy d ns policies name ->
    forall subport_id self links,
      exists e, vlan_loop ns policies maps vlans subport_id self links = Err e.
Proof.
  intros ns policies maps vlans vlan d name Hin Hd Hm.
  induction vlans as [|v rest IH]; [destruct Hin |].
  intros sid self links. cbn [vlan_loop].
  apply bind_fails; intros vlan_id Ht.
  apply bind_fails; intros d' Hd'.
  apply bind_fails; intros policy Hp.
  destruct Hin as [-> | Hin].
  - unfold SWITCH_POLICY in Hd. rewrite Hd in Hd'. inversion Hd'; subst d'.
    rewrite (attached_policy_missing _ _ _ _ Hm) in Hp. discriminate Hp.
  - destruct policy; apply bind_fails; intros [self2 links2] _;
      apply (IH Hin).
Qed.

Lemma bind_ingress_map_subports :
  forall self links d vlan_id maps self' links',
    bind_ingress_map self links d vlan_id maps = Ok (self', links') ->
    _subports self' = _subports self.
Proof.
  intros self links d vlan_id maps self' links' H.
  unfold bind_ingress_map, except_KeyError in H.
  destruct (py_getitem d "vyatta-policy-qos-v1:ingress-map") as [name|e];
    cbn [bind] in H.
  - destruct (registry_getitem maps name) as [m|e]; cbn [bind] in H.
    + inversion H; reflexivity.
    + destruct e; inversion H; reflexivity.
  - destruct e; inversion H; reflexivity.
Qed.

Lemma no_dangling_append :
  forall policies self subport_id vlan_id policy,
    no_dangling_policy policies self ->
    match policy with
    | Some p => exists name, lookup name policies = Some p
    | None => True
    end ->
    no_dangling_policy policies
      (append_subport self (mkSubport subport_id vlan_id policy)).
Proof.
  intros policies self sid vlan_id policy Hself Hp.
  unfold no_dangling_policy in *. cbn [append_subport _subports].
  apply Forall_app. split; [exact Hself |].
  constructor; [exact Hp | constructor].
Qed.

Lemma vif_loop_no_dangling :
  forall pns ns policies vifs subport_id self links self' links',
    vif_loop pns ns policies vifs subport_id self links = Ok (self', links') ->
    no_dangling_policy policies self ->
    no_dangling_policy policies self'.
Proof.
  induction vifs as [|vif rest IH]; intros sid self links self' links' H Hinv.
  - inversion H; subst; exact Hinv.
  - cbn [vif_loop] in H.
    apply bind_Ok_inv in H as [vlan_id [_ H]].
    apply bind_Ok_inv in H as [d [_ H]].
    apply bind_Ok_inv in H as [policy [Hp H]].
    destruct policy as [p|]; apply IH in H; try exact H.
    + apply (no_dangling_append policies self sid vlan_id (Some p) Hinv).
      apply (attached_policy_found _ _ _ _ Hp).
    + apply (no_dangling_append policies self sid vlan_id None Hinv I).
Qed.

Lemma vlan_loop_no_dangling :
  forall ns policies maps vlans subport_id self links self' links',
    vlan_loop ns policies maps vlans subport_id self links = Ok (self', links') ->
    no_dangling_policy policies self ->
    no_dangling_policy policies self'.
Proof.
  induction vlans as [|vlan rest IH]; intros sid self links self' links' H Hinv.
  - inversion H; subst; exact Hinv.
  - cbn [vlan_loop] in H.
    apply bind_Ok_inv in H as [vlan_id [_ H]].
    apply bind_Ok_inv in H as [d [_ H]].
    apply bind_Ok_inv in H as [policy [Hp H]].
    destruct policy as [p|];
      apply bind_Ok_inv in H as [[self2 links2] [Hb H]];
      apply bind_ingress_map_subports in Hb; apply IH in H; try exact H;
      unfold no_dangling_policy; rewrite Hb.
    + apply (no_dangling_append policies self sid vlan_id (Some p) Hinv).
      apply (attached_policy_found _ _ _ _ Hp).
    + exact Hinv.
Qed.

Lemma init_after_trunk_no_dangling :
  forall if_dict pns vns ns policies maps d pp self links self' links',
    init_after_trunk if_dict pns vns ns policies maps d pp self links
      = Ok (self', links') ->
    no_dangling_policy policies self ->
    no_dangling_policy policies self'.
Proof.
  intros if_dict pns vns ns policies maps d pp self links self' links' H Hinv.
  unfold init_after_trunk in H.
  apply bind_Ok_inv in H as [[self1 links1] [H1 H]].
  apply bind_ingress_map_subports in H1.
  assert (I1 : no_dangling_policy policies self1)
    by (unfold no_dangling_policy; rewrite H1; exact Hinv).
  apply bind_Ok_inv in H as [vif_list [_ H]].
  apply bind_Ok_inv in H as [[self2 links2] [H2 H]].
  assert (I2 : no_dangling_policy policies self2).
  { destruct (is_None vif_list).
    - inversion H2; subst; exact I1.
    - apply bind_Ok_inv in H2 as [vifs [_ H2]].
      apply (vif_loop_no_dangling _ _ _ _ _ _ _ _ _ H2 I1). }
  apply bind_Ok_inv in H as [vlan_list [_ H]].
  apply bind_Ok_inv in H as [[self3 links3] [H3 H]].
  assert (I3 : no_dangling_policy policies self3).
  { destruct (is_None vlan_list).
    - inversion H3; subst; exact I2.
    - apply bind_Ok_inv in H3 as [vlans [_ H3]].
      apply (vlan_loop_no_dangling _ _ _ _ _ _ _ _ _ H3 I2). }
  inversion H; subst.
  unfold no_dangling_policy. rewrite build_profile_indexes_subports.
  exact I3.
Qed.

Lemma init_no_dangling :
  forall if_type if_dict policies maps links self links',
    Interface_init if_type if_dict policies maps links = Ok (self, links') ->
    no_dangling_policy policies self.
Proof.
  intros if_type if_dict policies maps links self links' H.
  unfold Interface_init in H.
  apply bind_Ok_inv in H as [name [_ H]].
  apply bind_Ok_inv in H as [[d pp] [_ H]].
  apply bind_Ok_inv in H as [ns [_ H]].
  apply bind_Ok_inv in H as [policy [Hp H]].
  destruct policy as [p|];
    apply init_after_trunk_no_dangling in H; try exact H.
  - unfold no_dangling_policy. cbn [append_policy append_subport _subports app].
    constructor; [| constructor].
    apply (attached_policy_found _ _ _ _ Hp).
  - constructor.
Qed.

Lemma trunk_policy_dicts_is_dict :
  forall if_dict pns d pp key,
    trunk_policy_dicts if_dict pns = Ok (d, pp) ->
    exists v, py_get if_dict key = Ok v.
Proof.
  intros if_dict pns d pp key H.
  destruct if_dict; try discriminate H.
  eexists; reflexivity.
Qed.

Lemma init_after_trunk_vif_missing :
  forall if_dict pns vns ns policies maps d0 pp self links vifs vif d name,
    py_get if_dict (vns ++ "vif") = Ok (JList vifs) ->
    In vif vifs ->
    py_getitem vif (pns ++ ":policy") = Ok d ->
    names_missing_policy d ns policies name ->
    exists e,
      init_after_trunk if_dict pns vns ns policies maps d0 pp self links
        = Err e.
Proof.
  intros if_dict pns vns ns policies maps d0 pp self links vifs vif d name
         Hlist Hin Hd Hm.
  unfold init_after_trunk.
  apply bind_fails; intros [self1 links1] _.
  rewrite Hlist. cbn [bind is_None py_iter].
  apply bind_fails; intros [self2 links2] H2.
  destruct (vif_loop_missing pns ns policies vifs vif d name Hin Hd Hm
              1 self1 links1) as [e He].
  rewrite He in H2. discriminate H2.
Qed.

Lemma init_after_trunk_vlan_missing :
  forall if_dict pns vns ns policies maps d0 pp self links vlans vlan d name,
    switch_vlan_list pp = Ok (JList vlans) ->
    In vlan vlans ->
    py_getitem vlan SWITCH_POLICY = Ok d ->
    names_missing_policy d ns policies name ->
    exists e,
      init_after_trunk if_dict pns vns ns policies maps d0 pp self links
        = Err e.
Proof.
  intros if_dict pns vns ns policies maps d0 pp self links vlans vlan d name
         Hlist Hin Hd Hm.
  unfold init_after_trunk.
  apply bind_fails; intros [self1 links1] _.
  apply bind_fails; intros vif_list _.
  apply bind_fails; intros [self2 links2] _.
  rewrite Hlist. cbn [bind is_None py_iter].
  apply bind_fails; intros [self3 links3] H3.
  destruct (vlan_loop_missing ns policies maps vlans vlan d name Hin Hd Hm
              1 self2 links2) as [e He].
  rewrite He in H3. discriminate H3.
Qed.

(** A trunk configuration naming a policy the registry does not hold
    makes the constructor raise [KeyError] with that name; a [vif] entry or
    a hardware-switch VLAN entry naming one makes the constructor fail,
    wherever it stands in its list; and an interface that was built has no
    subport whose policy is not in the registry. *)
Lemma missing_policy_fails :
  forall if_type if_dict policies maps links,
    (forall d pp ns name,
       trunk_policy_dicts if_dict (policy_namespace_of if_type) = Ok (d, pp) ->
       POLICY_KEY_getitem if_type = Ok ns ->
       names_missing_policy d ns policies name ->
       Interface_init if_type if_dict policies maps links
         = Err (KeyError (JStr name))) /\
    (forall ns vifs vif d name,
       POLICY_KEY_getitem if_type = Ok ns ->
       py_get if_dict (vif_namespace_of if_type ++ "vif") = Ok (JList vifs) ->
       In vif vifs ->
       py_getitem vif (policy_namespace_of if_type ++ ":policy") = Ok d ->
       names_missing_policy d ns policies name ->
       exists e, Interface_init if_type if_dict policies maps links = Err e) /\
    (forall ns d0 pp vlans vlan d name,
       POLICY_KEY_getitem if_type = Ok ns ->
       trunk_policy_dicts if_dict (policy_namespace_of if_type) = Ok (d0, pp) ->
       switch_vlan_list pp = Ok (JList vlans) ->
       In vlan vlans ->
       py_getitem vlan SWITCH_POLICY = Ok d ->
       names_missing_policy d ns policies name ->
       exists e, Interface_init if_type if_dict policies maps links = Err e) /\
    (forall self links',
       Interface_init if_type if_dict policies maps links = Ok (self, links') ->
       no_dangling_policy policies self).
Proof.
  intros if_type if_dict policies maps links.
  split; [| split; [| split]].
  - intros d pp ns name Hd Hns Hm. unfold Interface_init.
    destruct (trunk_policy_dicts_is_dict _ _ _ _ (name_key if_type) Hd)
      as [v Hv].
    rewrite Hv. cbn [bind]. rewrite Hd. cbn [bind]. rewrite Hns. cbn [bind].
    rewrite (attached_policy_missing _ _ _ _ Hm). reflexivity.
  - intros ns vifs vif d name Hns Hlist Hin Hd Hm. unfold Interface_init.
    apply bind_fails; intros v _.
    apply bind_fails; intros [d0 pp] _.
    rewrite Hns. cbn [bind].
    apply bind_fails; intros policy _.
    destruct policy as [p|];
      apply (init_after_trunk_vif_missing _ _ _ _ _ _ _ _ _ _ vifs vif d name
               Hlist Hin Hd Hm).
  - intros ns d0 pp vlans vlan d name Hns Hd0 Hlist Hin Hd Hm.
    unfold Interface_init.
    apply bind_fails; intros v _.
    rewrite Hd0. cbn [bind]. rewrite Hns. cbn [bind].
    apply bind_fails; intros policy _.
    destruct policy as [p|];
      apply (init_after_trunk_vlan_missing _ _ _ _ _ _ _ _ _ _ vlans vlan d
               name Hlist Hin Hd Hm).
  - intros self links' H. apply (init_no_dangling _ _ _ _ _ _ _ H).
Qed.

(** * Further properties of the interface builder *)

Lemma ids_from_app :
  forall n m start,
    ids_from start (n + m) =
    (ids_from start n ++ ids_from (start + Z.of_nat n) m)%list.
Proof.
  induction n as [|n IH]; intros m start.
  - simpl. rewrite Z.add_0_r. reflexivity.
  - cbn [Nat.add ids_from app]. rewrite IH. f_equal. f_equal. f_equal. lia.
Qed.

Lemma ids_from_lower :
  forall n start, Forall (fun i => start <= i) (ids_from start n).
Proof.
  induction n as [|n IH]; intros start; constructor; [lia |].
  eapply Forall_impl; [| apply IH]. simpl. intros; lia.
Qed.

Lemma bind_ingress_map_policies :
  forall self links d vlan_id maps self' links',
    bind_ingress_map self links d vlan_id maps = Ok (self', links') ->
    _policies self' = _policies self /\ _name self' = _name self /\
    policy_interfaces links' = policy_interfaces links.
Proof.
  intros self links d vlan_id maps self' links' H.
  unfold bind_ingress_map, except_KeyError in H.
  destruct (py_getitem d "vyatta-policy-qos-v1:ingress-map") as [name|e];
    cbn [bind] in H.
  - destruct (registry_getitem maps name) as [m|e]; cbn [bind] in H.
    + inversion H; repeat split.
    + destruct e; inversion H; repeat split.
  - destruct e; inversion H; repeat split.
Qed.

(** What the [vif] loop adds: one subport per entry, numbered from
    [first_id] on, tagged with the entry's [tagnode]; the policies of
    these subports go to the policy list, and a back-reference to the
    interface goes to each of them. *)
Lemma vif_loop_adds :
  forall pns ns policies vifs first_id self links self' links',
    vif_loop pns ns policies vifs first_id self links = Ok (self', links') ->
    exists added,
      _subports self' = (_subports self ++ added)%list /\
      map subport_id added = ids_from first_id (List.length vifs) /\
      Forall2 (fun vif s => py_getitem vif "tagnode" = Ok (subport_vlan s))
              vifs added /\
      _policies self' = (_policies self ++ subport_policies added)%list /\
      _name self' = _name self /\
      _ingress_map_bindings self' = _ingress_map_bindings self /\
      policy_interfaces links' =
        (policy_interfaces links ++
         map (fun p => (policy_name p, _name self)) (subport_policies added))%list.
Proof.
  induction vifs as [|vif rest IH]; intros sid self links self' links' H.
  - inversion H; subst. exists []. cbn [map subport_policies flat_map].
    rewrite !app_nil_r. repeat split. constructor.
  - cbn [vif_loop] in H.
    apply bind_Ok_inv in H as [vlan_id [Hv H]].
    apply bind_Ok_inv in H as [d [_ H]].
    apply bind_Ok_inv in H as [policy [_ H]].
    destruct policy as [p|]; apply IH in H;
      destruct H as [added [Hs [Hid [Htag [Hp [Hn [Hb Hl]]]]]]];
      cbn [append_policy append_subport add_interface _subports _policies
           _name _ingress_map_bindings policy_interfaces] in *.
    + exists (mkSubport sid vlan_id (Some p) :: added).
      cbn [map subport_id List.length ids_from subport_policies flat_map
           subport_policy app].
      rewrite Hs, Hid, Hp, Hl, <- !app_assoc. cbn [app].
      repeat split; try assumption.
      constructor; [exact Hv | exact Htag].
    + exists (mkSubport sid vlan_id None :: added).
      cbn [map subport_id List.length ids_from subport_policies flat_map
           subport_policy app].
      rewrite Hs, Hid, Hp, Hl, <- !app_assoc. cbn [app].
      repeat split; try assumption.
      constructor; [exact Hv | exact Htag].
Qed.

(** What the hardware-switch loop adds: one subport per VLAN that has a
    policy, numbered from [first_id] on. *)
Lemma vlan_loop_adds :
  forall ns policies maps vlans first_id self links self' links',
    vlan_loop ns policies maps vlans first_id self links = Ok (self', links') ->
    exists added,
      _subports self' = (_subports self ++ added)%list /\
      map subport_id added = ids_from first_id (List.length added) /\
      Forall (fun s => subport_policy s <> None) added /\
      _policies self' = (_policies self ++ subport_policies added)%list /\
      _name self' = _name self /\
      policy_interfaces links' =
        (policy_interfaces links ++
         map (fun p => (policy_name p, _name self)) (subport_policies added))%list.
Proof.
  induction vlans as [|vlan rest IH]; intros sid self links self' links' H.
  - inversion H; subst. exists []. cbn [map subport_policies flat_map].
    rewrite !app_nil_r. repeat split. constructor.
  - cbn [vlan_loop] in H.
    apply bind_Ok_inv in H as [vlan_id [_ H]].
    apply bind_Ok_inv in H as [d [_ H]].
    apply bind_Ok_inv in H as [policy [_ H]].
    destruct policy as [p|];
      apply bind_Ok_inv in H as [[self2 links2] [Hb H]];
      pose proof (bind_ingress_map_subports _ _ _ _ _ _ _ Hb) as Hb1;
      apply bind_ingress_map_policies in Hb as [Hb2 [Hb3 Hb4]];
      apply IH in H; destruct H as [added [Hs [Hid [Hpol [Hp [Hn Hl]]]]]];
      cbn [append_policy append_subport add_interface _subports _policies
           _name policy_interfaces] in *.
    + exists (mkSubport sid vlan_id (Some p) :: added).
      cbn [map subport_id List.length ids_from subport_policies flat_map
           subport_policy app].
      rewrite Hs, Hb1, Hid, Hp, Hb2, Hl, Hb4, Hn, Hb3, <- !app_assoc.
      cbn [app]. repeat split.
      constructor; [discriminate | exact Hpol].
    + exists added.
      rewrite Hs, Hb1, Hp, Hb2, Hl, Hb4, Hn, Hb3.
      repeat split; assumption.
Qed.

Lemma subport_policies_app :
  forall a b,
    subport_policies (a ++ b) = (subport_policies a ++ subport_policies b)%list.
Proof. intros a b. unfold subport_policies. apply flat_map_app. Qed.

Lemma init_after_trunk_adds :
  forall if_dict pns vns ns policies maps d pp self links self' links',
    init_after_trunk if_dict pns vns ns policies maps d pp self links
      = Ok (self', links') ->
    exists vif_part vlan_part,
      _subports self' = (_subports self ++ vif_part ++ vlan_part)%list /\
      map subport_id vif_part = ids_from 1 (List.length vif_part) /\
      map subport_id vlan_part = ids_from 1 (List.length vlan_part) /\
      Forall (fun s => subport_policy s <> None) vlan_part /\
      _policies self' =
        (_policies self ++ subport_policies (vif_part ++ vlan_part))%list /\
      _name self' = _name self /\
      policy_interfaces links' =
        (policy_interfaces links ++
         map (fun p => (policy_name p, _name self))
             (subport_policies (vif_part ++ vlan_part)))%list /\
      (forall vifs,
         py_get if_dict (vns ++ "vif") = Ok (JList vifs) ->
         Forall2 (fun vif s => py_getitem vif "tagnode" = Ok (subport_vlan s))
                 vifs vif_part).
Proof.
  intros if_dict pns vns ns policies maps d pp self links self' links' H.
  unfold init_after_trunk in H.
  apply bind_Ok_inv in H as [[self1 links1] [H1 H]].
  pose proof (bind_ingress_map_subports _ _ _ _ _ _ _ H1) as S1.
  apply bind_ingress_map_policies in H1 as [P1 [N1 L1]].
  apply bind_Ok_inv in H as [vif_list [Hvif H]].
  apply bind_Ok_inv in H as [[self2 links2] [H2 H]].
  assert (V : exists vif_part,
             _subports self2 = (_subports self1 ++ vif_part)%list /\
             map subport_id vif_part = ids_from 1 (List.length vif_part) /\
             _policies self2 =
               (_policies self1 ++ subport_policies vif_part)%list /\
             _name self2 = _name self1 /\
             policy_interfaces links2 =
               (policy_interfaces links1 ++
                map (fun p => (policy_name p, _name self1))
                    (subport_policies vif_part))%list /\
             (forall vifs, vif_list = JList vifs ->
                Forall2 (fun vif s =>
                           py_getitem vif "tagnode" = Ok (subport_vlan s))
                        vifs vif_part)).
  { destruct (is_None vif_list) eqn:En.
    - inversion H2; subst. exists []. cbn [map subport_policies flat_map].
      rewrite !app_nil_r. repeat split.
      intros vifs ->. discriminate En.
    - apply bind_Ok_inv in H2 as [vifs [Hit H2]].
      apply vif_loop_adds in H2
        as [added [Hs [Hid [Htag [Hp [Hn [_ Hl]]]]]]].
      exists added. repeat split; try assumption.
      + rewrite Hid. f_equal.
        rewrite <- (length_map subport_id added), Hid.
        clear. generalize 1. induction vifs as [|v vifs IH]; intros z;
          [reflexivity | cbn [List.length ids_from]; f_equal; apply IH].
      + intros vifs' ->. cbn [py_iter] in Hit. inversion Hit; subst.
        exact Htag. }
  destruct V as [vif_part [S2 [I2 [P2 [N2 [L2 T2]]]]]].
  apply bind_Ok_inv in H as [vlan_list [_ H]].
  apply bind_Ok_inv in H as [[self3 links3] [H3 H]].
  assert (W : exists vlan_part,
             _subports self3 = (_subports self2 ++ vlan_part)%list /\
             map subport_id vlan_part = ids_from 1 (List.length vlan_part) /\
             Forall (fun s => subport_policy s <> None) vlan_part /\
             _policies self3 =
               (_policies self2 ++ subport_policies vlan_part)%list /\
             _name self3 = _name self2 /\
             policy_interfaces links3 =
               (policy_interfaces links2 ++
                map (fun p => (policy_name p, _name self2))
                    (subport_policies vlan_part))%list).
  { destruct (is_None vlan_list).
    - inversion H3; subst. exists []. cbn [map subport_policies flat_map].
      rewrite !app_nil_r. repeat split. constructor.
    - apply bind_Ok_inv in H3 as [vlans [_ H3]].
      apply vlan_loop_adds in H3. exact H3. }
  destruct W as [vlan_part [S3 [I3 [F3 [P3 [N3 L3]]]]]].
  inversion H; subst self' links'.
  exists vif_part, vlan_part.
  rewrite (build_profile_indexes_field _ _subports) by reflexivity.
  rewrite (build_profile_indexes_field _ _policies) by reflexivity.
  rewrite (build_profile_indexes_field _ _name) by reflexivity.
  rewrite S3, S2, S1, P3, P2, P1, N3, N2, N1, L3, L2, L1, N2, N1.
  rewrite subport_policies_app, map_app, <- !app_assoc.
  repeat split; try assumption.
  intros vifs Hv. apply T2. rewrite Hv in Hvif. inversion Hvif; reflexivity.
Qed.

(** The whole of what a successful construction leaves in the interface:
    the layout of the subport list, the policy list, the name, and the
    back-references added to the policies. *)
Lemma init_layout :
  forall if_type if_dict policies maps links self links',
    Interface_init if_type if_dict policies maps links = Ok (self, links') ->
    exists trunk vif_part vlan_part,
      subport_layout (_subports self) trunk vif_part vlan_part /\
      _policies self = subport_policies (_subports self) /\
      py_get if_dict (name_key if_type) = Ok (_name self) /\
      policy_interfaces links' =
        (policy_interfaces links ++
         map (fun p => (policy_name p, _name self)) (_policies self))%list /\
      (forall vifs,
         py_get if_dict (vif_namespace_of if_type ++ "vif") = Ok (JList vifs) ->
         Forall2 (fun vif s => py_getitem vif "tagnode" = Ok (subport_vlan s))
                 vifs vif_part).
Proof.
  intros if_type if_dict policies maps links self links' H.
  unfold Interface_init in H.
  apply bind_Ok_inv in H as [name [Hname H]].
  apply bind_Ok_inv in H as [[d pp] [_ H]].
  apply bind_Ok_inv in H as [ns [_ H]].
  apply bind_Ok_inv in H as [policy [_ H]].
  destruct policy as [p|];
    apply init_after_trunk_adds in H
      as [vif_part [vlan_part [S [I1 [I2 [F [P [N [L T]]]]]]]]];
    cbn [append_policy append_subport add_interface _subports _policies
         _name policy_interfaces app] in *.
  - exists [mkSubport 0 (JNum 0) (Some p)], vif_part, vlan_part.
    unfold subport_layout. rewrite S, P, L, N, Hname.
    cbn [app subport_policies flat_map subport_policy map].
    rewrite <- !app_assoc. cbn [app].
    repeat split; try assumption. right; exists p; reflexivity.
  - exists [], vif_part, vlan_part.
    unfold subport_layout. rewrite S, P, L, N, Hname. cbn [app].
    repeat split; try assumption. left; reflexivity.
Qed.

Lemma later_subports_keep_overhead :
  forall subports max_pipes overhead,
    Forall (fun s => 1 <= subport_id s) subports ->
    snd (pipes_and_overhead subports max_pipes overhead) = overhead.
Proof.
  induction subports as [|s rest IH]; intros m o H; [reflexivity |].
  inversion H as [|? ? Hs Hrest]; subst. cbn [pipes_and_overhead].
  destruct (subport_policy s) as [p|]; [| apply IH; exact Hrest].
  replace (Z.eqb (subport_id s) 0) with false
    by (symmetry; apply Z.eqb_neq; lia).
  apply IH; exact Hrest.
Qed.

Lemma numbered_from_one :
  forall subports n,
    map subport_id subports = ids_from 1 n ->
    Forall (fun s => 1 <= subport_id s) subports.
Proof.
  intros subports n H.
  pose proof (ids_from_lower n 1) as L. rewrite <- H in L.
  rewrite Forall_map in L. exact L.
Qed.

Lemma layout_overhead :
  forall subports trunk vif_part vlan_part,
    subport_layout subports trunk vif_part vlan_part ->
    snd (pipes_and_overhead subports 0 None) = trunk_overhead subports.
Proof.
  intros subports trunk vif_part vlan_part [S [T [I1 [I2 _]]]].
  assert (R : Forall (fun s => 1 <= subport_id s) (vif_part ++ vlan_part)).
  { apply Forall_app; split;
      [apply (numbered_from_one _ _ I1) | apply (numbered_from_one _ _ I2)]. }
  subst subports. destruct T as [-> | [p ->]]; cbn [app].
  - rewrite (later_subports_keep_overhead _ 0 None R).
    unfold trunk_overhead. destruct (vif_part ++ vlan_part)%list as [|s rest];
      [reflexivity |].
    inversion R; subst.
    replace (Z.eqb (subport_id s) 0) with false
      by (symmetry; apply Z.eqb_neq; lia).
    reflexivity.
  - cbn [pipes_and_overhead subport_policy subport_id Z.eqb trunk_overhead
         option_map].
    apply later_subports_keep_overhead; exact R.
Qed.

(** The subport list of a built interface splits into a trunk part, a
    [vif] part numbered 1, 2, ... and tagged with the entries' [tagnode],
    and a hardware-switch part numbered from 1 again. *)
Lemma built_subport_numbering :
  forall if_type if_dict policies maps links self links',
    Interface_init if_type if_dict policies maps links = Ok (self, links') ->
    exists trunk vif_part vlan_part,
      subport_layout (_subports self) trunk vif_part vlan_part /\
      (forall vifs,
         py_get if_dict (vif_namespace_of if_type ++ "vif") = Ok (JList vifs) ->
         Forall2 (fun vif s => py_getitem vif "tagnode" = Ok (subport_vlan s))
                 vifs vif_part).
Proof.
  intros if_type if_dict policies maps links self links' H.
  destruct (init_layout _ _ _ _ _ _ _ H)
    as [trunk [vif_part [vlan_part [L [_ [_ [_ T]]]]]]].
  exists trunk, vif_part, vlan_part. split; [exact L | exact T].
Qed.

(** X2: the policy list of a built interface holds exactly the policies of
    its subports, in subport order, and the interface's name is what the
    dictionary holds under [tagnode] ([name] for a vhost). *)
Theorem built_policy_list :
  forall if_type if_dict policies maps links self links',
    Interface_init if_type if_dict policies maps links = Ok (self, links') ->
    _policies self = subport_policies (_subports self) /\
    py_get if_dict (name_key if_type) = Ok (_name self).
Proof.
  intros if_type if_dict policies maps links self links' H.
  destruct (init_layout _ _ _ _ _ _ _ H)
    as [trunk [vif_part [vlan_part [_ [P [N _]]]]]].
  split; [exact P | exact N].
Qed.

(** X3: construction appends one back-reference per entry of the
    interface's policy list, in the same order, each naming the interface:
    the two sides of the cross-link agree. *)
Theorem built_backreferences :
  forall if_type if_dict policies maps links self links',
    Interface_init if_type if_dict policies maps links = Ok (self, links') ->
    policy_interfaces links' =
      (policy_interfaces links ++
       map (fun p => (policy_name p, _name self)) (_policies self))%list.
Proof.
  intros if_type if_dict policies maps links self links' H.
  destruct (init_layout _ _ _ _ _ _ _ H)
    as [trunk [vif_part [vlan_part [_ [_ [_ [L _]]]]]]].
  exact L.
Qed.

Section BuiltCommands.

Variable pipe_command : string -> nat -> option Z -> string.

(** X4: for a built interface the overhead of the port command is decided
    by the first subport alone.  With [max_pipes = 0] the list holds the
    subports' commands only; otherwise, when the first subport is the
    trunk's, the list is the port command with the trunk policy's overhead,
    the subports' commands and the enable command, and when it is not,
    [commands()] raises [UnboundLocalError]. *)
Theorem built_commands :
  forall if_type if_dict policies maps links self links' sysfs,
    Interface_init if_type if_dict policies maps links = Ok (self, links') ->
    let ifindex := fst (Interface_ifindex sysfs self) in
    let self' := snd (Interface_ifindex sysfs self) in
    let prefix := "qos " ++ str_of_opt ifindex in
    let body := subport_command_list pipe_command ifindex self' in
    fst (Interface_commands pipe_command sysfs self) =
      if Z.eqb (Interface_max_pipes self) 0 then Ok body
      else
        match trunk_overhead (_subports self) with
        | Some o =>
            Ok (port_command prefix
                  (Z.of_nat (List.length (_subports self)))
                  (Interface_max_pipes self) (profile_index_size self') o
                :: body ++ [enable_command prefix])%list
        | None => Err (UnboundLocalError "overhead")
        end.
Proof.
  intros if_type if_dict policies maps links self links' sysfs H. cbv zeta.
  destruct (init_layout _ _ _ _ _ _ _ H)
    as [trunk [vif_part [vlan_part [L _]]]].
  rewrite commands_cases. rewrite (layout_overhead _ _ _ _ L). reflexivity.
Qed.

End BuiltCommands.

Lemma built_policy_list_witness :
  exists self links,
    Interface_init "dataplane" trunk_and_vifs_if_dict two_policies one_map
      no_links = Ok (self, links) /\
    _policies self = subport_policies (_subports self) /\
    py_get trunk_and_vifs_if_dict (name_key "dataplane") = Ok (_name self).
Proof.
  eexists. eexists. split; [reflexivity |].
  apply (built_policy_list "dataplane" trunk_and_vifs_if_dict two_policies
           one_map no_links _ _ eq_refl).
Defined.

Lemma built_backreferences_witness :
  exists self links,
    Interface_init "dataplane" trunk_and_vifs_if_dict two_policies one_map
      no_links = Ok (self, links) /\
    policy_interfaces links =
      (policy_interfaces no_links ++
       map (fun p => (policy_name p, _name self)) (_policies self))%list.
Proof.
  eexists. eexists. split; [reflexivity |].
  apply (built_backreferences "dataplane" trunk_and_vifs_if_dict two_policies
           one_map no_links _ _ eq_refl).
Defined.

Lemma built_commands_witness :
  exists self links,
    Interface_init "dataplane" trunk_and_vifs_if_dict two_policies one_map
      no_links = Ok (self, links) /\
    fst (Interface_commands sample_pipe_command (fun _ => Some "7") self) =
      Ok [ "qos 7 port subports 3 pipes 1 profiles 2 overhead 24";
           "qos 7 subport 0 pipe 0 profile 0";
           "qos 7 subport 1 pipe 0 profile 1";
           "qos 7 enable" ].
Proof.
  eexists. eexists. split; [reflexivity |].
  rewrite (built_commands sample_pipe_command "dataplane"
             trunk_and_vifs_if_dict two_policies one_map no_links _ _
             (fun _ => Some "7") eq_refl).
  reflexivity.
Defined.

(** ** Interface types and ingress-map bindings *)

(** X5: an interface type other than [dataplane], [bonding] and [vhost]
    never gives an interface: when the dictionary gets as far as the
    namespace lookup, the constructor raises [KeyError] with the type. *)
Theorem unknown_type_never_builds :
  forall if_type if_dict policies maps links,
    lookup if_type POLICY_KEY = None ->
    (exists e, Interface_init if_type if_dict policies maps links = Err e) /\
    (forall d pp,
       trunk_policy_dicts if_dict (policy_namespace_of if_type) = Ok (d, pp) ->
       Interface_init if_type if_dict policies maps links
         = Err (KeyError (JStr if_type))).
Proof.
  intros if_type if_dict policies maps links Hty.
  assert (Hns : POLICY_KEY_getitem if_type = Err (KeyError (JStr if_type))).
  { unfold POLICY_KEY_getitem. rewrite Hty. reflexivity. }
  split.
  - unfold Interface_init.
    apply bind_fails; intros name _.
    apply bind_fails; intros [d pp] _.
    rewrite Hns. eexists; reflexivity.
  - intros d pp Hd. unfold Interface_init.
    destruct (trunk_policy_dicts_is_dict _ _ _ _ (name_key if_type) Hd)
      as [v Hv].
    rewrite Hv. cbn [bind]. rewrite Hd. cbn [bind]. rewrite Hns. reflexivity.
Qed.

Lemma unknown_type_never_builds_witness :
  Interface_init "loopback" (trunk_if_dict "P1") two_policies [] no_links
    = Err (KeyError (JStr "loopback")).
Proof.
  apply (proj2 (unknown_type_never_builds "loopback" (trunk_if_dict "P1")
                  two_policies [] no_links eq_refl)
           (JDict [ (QOS, JStr "P1") ]) JNull).
  reflexivity.
Defined.

Lemma bind_ingress_map_bindings :
  forall self links d vlan_id maps self' links',
    bind_ingress_map self links d vlan_id maps = Ok (self', links') ->
    _ingress_map_bindings self' = _ingress_map_bindings self \/
    exists name m,
      py_getitem d INGRESS_MAP = Ok (JStr name) /\
      lookup name maps = Some m /\
      _ingress_map_bindings self' =
        (_ingress_map_bindings self ++ [mkBinding vlan_id m])%list.
Proof.
  intros self links d vlan_id maps self' links' H.
  unfold bind_ingress_map, except_KeyError in H. unfold INGRESS_MAP.
  destruct (py_getitem d "vyatta-policy-qos-v1:ingress-map") as [name|e];
    cbn [bind] in H.
  - destruct (registry_getitem maps name) as [m|e] eqn:Hm; cbn [bind] in H.
    + inversion H; subst. right.
      destruct name as [| |s| |]; try discriminate Hm.
      simpl in Hm. destruct (lookup s maps) as [m'|] eqn:E;
        [| discriminate Hm].
      inversion Hm; subst m'. exists s, m. repeat split. exact E.
    + destruct e; inversion H; left; reflexivity.
  - destruct e; inversion H; left; reflexivity.
Qed.

Lemma vlan_loop_bindings :
  forall ns policies maps vlans first_id self links self' links',
    vlan_loop ns policies maps vlans first_id self links = Ok (self', links') ->
    Forall (fun b => exists name, lookup name maps = Some (binding_map b))
           (_ingress_map_bindings self) ->
    Forall (fun b => exists name, lookup name maps = Some (binding_map b))
           (_ingress_map_bindings self').
Proof.
  induction vlans as [|vlan rest IH]; intros sid self links self' links' H Hinv.
  - inversion H; subst; exact Hinv.
  - cbn [vlan_loop] in H.
    apply bind_Ok_inv in H as [vlan_id [_ H]].
    apply bind_Ok_inv in H as [d [_ H]].
    apply bind_Ok_inv in H as [policy [_ H]].
    assert (Hstep : forall self1 links1 sid1,
              _ingress_map_bindings self1 = _ingress_map_bindings self ->
              (' (self2, links2) <-
                 bind_ingress_map self1 links1 d vlan_id maps ;;
               vlan_loop ns policies maps rest sid1 self2 links2)
                = Ok (self', links') ->
              Forall (fun b => exists name,
                          lookup name maps = Some (binding_map b))
                     (_ingress_map_bindings self')).
    { intros self1 links1 sid1 Hsame Hrun.
      apply bind_Ok_inv in Hrun as [[self2 links2] [Hb Hrun]].
      apply (IH _ _ _ _ _ Hrun).
      destruct (bind_ingress_map_bindings _ _ _ _ _ _ _ Hb)
        as [E | [name [m [_ [Hm E]]]]]; rewrite E, Hsame.
      - exact Hinv.
      - apply Forall_app; split; [exact Hinv |].
        constructor; [exists name; exact Hm | constructor]. }
    destruct policy as [p|]; eapply Hstep; try exact H; reflexivity.
Qed.

(** X6: every ingress-map binding of a built interface refers to a map of
    the registry; and when the trunk's policy dictionary is found under the
    standard key, the interface has at most one binding, the trunk's, with
    VLAN tag 0: no [vif] entry ever gets one. *)
Theorem built_bindings :
  forall if_type if_dict policies maps links self links',
    Interface_init if_type if_dict policies maps links = Ok (self, links') ->
    Forall (fun b => exists name, lookup name maps = Some (binding_map b))
           (_ingress_map_bindings self) /\
    (forall d,
       py_getitem if_dict (policy_namespace_of if_type ++ ":policy") = Ok d ->
       _ingress_map_bindings self = [] \/
       exists name m,
         py_getitem d INGRESS_MAP = Ok (JStr name) /\
         lookup name maps = Some m /\
         _ingress_map_bindings self = [mkBinding (JNum 0) m]).
Proof.
  intros if_type if_dict policies maps links self links' H.
  unfold Interface_init in H.
  apply bind_Ok_inv in H as [name [_ H]].
  apply bind_Ok_inv in H as [[d0 pp] [Hd0 H]].
  apply bind_Ok_inv in H as [ns [_ H]].
  apply bind_Ok_inv in H as [policy [_ H]].
  assert (Hrun : exists self0 links0,
             _ingress_map_bindings self0 = [] /\
             init_after_trunk if_dict (policy_namespace_of if_type)
               (vif_namespace_of if_type) ns policies maps d0 pp self0 links0
             = Ok (self, links')).
  { destruct policy as [p|]; eexists; eexists; (split; [| exact H]);
      reflexivity. }
  clear H. destruct Hrun as [self0 [links0 [Hempty H]]].
  unfold init_after_trunk in H.
  apply bind_Ok_inv in H as [[self1 links1] [H1 H]].
  apply bind_ingress_map_bindings in H1. rewrite Hempty in H1. cbn [app] in H1.
  apply bind_Ok_inv in H as [vif_list [_ H]].
  apply bind_Ok_inv in H as [[self2 links2] [H2 H]].
  assert (B2 : _ingress_map_bindings self2 = _ingress_map_bindings self1).
  { destruct (is_None vif_list).
    - inversion H2; reflexivity.
    - apply bind_Ok_inv in H2 as [vifs [_ H2]].
      apply vif_loop_adds in H2 as [added [_ [_ [_ [_ [_ [Hb _]]]]]]].
      exact Hb. }
  apply bind_Ok_inv in H as [vlan_list [Hvl H]].
  apply bind_Ok_inv in H as [[self3 links3] [H3 H]].
  inversion H; subst self links'.
  rewrite (build_profile_indexes_field _ _ingress_map_bindings)
    by reflexivity.
  assert (I1 : Forall (fun b => exists name,
                         lookup name maps = Some (binding_map b))
                      (_ingress_map_bindings self1)).
  { destruct H1 as [E | [nm [m [_ [Hm E]]]]]; rewrite E.
    - constructor.
    - constructor; [exists nm; exact Hm | constructor]. }
  split.
  - destruct (is_None vlan_list).
    + inversion H3; subst. rewrite B2. exact I1.
    + apply bind_Ok_inv in H3 as [vlans [_ H3]].
      apply (vlan_loop_bindings _ _ _ _ _ _ _ _ _ H3). rewrite B2. exact I1.
  - intros d Hd. unfold trunk_policy_dicts in Hd0. rewrite Hd in Hd0.
    inversion Hd0; subst d0 pp.
    cbn [switch_vlan_list is_None] in Hvl. inversion Hvl; subst vlan_list.
    cbn [is_None] in H3. inversion H3; subst. rewrite B2.
    destruct H1 as [E | [nm [m [Hn [Hm E]]]]]; rewrite E.
    + left; reflexivity.
    + right. exists nm, m. repeat split; assumption.
Qed.

Lemma built_bindings_witness :
  exists self links,
    Interface_init "dataplane" trunk_and_vifs_if_dict two_policies one_map
      no_links = Ok (self, links) /\
    _ingress_map_bindings self = [mkBinding (JNum 0) (mkIngressMap "in-map-1")] /\
    Forall (fun b => exists name, lookup name one_map = Some (binding_map b))
           (_ingress_map_bindings self).
Proof.
  eexists. eexists. split; [reflexivity |]. split; [reflexivity |].
  apply (proj1 (built_bindings "dataplane" trunk_and_vifs_if_dict two_policies
                  one_map no_links _ _ eq_refl)).
Defined.

(** * Further properties of QosConfig *)

Lemma sublist_refl {A : Type} : forall l : list A, sublist l l.
Proof. induction l; constructor; assumption. Qed.

Lemma deferred_loop_resolves :
  forall sysfs interfaces,
    fst (deferred_loop sysfs interfaces)
      = unresolved_names (snd (deferred_loop sysfs interfaces)) /\
    map fst (snd (deferred_loop sysfs interfaces)) = map fst interfaces.
Proof.
  intros sysfs. induction interfaces as [|[key i] rest [IH1 IH2]];
    [split; reflexivity |].
  cbn [deferred_loop]. unfold Interface_ifindex.
  destruct (deferred_loop sysfs rest) as [d rest'].
  cbn [fst snd] in IH1, IH2.
  destruct (_ifindex i) as [ix|] eqn:Ei.
  - cbn [fst snd unresolved_names map]. rewrite Ei, IH1, IH2.
    split; reflexivity.
  - destruct (sysfs (_name i)) as [c|];
      cbn [fst snd unresolved_names map set_ifindex _ifindex _name].
    + rewrite IH1, IH2. split; reflexivity.
    + rewrite Ei, IH1, IH2. split; reflexivity.
Qed.

Lemma deferred_loop_shrinks :
  forall sysfs interfaces,
    sublist (fst (deferred_loop sysfs interfaces))
            (unresolved_names interfaces).
Proof.
  intros sysfs. induction interfaces as [|[key i] rest IH]; [constructor |].
  cbn [deferred_loop unresolved_names]. unfold Interface_ifindex.
  destruct (deferred_loop sysfs rest) as [d rest']. cbn [fst] in IH.
  destruct (_ifindex i) as [ix|]; [exact IH |].
  destruct (sysfs (_name i)) as [c|]; cbn [fst set_ifindex _name].
  - apply sublist_skip; exact IH.
  - apply sublist_keep; exact IH.
Qed.

(** X7: [deferred_interfaces] lists exactly the names of the interfaces
    that are still without ifindex after the call, in the order of the
    registry; and the list only ever shrinks: whatever the system files say
    at a second call, its list is the first one with some names left
    out. *)
Theorem deferred_interfaces_shrink :
  forall (Action MarkMap : Type) (self : QosConfig Action MarkMap)
         (sysfs sysfs' : json -> option string),
    let '(deferred, self1) := deferred_interfaces sysfs self in
    let '(deferred', self2) := deferred_interfaces sysfs' self1 in
    deferred = unresolved_names (_interfaces _ _ self1) /\
    map fst (_interfaces _ _ self1) = map fst (_interfaces _ _ self) /\
    sublist deferred' deferred.
Proof.
  intros Action MarkMap self sysfs sysfs'. unfold deferred_interfaces.
  pose proof (deferred_loop_resolves sysfs (_interfaces _ _ self)) as [R1 R2].
  destruct (deferred_loop sysfs (_interfaces _ _ self)) as [d l1].
  cbn [fst snd] in R1, R2. cbn [_interfaces].
  pose proof (deferred_loop_shrinks sysfs' l1) as S.
  destruct (deferred_loop sysfs' l1) as [d' l2]. cbn [fst] in S.
  rewrite R1. repeat split; assumption.
Qed.

Section RegistryFacts.

Variable Action : Type.
Variable Action_init : json -> result Action.
Variable Action_name : Action -> string.
Variable MarkMap : Type.
Variable MarkMap_init : json -> result MarkMap.
Variable MarkMap_name : MarkMap -> string.
Variable Profile_read_name : json -> result string.
Variable Policy_init :
  json -> list (string * Profile) -> list (string * MarkMap) -> result Policy.

Lemma policy_loop_origin :
  forall l profiles maps reg reg',
    policy_loop MarkMap Policy_init l profiles maps reg = Ok reg' ->
    forall n p,
      lookup n reg' = Some p ->
      lookup n reg = Some p \/
      exists d, In d l /\ Policy_init d profiles maps = Ok p /\
                policy_name p = n.
Proof.
  induction l as [|d rest IH]; intros profiles maps reg reg' H n p Hl.
  - inversion H; subst. left; exact Hl.
  - cbn [policy_loop] in H. apply bind_Ok_inv in H as [policy [Hp H]].
    destruct (IH _ _ _ _ H n p Hl) as [Hin | [d' [Hd' [Hi Hn]]]].
    + destruct (String.eqb n (policy_name policy)) eqn:E.
      * apply String.eqb_eq in E. rewrite E in Hin.
        rewrite lookup_dict_set_same in Hin. inversion Hin; subst p.
        right. exists d. repeat split;
          [left; reflexivity | exact Hp | symmetry; exact E].
      * rewrite lookup_dict_set_other in Hin by exact E. left; exact Hin.
    + right. exists d'. repeat split; [right; exact Hd' | exact Hi | exact Hn].
Qed.

(** X8: every policy that [_process_qos] files was built by the Policy
    constructor from an entry of the [name] list, against the registries
    of global profiles and mark-maps as they stand when [_process_qos]
    returns, that is, with every declared global profile and mark-map
    already in them; and it is filed under its own name. *)
Theorem policies_see_complete_registries :
  forall (self self' : QosConfig Action MarkMap) qos_dict l,
    _process_qos Action MarkMap MarkMap_init MarkMap_name Profile_read_name
      Policy_init self qos_dict = Ok self' ->
    py_get qos_dict "name" = Ok (JList l) ->
    _qos_policies _ _ self = [] ->
    forall n p,
      lookup n (_qos_policies _ _ self') = Some p ->
      exists d,
        In d l /\
        Policy_init d (_global_profiles _ _ self') (_mark_maps _ _ self')
          = Ok p /\
        policy_name p = n.
Proof.
  intros self self' qos_dict l H Hl Hempty n p Hp.
  unfold _process_qos in H.
  apply bind_Ok_inv in H as [mark_maps_list [_ H]].
  apply bind_Ok_inv in H as [maps [_ H]].
  apply bind_Ok_inv in H as [global_profiles_list [_ H]].
  apply bind_Ok_inv in H as [profiles [_ H]].
  rewrite Hl in H. cbn [bind is_None py_iter] in H.
  apply bind_Ok_inv in H as [policies [Hloop H]].
  inversion H; subst self'. cbn [_qos_policies _global_profiles _mark_maps] in *.
  rewrite Hempty in Hloop.
  destruct (policy_loop_origin _ _ _ _ _ Hloop n p Hp) as [Hin | Hd].
  - discriminate Hin.
  - exact Hd.
Qed.

(** X9: a policy subtree without the [vyatta-policy-qos-v1:qos] entry makes
    the constructor raise, whatever else the snapshot holds; with no action
    subtree either, the error is the [KeyError] of line 39. *)
Theorem config_without_qos_raises :
  forall config_dict policy_items,
    py_get config_dict "vyatta-policy-v1:policy" = Ok (JDict policy_items) ->
    lookup "vyatta-policy-qos-v1:qos" policy_items = None ->
    (exists e,
       QosConfig_init Action Action_init Action_name MarkMap MarkMap_init
         MarkMap_name Profile_read_name Policy_init config_dict = Err e) /\
    (lookup "vyatta-policy-action-v1:action" policy_items = None ->
     QosConfig_init Action Action_init Action_name MarkMap MarkMap_init
       MarkMap_name Profile_read_name Policy_init config_dict
       = Err (KeyError (JStr "vyatta-policy-qos-v1:qos"))).
Proof.
  intros config_dict policy_items Hp Hq.
  unfold QosConfig_init. rewrite Hp. cbn [bind is_None py_get py_getitem].
  rewrite Hq. split.
  - destruct (_process_action _ _ _ _ _ _) as [self1|e];
      eexists; reflexivity.
  - intros Ha. rewrite Ha. reflexivity.
Qed.

End RegistryFacts.

Lemma policies_see_complete_registries_witness :
  exists d,
    In d [ JDict [("id", JStr "P1")] ] /\
    sample_policy_init d two_profiles_registry [] = Ok (mkPolicy "P1" [] None [] 24) /\
    policy_name (mkPolicy "P1" [] None [] 24) = "P1".
Proof.
  apply (policies_see_complete_registries unit unit sample_init sample_name
           sample_profile_name sample_policy_init
           (empty_config unit unit)
           (mkQosConfig unit unit [] [] two_profiles_registry []
              [("P1", mkPolicy "P1" [] None [] 24)])
           profiles_and_policy_qos_dict [ JDict [("id", JStr "P1")] ]
           eq_refl eq_refl eq_refl "P1" (mkPolicy "P1" [] None [] 24) eq_refl).
Defined.

Lemma config_without_qos_raises_witness :
  sample_QosConfig_init policy_without_qos_config
    = Err (KeyError (JStr "vyatta-policy-qos-v1:qos")).
Proof.
  apply (proj2 (config_without_qos_raises unit sample_init sample_name unit
                  sample_init sample_name sample_profile_name
                  sample_policy_init policy_without_qos_config []
                  eq_refl eq_refl)).
  reflexivity.
Defined.

(** * Properties of the operational-state converter *)

(** ** Decoding a queue-map value *)

Lemma get_traffic_class_mod :
  forall v, get_traffic_class v = v mod 4.
Proof.
  intros v. unfold get_traffic_class, TC_MASK.
  change 3 with (Z.ones 2). rewrite Z.land_ones by lia. reflexivity.
Qed.

Lemma get_queue_number_mod :
  forall v, get_queue_number v = (v / 4) mod 8.
Proof.
  intros v. unfold get_queue_number, TC_SHIFT, WRR_MASK.
  change 7 with (Z.ones 3). rewrite Z.land_ones by lia.
  rewrite Z.shiftr_div_pow2 by lia. reflexivity.
Qed.

(** X10: for every integer the traffic class is in 0..3 and the queue
    number in 0..7, together they are the low five bits of the value
    ([v mod 32 = tc + 4 * queue]), and a value put together from a traffic
    class and a queue number decodes to them. *)
Theorem qmap_decoding :
  forall v,
    0 <= get_traffic_class v <= 3 /\
    0 <= get_queue_number v <= 7 /\
    v mod 32 = get_traffic_class v + 4 * get_queue_number v /\
    (forall tc q, 0 <= tc <= 3 -> 0 <= q <= 7 ->
       get_traffic_class (tc + 4 * q) = tc /\
       get_queue_number (tc + 4 * q) = q).
Proof.
  intros v. rewrite get_traffic_class_mod, get_queue_number_mod.
  pose proof (Z.mod_pos_bound v 4 ltac:(lia)).
  pose proof (Z.mod_pos_bound (v / 4) 8 ltac:(lia)).
  repeat split; try lia.
  - pose proof (Z.div_mod v 4 ltac:(lia)).
    pose proof (Z.div_mod (v / 4) 8 ltac:(lia)).
    pose proof (Z.div_mod v 32 ltac:(lia)).
    pose proof (Z.mod_pos_bound v 32 ltac:(lia)).
    assert (v / 4 / 8 = v / 32) by (rewrite Z.div_div by lia; reflexivity).
    lia.
  - rewrite get_traffic_class_mod.
    replace (tc + 4 * q) with (tc + q * 4) by lia.
    rewrite Z.mod_add by lia. apply Z.mod_small; lia.
  - rewrite get_queue_number_mod.
    replace (tc + 4 * q) with (tc + q * 4) by lia.
    rewrite Z.div_add by lia. rewrite (Z.div_small tc 4) by lia.
    apply Z.mod_small; lia.
Qed.

(** ** Tagging arrays by position *)

Lemma tc_rates_loop_nth :
  forall l start i x,
    nth_error l i = Some x ->
    nth_error (tc_rates_loop l start) i =
      Some (JDict [ ("traffic-class", JNum (start + Z.of_nat i)); ("rate", x) ]).
Proof.
  induction l as [|y l IH]; intros start i x H; [destruct i; discriminate H |].
  destruct i as [|i]; cbn [nth_error tc_rates_loop] in *.
  - inversion H; subst. rewrite Z.add_0_r. reflexivity.
  - rewrite (IH (start + 1) i x H).
    replace (start + 1 + Z.of_nat i) with (start + Z.of_nat (S i)) by lia.
    reflexivity.
Qed.

Lemma tc_rates_loop_length :
  forall l start, List.length (tc_rates_loop l start) = List.length l.
Proof.
  induction l as [|y l IH]; intros start; [reflexivity |].
  cbn [tc_rates_loop List.length]. rewrite IH. reflexivity.
Qed.

Lemma wrr_weights_loop_nth :
  forall l start i x,
    nth_error l i = Some x ->
    nth_error (wrr_weights_loop l start) i =
      Some (JDict [ ("queue", JNum (start + Z.of_nat i)); ("weight", x) ]).
Proof.
  induction l as [|y l IH]; intros start i x H; [destruct i; discriminate H |].
  destruct i as [|i]; cbn [nth_error wrr_weights_loop] in *.
  - inversion H; subst. rewrite Z.add_0_r. reflexivity.
  - rewrite (IH (start + 1) i x H).
    replace (start + 1 + Z.of_nat i) with (start + Z.of_nat (S i)) by lia.
    reflexivity.
Qed.

Lemma wrr_weights_loop_length :
  forall l start, List.length (wrr_weights_loop l start) = List.length l.
Proof.
  induction l as [|y l IH]; intros start; [reflexivity |].
  cbn [wrr_weights_loop List.length]. rewrite IH. reflexivity.
Qed.

(** X11: [convert_tc_rates] and [convert_wrr_weights] never fail on a list
    and keep its length; the element at position [i] becomes the dict that
    tags it with [i], under [traffic-class] and [rate], or [queue] and
    [weight]. *)
Theorem arrays_tagged_by_position :
  forall l,
    (exists out,
       convert_tc_rates (JList l) = Ok (JList out) /\
       List.length out = List.length l /\
       forall i x, nth_error l i = Some x ->
         nth_error out i =
           Some (JDict [ ("traffic-class", JNum (Z.of_nat i)); ("rate", x) ])) /\
    (exists out,
       convert_wrr_weights (JList l) = Ok (JList out) /\
       List.length out = List.length l /\
       forall i x, nth_error l i = Some x ->
         nth_error out i =
           Some (JDict [ ("queue", JNum (Z.of_nat i)); ("weight", x) ])).
Proof.
  intros l. split.
  - exists (tc_rates_loop l 0). split; [reflexivity |].
    split; [apply tc_rates_loop_length |].
    intros i x H. rewrite (tc_rates_loop_nth l 0 i x H). reflexivity.
  - exists (wrr_weights_loop l 0). split; [reflexivity |].
    split; [apply wrr_weights_loop_length |].
    intros i x H. rewrite (wrr_weights_loop_nth l 0 i x H). reflexivity.
Qed.

(** ** The DSCP map and its reverse *)

Lemma zlookup_zdict_set_same {V : Type} :
  forall (d : list (Z * V)) k v, zlookup k (zdict_set k v d) = Some v.
Proof.
  induction d as [|[k' v'] d IH]; intros k v; simpl.
  - rewrite Z.eqb_refl; reflexivity.
  - destruct (Z.eqb k k') eqn:E; simpl.
    + rewrite Z.eqb_refl; reflexivity.
    + rewrite E; apply IH.
Qed.

Lemma zlookup_zdict_set_other {V : Type} :
  forall (d : list (Z * V)) k k0 v,
    Z.eqb k0 k = false -> zlookup k0 (zdict_set k v d) = zlookup k0 d.
Proof.
  induction d as [|[k' v'] d IH]; intros k k0 v Hne; simpl.
  - rewrite Hne; reflexivity.
  - destruct (Z.eqb k k') eqn:E; simpl.
    + apply Z.eqb_eq in E; subst k'. rewrite Hne; reflexivity.
    + destruct (Z.eqb k0 k'); [reflexivity | apply IH; exact Hne].
Qed.

Lemma record_code_point_points :
  forall m tc q c tc' q',
    code_points_of (record_code_point m tc q c) tc' q' =
      if Z.eqb tc' tc && Z.eqb q' q
      then (code_points_of m tc q ++ [c])%list
      else code_points_of m tc' q'.
Proof.
  intros m tc q c tc' q'. unfold record_code_point, code_points_of.
  destruct (Z.eqb tc' tc) eqn:Et; cbn [andb].
  - apply Z.eqb_eq in Et; subst tc'.
    destruct (zlookup tc m) as [queues|] eqn:Em;
      rewrite zlookup_zdict_set_same;
      (destruct (Z.eqb q' q) eqn:Eq;
       [apply Z.eqb_eq in Eq; subst q'; rewrite zlookup_zdict_set_same;
        reflexivity
       | rewrite zlookup_zdict_set_other by exact Eq; reflexivity]).
  - destruct (zlookup tc m) as [queues|];
      rewrite zlookup_zdict_set_other by exact Et; reflexivity.
Qed.

Lemma record_code_point_entry :
  forall m tc q c tc' q',
    has_entry (record_code_point m tc q c) tc' q' =
      (Z.eqb tc' tc && Z.eqb q' q) || has_entry m tc' q'.
Proof.
  intros m tc q c tc' q'. unfold record_code_point, has_entry.
  destruct (Z.eqb tc' tc) eqn:Et; cbn [andb].
  - apply Z.eqb_eq in Et; subst tc'.
    destruct (zlookup tc m) as [queues|] eqn:Em;
      rewrite zlookup_zdict_set_same;
      (destruct (Z.eqb q' q) eqn:Eq;
       [apply Z.eqb_eq in Eq; subst q'; rewrite zlookup_zdict_set_same;
        reflexivity
       | rewrite zlookup_zdict_set_other by exact Eq; reflexivity]).
  - destruct (zlookup tc m) as [queues|];
      rewrite zlookup_zdict_set_other by exact Et; reflexivity.
Qed.

Lemma dscp_loop_runs :
  forall values start out m,
    exists out' m',
      dscp_loop (map JNum values) start out m = Ok (out', m') /\
      out' =
        (out ++
         map (fun iv => code_point_entry "dscp" (fst iv)
                          (get_traffic_class (snd iv))
                          (get_queue_number (snd iv)))
             (combine (ids_from start (List.length values)) values))%list /\
      (forall tc q,
         code_points_of m' tc q =
           (code_points_of m tc q ++ positions_from values start tc q)%list) /\
      (forall tc q,
         has_entry m' tc q =
           has_entry m tc q ||
           negb (Nat.eqb (List.length (positions_from values start tc q)) 0)).
Proof.
  induction values as [|v rest IH]; intros start out m.
  - exists out, m. cbn [map dscp_loop List.length ids_from combine
                        positions_from].
    rewrite app_nil_r. repeat split.
    + intros; rewrite app_nil_r; reflexivity.
    + intros; rewrite orb_false_r; reflexivity.
  - cbn [map dscp_loop as_int bind].
    destruct (IH (start + 1)
                (out ++ [code_point_entry "dscp" start (get_traffic_class v)
                           (get_queue_number v)])%list
                (record_code_point m (get_traffic_class v)
                   (get_queue_number v) start))
      as [out' [m' [Hrun [Hout [Hpts Hent]]]]].
    exists out', m'. split; [exact Hrun |]. split; [| split].
    + rewrite Hout. cbn [List.length ids_from combine map fst snd].
      rewrite <- app_assoc. reflexivity.
    + intros tc q. rewrite Hpts, record_code_point_points.
      cbn [positions_from]. rewrite (Z.eqb_sym (get_traffic_class v)).
      rewrite (Z.eqb_sym (get_queue_number v)).
      destruct (Z.eqb tc (get_traffic_class v)) eqn:Et; cbn [andb];
        [| reflexivity].
      destruct (Z.eqb q (get_queue_number v)) eqn:Eq; [| reflexivity].
      apply Z.eqb_eq in Et, Eq. subst. rewrite <- app_assoc. reflexivity.
    + intros tc q. rewrite Hent, record_code_point_entry.
      cbn [positions_from]. rewrite (Z.eqb_sym (get_traffic_class v)).
      rewrite (Z.eqb_sym (get_queue_number v)).
      destruct (Z.eqb tc (get_traffic_class v) && Z.eqb q (get_queue_number v));
        cbn [orb List.length Nat.eqb negb].
      * rewrite orb_true_r. reflexivity.
      * reflexivity.
Qed.

(** X12: on a list of integers [convert_dscp_map] never fails; the entry
    at position [i] carries [i] as DSCP value with the traffic class and
    queue decoded from the integer; and the reverse map is the exact
    inverse: under a traffic class and queue it holds, in ascending order,
    the positions whose integer decodes to them, and it has no entry (the
    lookup raises [KeyError]) exactly when there is no such position. *)
Theorem dscp_reverse_map_is_inverse :
  forall values,
    exists out m,
      convert_dscp_map (JList (map JNum values)) = Ok (out, m) /\
      out = map (fun iv => code_point_entry "dscp" (fst iv)
                             (get_traffic_class (snd iv))
                             (get_queue_number (snd iv)))
                (combine (ids_from 0 (List.length values)) values) /\
      forall tc q,
        match positions_from values 0 tc q with
        | [] => exists key,
                  reverse_getitem (ReverseDict m) tc q = Err (KeyError key)
        | positions =>
            reverse_getitem (ReverseDict m) tc q = Ok (Some positions)
        end.
Proof.
  intros values.
  destruct (dscp_loop_runs values 0 [] []) as [out [m [Hrun [Hout [Hpts Hent]]]]].
  exists out, m. split; [exact Hrun |]. split; [exact Hout |].
  intros tc q. specialize (Hpts tc q). specialize (Hent tc q).
  unfold code_points_of, has_entry in *. cbn [zlookup app orb] in *.
  unfold reverse_getitem.
  destruct (positions_from values 0 tc q) as [|p ps].
  - cbn [List.length Nat.eqb negb] in Hent.
    destruct (zlookup tc m) as [queues|]; [| eexists; reflexivity].
    destruct (zlookup q queues) as [vs|]; [discriminate Hent |].
    eexists; reflexivity.
  - destruct (zlookup tc m) as [queues|]; [| discriminate Hpts].
    destruct (zlookup q queues) as [vs|]; [| discriminate Hpts].
    rewrite Hpts. reflexivity.
Qed.

(** ** The PCP map *)

Lemma list_getitem_nil {A : Type} :
  forall i, list_getitem (@nil A) i = Err IndexError.
Proof.
  intros i. unfold list_getitem. cbn [List.length Z.of_nat].
  destruct (Z.ltb i 0); [rewrite Z.add_0_r |];
    destruct (Z.ltb i 0) eqn:E; try reflexivity;
    destruct (Z.to_nat i); reflexivity.
Qed.

Lemma pcp_loop_first_entry :
  forall x rest pcp_id out,
    pcp_loop (x :: rest) pcp_id out [] =
      match as_int x with
      | Ok _ => Err IndexError
      | Err e => Err e
      end.
Proof.
  intros x rest pcp_id out. cbn [pcp_loop].
  destruct (as_int x) as [z|e]; cbn [bind]; [| reflexivity].
  rewrite list_getitem_nil. reflexivity.
Qed.

(** X13: [convert_pcp_map] returns only for [None] and for an empty map,
    and then with two empty lists; a map whose first entry is an integer
    raises [IndexError], since [tc_queue_to_pcp_map] is an empty list that
    is indexed before anything is stored in it. *)
Theorem pcp_map_only_empty :
  forall pcp_map_in,
    (forall r, convert_pcp_map pcp_map_in = Ok r ->
       r = ([], []) /\ (pcp_map_in = JNull \/ py_iter pcp_map_in = Ok [])) /\
    (forall z rest, pcp_map_in = JList (JNum z :: rest) ->
       convert_pcp_map pcp_map_in = Err IndexError).
Proof.
  intros pcp_map_in. split.
  - intros r H. unfold convert_pcp_map in H.
    destruct (is_None pcp_map_in) eqn:En.
    + inversion H. split; [reflexivity |].
      left. destruct pcp_map_in; try discriminate En. reflexivity.
    + apply bind_Ok_inv in H as [items [Hit H]].
      destruct items as [|x rest].
      * inversion H. split; [reflexivity | right; exact Hit].
      * rewrite pcp_loop_first_entry in H.
        destruct (as_int x); discriminate H.
  - intros z rest ->. unfold convert_pcp_map. cbn [is_None py_iter bind].
    apply pcp_loop_first_entry.
Qed.

Lemma pcp_map_only_empty_witness :
  convert_pcp_map (JList [JNum 5; JNum 6]) = Err IndexError.
Proof.
  apply (proj2 (pcp_map_only_empty (JList [JNum 5; JNum 6])) 5 [JNum 6]).
  reflexivity.
Defined.

(** ** One pipe *)

Ltac bind_inv H x Hx := apply bind_Ok_inv in H as [x [Hx H]].

(** X14: whenever [convert_pipe] returns, its result is the dict with
    [pipe], [qos-class] (both the pipe id) and [qos-profile], then the
    five shaping parameters if [cmd] is [all] and nothing otherwise, then,
    unless [cmd] is [stats], the DSCP map and an empty PCP map, then the
    queue statistics, which are always built from the reverse DSCP map;
    and the pipe's [pcp2q] was absent, [None] or empty: the PCP branch of
    the queue statistics is never taken. *)
Theorem convert_pipe_result :
  forall cmd pipe_in pipe_id profile_name out,
    convert_pipe cmd pipe_in pipe_id profile_name = Ok out ->
    exists params dscp_map stats,
      out =
        JDict ([ ("pipe", JNum pipe_id); ("qos-class", JNum pipe_id);
                 ("qos-profile", profile_name) ] ++ params ++
               (if String.eqb cmd "stats" then []
                else [ ("dscp-to-queue-map", JList dscp_map);
                       ("pcp-to-queue-map", JList []) ]) ++
               [ ("traffic-class-queues-list", stats) ])%list /\
      (params = [] \/
       exists a b c d e,
         cmd = "all" /\
         params =
           [ ("vyatta-policy-qos-groupings-v1:token-bucket-rate", a);
             ("vyatta-policy-qos-groupings-v1:token-bucket-size", b);
             ("vyatta-policy-qos-groupings-v1:traffic-class-period", c);
             ("vyatta-policy-qos-groupings-v1:traffic-class-rates", d);
             ("vyatta-policy-qos-groupings-v1:weighted-round-robin-weights", e) ]) /\
      (exists pcp2q,
         py_get pipe_in "pcp2q" = Ok pcp2q /\
         (pcp2q = JNull \/ py_iter pcp2q = Ok [])) /\
      (exists dscp2q reverse tc,
         py_get pipe_in "dscp2q" = Ok dscp2q /\
         convert_dscp_map dscp2q = Ok (dscp_map, reverse) /\
         py_getitem pipe_in "tc" = Ok tc /\
         convert_tc_queue_list tc (ReverseDict reverse) "dscp-values"
           = Ok stats).
Proof.
  intros cmd pipe_in pipe_id profile_name out H.
  unfold convert_pipe in H.
  bind_inv H pipe_out1 H1.
  bind_inv H dscp2q Hd.
  bind_inv H dm Hdm. destruct dm as [dscp_map reverse].
  bind_inv H pcp2q Hp.
  bind_inv H pm Hpm. destruct pm as [pcp_map reverse_pcp].
  destruct (proj1 (pcp_map_only_empty pcp2q) _ Hpm) as [Epm Hpcp].
  inversion Epm; subst pcp_map reverse_pcp.
  assert (Hparams : exists params,
             pipe_out1 =
               ([ ("pipe", JNum pipe_id); ("qos-class", JNum pipe_id);
                  ("qos-profile", profile_name) ] ++ params)%list /\
             (params = [] \/
              exists a b c d e,
                cmd = "all" /\
                params =
                  [ ("vyatta-policy-qos-groupings-v1:token-bucket-rate", a);
                    ("vyatta-policy-qos-groupings-v1:token-bucket-size", b);
                    ("vyatta-policy-qos-groupings-v1:traffic-class-period", c);
                    ("vyatta-policy-qos-groupings-v1:traffic-class-rates", d);
                    ("vyatta-policy-qos-groupings-v1:weighted-round-robin-weights", e) ])).
  { destruct (String.eqb cmd "all") eqn:Eall.
    - apply String.eqb_eq in Eall.
      bind_inv H1 p1 Hp1. bind_inv H1 a Ha.
      bind_inv H1 p2 Hp2. bind_inv H1 b Hb.
      bind_inv H1 p3 Hp3. bind_inv H1 c Hc.
      bind_inv H1 p4 Hp4. bind_inv H1 r Hr. bind_inv H1 d Hdd.
      bind_inv H1 p5 Hp5. bind_inv H1 w Hw. bind_inv H1 e He.
      inversion H1; subst pipe_out1.
      eexists. split; [cbn; reflexivity |].
      right. exists a, b, c, d, e. split; [exact Eall | reflexivity].
    - inversion H1; subst pipe_out1.
      exists []. split; [reflexivity | left; reflexivity]. }
  destruct Hparams as [params [E1 Hparams]].
  assert (Hfresh :
            lookup "dscp-to-queue-map" pipe_out1 = None /\
            lookup "pcp-to-queue-map" pipe_out1 = None /\
            lookup "traffic-class-queues-list" pipe_out1 = None).
  { rewrite E1.
    destruct Hparams as [-> | [a [b [c [d [e [_ ->]]]]]]];
      repeat split; reflexivity. }
  destruct Hfresh as [F1 [F2 F3]].
  assert (Hset : forall (k : string) (v : json) (d : list (string * json)),
             lookup k d = None -> dict_set k v d = (d ++ [(k, v)])%list).
  { intros k v d. induction d as [|[k' v'] d IH]; intros Hn; [reflexivity |].
    simpl in Hn. simpl. destruct (String.eqb k k'); [discriminate Hn |].
    rewrite (IH Hn). reflexivity. }
  assert (Hlook : forall (k k' : string) (v : json) (d : list (string * json)),
             String.eqb k k' = false ->
             lookup k (d ++ [(k', v)]) = lookup k d).
  { intros k k' v d Hne. induction d as [|[k0 v0] d IH]; simpl.
    - rewrite Hne; reflexivity.
    - destruct (String.eqb k k0); [reflexivity | exact IH]. }
  assert (Hlast : forall (k : string) (v : json) (d : list (string * json)),
             lookup k d = None -> lookup k (d ++ [(k, v)]) = Some v).
  { intros k v d. induction d as [|[k0 v0] d IH]; intros Hn; simpl.
    - rewrite String.eqb_refl; reflexivity.
    - simpl in Hn. destruct (String.eqb k k0); [discriminate Hn |].
      apply IH; exact Hn. }
  rewrite (Hset _ _ _ F1) in H.
  rewrite (Hset "pcp-to-queue-map") in H
    by (rewrite Hlook by reflexivity; exact F2).
  bind_inv H dq Hdq.
  cbn [py_get] in Hdq. rewrite Hlook in Hdq by reflexivity.
  rewrite (Hlast _ _ _ F1) in Hdq. inversion Hdq; subst dq.
  cbn [is_None] in H.
  bind_inv H stats Hstats.
  bind_inv Hstats tc Htc.
  rewrite (Hset "traffic-class-queues-list") in H
    by (rewrite !Hlook by reflexivity; exact F3).
  bind_inv H pipe_out2 H2.
  inversion H; subst out.
  exists params, dscp_map, stats.
  split; [| split; [exact Hparams | split]].
  - f_equal. destruct (String.eqb cmd "stats") eqn:Es.
    + assert (Hdel : forall (k : string) (v : json) (d rest : list (string * json)),
                 lookup k d = None ->
                 py_del (d ++ (k, v) :: rest) k = Ok (d ++ rest)%list).
      { intros k v d rest. unfold py_del.
        induction d as [|[k0 v0] d IH]; intros Hn; simpl.
        - rewrite String.eqb_refl. reflexivity.
        - simpl in Hn. destruct (String.eqb k k0); [discriminate Hn |].
          specialize (IH Hn).
          destruct (lookup k (d ++ (k, v) :: rest)); [| discriminate IH].
          inversion IH as [E]. rewrite E. reflexivity. }
      bind_inv H2 pipe_out3 H3.
      rewrite <- !app_assoc in H3. cbn [app] in H3.
      rewrite (Hdel _ _ _ _ F1) in H3. inversion H3; subst pipe_out3.
      rewrite (Hdel _ _ _ _ F2) in H2. inversion H2; subst pipe_out2.
      rewrite E1, <- !app_assoc. reflexivity.
    + inversion H2; subst pipe_out2.
      rewrite E1, <- !app_assoc. reflexivity.
  - exists pcp2q. split; [exact Hp | exact Hpcp].
  - exists dscp2q, reverse, tc. repeat split; assumption.
Qed.

Lemma convert_pipe_result_witness :
  convert_pipe "stats" sample_pipe_in 0 (JStr "prof-a") = Ok sample_pipe_out /\
  exists pcp2q,
    py_get sample_pipe_in "pcp2q" = Ok pcp2q /\
    (pcp2q = JNull \/ py_iter pcp2q = Ok []).
Proof.
  split; [reflexivity |].
  destruct (convert_pipe_result "stats" sample_pipe_in 0 (JStr "prof-a")
              sample_pipe_out eq_refl)
    as [params [dscp_map [stats [_ [_ [Hpcp _]]]]]].
  exact Hpcp.
Defined.

(** ** The counters of a subport's traffic classes *)





(** ** The queues of a traffic class *)

Lemma lookup_queue_dict_set :
  forall (k : string) (v : json) (d : list (string * json)) (x : json),
    String.eqb "queue" k = false ->
    lookup "queue" d = Some x ->
    lookup "queue" (dict_set k v d) = Some x.
Proof.
  intros k v d x Hk Hd. rewrite lookup_dict_set_other by exact Hk. exact Hd.
Qed.

(** One queue is reported exactly when the reverse map has an entry for
    its traffic class and position, and then under its position. *)
Lemma convert_tc_queue_reported :
  forall queue queue_id tc_id m map_type_values r,
    convert_tc_queue queue queue_id tc_id (ReverseDict m) map_type_values
      = Ok r ->
    String.eqb "queue" map_type_values = false ->
    if has_entry m tc_id queue_id
    then exists q, r = Some q /\ queue_tag q = Some (JNum queue_id)
    else r = None.
Proof.
  intros queue queue_id tc_id m mtv r H Hmtv.
  unfold convert_tc_queue in H. cbv zeta in H.
  bind_inv H packets H1. bind_inv H packets32 H2.
  bind_inv H bytes H3. bind_inv H bytes32 H4.
  bind_inv H dropped H5. bind_inv H random_drop H6.
  bind_inv H tail_drop H7. bind_inv H tail_drop32 H8.
  bind_inv H random_drop' H9. bind_inv H random_drop32 H10.
  bind_inv H wred_map H11. bind_inv H out1 H12.
  assert (Q1 : lookup "queue" out1 = Some (JNum queue_id)).
  { destruct (is_None wred_map).
    - inversion H12; subst out1. reflexivity.
    - bind_inv H12 w Hw. bind_inv H12 c Hc. inversion H12; subst out1.
      reflexivity. }
  bind_inv H packets' H13. bind_inv H bytes' H14.
  bind_inv H dropped' H15. bind_inv H random_drop'' H16.
  bind_inv H tail_drop' H17. bind_inv H random_drop''' H18.
  bind_inv H wred_map' H19. bind_inv H out2 H20.
  assert (Q2 : lookup "queue" out2 = Some (JNum queue_id)).
  { destruct (is_None wred_map').
    - inversion H20; subst out2.
      repeat (apply lookup_queue_dict_set; [reflexivity |]). exact Q1.
    - bind_inv H20 w Hw. bind_inv H20 c Hc. inversion H20; subst out2.
      repeat (apply lookup_queue_dict_set; [reflexivity |]). exact Q1. }
  bind_inv H qlen H21. bind_inv H out3 H22.
  assert (Q3 : lookup "queue" out3 = Some (JNum queue_id)).
  { destruct (is_None qlen).
    - bind_inv H22 qb Hqb. inversion H22; subst out3.
      apply lookup_queue_dict_set; [reflexivity | exact Q2].
    - bind_inv H22 q1 Hq1. bind_inv H22 q32 Hq32. bind_inv H22 q2 Hq2.
      inversion H22; subst out3.
      repeat (apply lookup_queue_dict_set; [reflexivity |]). exact Q2. }
  bind_inv H prio_local H23.
  unfold except_KeyError, reverse_getitem, has_entry in *.
  destruct (zlookup tc_id m) as [queues|]; cbn [bind] in H.
  - destruct (zlookup queue_id queues) as [values|]; cbn [bind] in H.
    + inversion H; subst r. eexists. split; [reflexivity |].
      cbn [queue_tag].
      apply lookup_queue_dict_set; [exact Hmtv |].
      apply lookup_queue_dict_set; [reflexivity | exact Q3].
    + inversion H; reflexivity.
  - inversion H; reflexivity.
Qed.

Lemma tc_queues_loop_reported :
  forall queues start tc_id m map_type_values out,
    tc_queues_loop queues start tc_id (ReverseDict m) map_type_values
      = Ok out ->
    String.eqb "queue" map_type_values = false ->
    map queue_tag out =
      map (fun q => Some (JNum q))
          (filter (has_entry m tc_id) (ids_from start (List.length queues))).
Proof.
  induction queues as [|queue rest IH]; intros start tc_id m mtv out H Hmtv.
  - inversion H; reflexivity.
  - cbn [tc_queues_loop] in H.
    bind_inv H r Hr. bind_inv H rest_out Hrest. inversion H; subst out.
    pose proof (convert_tc_queue_reported _ _ _ _ _ _ Hr Hmtv) as Hq.
    specialize (IH _ _ _ _ _ Hrest Hmtv).
    cbn [List.length ids_from filter].
    destruct (has_entry m tc_id start).
    + destruct Hq as [q [-> Hq]]. cbn [map]. rewrite Hq, IH. reflexivity.
    + subst r. exact IH.
Qed.

(** X16: when [convert_tc_queues] returns for a reverse map built as a
    dict, the queues it reports are exactly those whose position has an
    entry under the traffic class in the reverse map, each tagged with its
    position: a queue no code point is mapped to is left out of the
    statistics, and the positions of the others are kept. *)
Theorem unmapped_queues_are_left_out :
  forall tc_queues_in queues tc_id m map_type_values out,
    py_iter tc_queues_in = Ok queues ->
    convert_tc_queues tc_queues_in tc_id (ReverseDict m) map_type_values
      = Ok out ->
    String.eqb "queue" map_type_values = false ->
    exists reported,
      out = JList reported /\
      map queue_tag reported =
        map (fun q => Some (JNum q))
            (filter (has_entry m tc_id) (ids_from 0 (List.length queues))).
Proof.
  intros tc_queues_in queues tc_id m mtv out Hit H Hmtv.
  unfold convert_tc_queues in H. rewrite Hit in H. cbn [bind] in H.
  bind_inv H reported Hloop. inversion H; subst out.
  exists reported. split; [reflexivity |].
  apply (tc_queues_loop_reported _ _ _ _ _ _ Hloop Hmtv).
Qed.

Lemma unmapped_queues_are_left_out_witness :
  exists reported,
    convert_tc_queues (JList [sample_queue; sample_queue]) 0
      (ReverseDict sample_reverse_map) "dscp-values" = Ok (JList reported) /\
    map queue_tag reported = [Some (JNum 0)].
Proof.
  eexists. split; [reflexivity |].
  destruct (unmapped_queues_are_left_out
              (JList [sample_queue; sample_queue]) [sample_queue; sample_queue]
              0 sample_reverse_map "dscp-values" _ eq_refl eq_refl eq_refl)
    as [reported [E Htags]].
  inversion E; subst reported. exact Htags.
Defined.

(** ** Names in the running configuration *)

Lemma prefix_vif_no_space :
  forall c s, Ascii.eqb c " "%char = false ->
    prefix " vif " (String c s) = false.
Proof.
  intros c s Hc. cbn [prefix].
  destruct (ascii_dec " "%char c) as [E|_]; [| reflexivity].
  subst c. discriminate Hc.
Qed.

Lemma str_find_at_tail :
  forall name tail,
    no_space name = true ->
    prefix " vif " tail = true ->
    str_find " vif " (name ++ tail) = Some (String.length name).
Proof.
  induction name as [|c name IH]; intros tail Hn Ht.
  - cbn [append String.length]. destruct tail as [|t tail].
    + discriminate Ht.
    + cbn [str_find]. rewrite Ht. reflexivity.
  - cbn [no_space] in Hn. apply andb_true_iff in Hn as [Hc Hn].
    apply negb_true_iff in Hc.
    cbn [append str_find String.length].
    rewrite (prefix_vif_no_space c _ Hc). rewrite (IH tail Hn Ht).
    reflexivity.
Qed.

Lemma str_find_after_name :
  forall name rest,
    no_space name = true ->
    str_find " vif " (name ++ " vif " ++ rest) = Some (String.length name).
Proof.
  intros name rest Hn. apply str_find_at_tail; [exact Hn |].
  destruct rest; reflexivity.
Qed.

Lemma str_find_no_space :
  forall name, no_space name = true -> str_find " vif " name = None.
Proof.
  induction name as [|c name IH]; intros Hn; [reflexivity |].
  cbn [no_space] in Hn. apply andb_true_iff in Hn as [Hc Hn].
  apply negb_true_iff in Hc. cbn [str_find].
  rewrite (prefix_vif_no_space c _ Hc), (IH Hn). reflexivity.
Qed.

Lemma str_take_append :
  forall a b, str_take (String.length a) (a ++ b) = a.
Proof.
  induction a as [|c a IH]; intros b; [reflexivity |].
  cbn [String.length append str_take]. rewrite IH. reflexivity.
Qed.

Lemma str_drop_append :
  forall a b n, str_drop (String.length a + n) (a ++ b) = str_drop n b.
Proof.
  induction a as [|c a IH]; intros b n; [reflexivity |].
  cbn [String.length append Nat.add str_drop]. apply IH.
Qed.

(** X17: a subport name put together as [<if-name> vif <tag>] from an
    interface name without spaces is taken apart into that name and that
    tag, the tag as a string; and an interface name without spaces is taken
    as a trunk's name. *)
Theorem subport_name_round_trip :
  forall if_name tag,
    no_space if_name = true ->
    split_subport_name (if_name ++ " vif " ++ tag) = (if_name, Some tag) /\
    split_subport_name if_name = (if_name, None).
Proof.
  intros if_name tag Hn. unfold split_subport_name. split.
  - rewrite (str_find_after_name if_name tag Hn).
    rewrite str_take_append, str_drop_append. reflexivity.
  - rewrite (str_find_no_space if_name Hn). reflexivity.
Qed.

Lemma subport_name_round_trip_witness :
  split_subport_name "dp0p1 vif 10" = ("dp0p1", Some "10") /\
  split_subport_name "dp0p1" = ("dp0p1", None).
Proof.
  exact (subport_name_round_trip "dp0p1" "10" eq_refl).
Defined.

Lemma vif_search_numeric :
  forall vifs tag,
    Forall (fun vif => exists n, py_getitem vif "tagnode" = Ok (JNum n)) vifs ->
    vif_search vifs (JStr tag) = Ok JNull.
Proof.
  induction vifs as [|vif rest IH]; intros tag H; [reflexivity |].
  inversion H as [|? ? [n Hn] Hrest]; subst.
  cbn [vif_search]. rewrite Hn. cbn [bind py_eq]. apply IH; exact Hrest.
Qed.

(** X18: the VLAN tag that [get_if_subport_policy_name] takes from a
    subport name is a string, and the comparison with [tagnode] is [==]:
    when every [vif] entry of the interface has a number as [tagnode],
    [get_vlan_policy_name] finds no entry and answers [None]. *)
Theorem numeric_tagnode_never_matches :
  forall if_type_dict vifs tag,
    py_get if_type_dict "vif" = Ok (JList vifs) ->
    Forall (fun vif => exists n, py_getitem vif "tagnode" = Ok (JNum n)) vifs ->
    get_vlan_policy_name if_type_dict (JStr tag) = Ok JNull.
Proof.
  intros d vifs tag Hv Hnum. unfold get_vlan_policy_name.
  rewrite Hv. cbn [bind is_None py_iter].
  apply vif_search_numeric; exact Hnum.
Qed.

Lemma numeric_tagnode_never_matches_witness :
  get_vlan_policy_name running_if_dict (JStr "10") = Ok JNull.
Proof.
  apply (numeric_tagnode_never_matches running_if_dict
           [ JDict [ ("tagnode", JNum 10);
                     (STD_POLICY, JDict [ (QOS, JStr "P2") ]) ] ] "10").
  - reflexivity.
  - constructor; [exists 10; reflexivity | constructor].
Defined.

Lemma get_port_policy_name_dicts :
  forall d name,
    get_port_policy_name d = Ok name ->
    is_None name = false ->
    exists pd pp,
      trunk_policy_dicts d "vyatta-interfaces-policy-v1" = Ok (pd, pp) /\
      py_get pd "vyatta-policy-qos-v1:qos" = Ok name.
Proof.
  intros d name H Hname. unfold get_port_policy_name in H.
  unfold trunk_policy_dicts. cbn [append].
  assert (Hqos : forall pd, py_getitem pd "vyatta-policy-qos-v1:qos" = Ok name ->
                            py_get pd "vyatta-policy-qos-v1:qos" = Ok name).
  { intros pd Hpd. destruct pd as [| | | |items]; try discriminate Hpd.
    cbn [py_getitem py_get] in *.
    destruct (lookup "vyatta-policy-qos-v1:qos" items); [| discriminate Hpd].
    exact Hpd. }
  destruct (py_getitem d "vyatta-interfaces-policy-v1:policy") as [pd|e].
  - cbn [bind] in H. exists pd, JNull. split; [reflexivity | apply Hqos; exact H].
  - destruct e; try discriminate H.
    unfold except_KeyError in H.
    destruct (py_getitem d "vyatta-interfaces-dataplane-switch-v1:switch-group")
      as [sg|e]; cbn [bind] in H.
    + destruct (py_getitem sg "port-parameters") as [pp|e]; cbn [bind] in H.
      * destruct (py_getitem pp "vyatta-interfaces-switch-policy-v1:policy")
          as [pd|e]; cbn [bind] in H.
        -- exists pd, pp. split; [reflexivity | apply Hqos; exact H].
        -- destruct e; cbn [bind] in H; try discriminate H.
           inversion H; subst name. discriminate Hname.
      * destruct e; cbn [bind] in H; try discriminate H.
        inversion H; subst name. discriminate Hname.
    + destruct e; cbn [bind] in H; try discriminate H.
      inversion H; subst name. discriminate Hname.
Qed.

(** X19: the trunk policy that the op-mode lookup names for a dataplane
    interface is the policy the constructor attaches: if
    [get_port_policy_name] answers the name [n] and the interface is built
    from the same dictionary, then [n] is in the policy registry and the
    first subport is the trunk's, carrying that policy. *)
Theorem port_policy_name_is_trunk_policy :
  forall d n policies maps links self links',
    get_port_policy_name d = Ok (JStr n) ->
    Interface_init "dataplane" d policies maps links = Ok (self, links') ->
    exists p rest,
      lookup n policies = Some p /\
      _subports self = mkSubport 0 (JNum 0) (Some p) :: rest.
Proof.
  intros d n policies maps links self links' Hname H.
  destruct (get_port_policy_name_dicts d (JStr n) Hname eq_refl)
    as [pd [pp [Hd Hq]]].
  unfold Interface_init in H.
  bind_inv H name Hn. bind_inv H dicts Hd'. destruct dicts as [pd' pp'].
  change (policy_namespace_of "dataplane")
    with "vyatta-interfaces-policy-v1" in Hd'.
  rewrite Hd in Hd'. inversion Hd'; subst pd' pp'.
  bind_inv H ns Hns. cbn in Hns. inversion Hns; subst ns.
  bind_inv H policy Hp. unfold attached_policy in Hp. cbn [append] in Hp.
  rewrite Hq in Hp. cbn [bind is_None registry_getitem] in Hp.
  destruct (lookup n policies) as [p|] eqn:E; [| discriminate Hp].
  cbn [bind] in Hp. inversion Hp; subst policy.
  apply init_after_trunk_adds in H
    as [vif_part [vlan_part [S _]]].
  cbn [append_policy append_subport _subports app] in S.
  exists p, (vif_part ++ vlan_part)%list. split; [reflexivity | exact S].
Qed.

Lemma port_policy_name_is_trunk_policy_witness :
  exists self links,
    Interface_init "dataplane" running_if_dict two_policies [] no_links
      = Ok (self, links) /\
    exists p rest,
      lookup "P1" two_policies = Some p /\
      _subports self = mkSubport 0 (JNum 0) (Some p) :: rest.
Proof.
  eexists. eexists. split; [reflexivity |].
  apply (port_policy_name_is_trunk_policy running_if_dict "P1" two_policies
           [] no_links _ _ eq_refl eq_refl).
Defined.

Lemma qmap_decoding_witness :
  get_traffic_class (3 + 4 * 5) = 3 /\ get_queue_number (3 + 4 * 5) = 5.
Proof.
  apply (proj2 (proj2 (proj2 (qmap_decoding 23))) 3 5); lia.
Defined.

Lemma dscp_reverse_map_is_inverse_witness :
  exists out m,
    convert_dscp_map (JList (map JNum [0; 5; 4; 0])) = Ok (out, m) /\
    reverse_getitem (ReverseDict m) 0 0 = Ok (Some [0; 3]) /\
    exists key, reverse_getitem (ReverseDict m) 2 0 = Err (KeyError key).
Proof.
  destruct (dscp_reverse_map_is_inverse [0; 5; 4; 0]) as [out [m [H [_ Hinv]]]].
  exists out, m. split; [exact H |]. split.
  - exact (Hinv 0 0).
  - exact (Hinv 2 0).
Defined.

(** ** Interfaces without [tagnode], and the pipes of a subport *)



Lemma load_config_idem :
  forall config existing,
    load_config (load_config config existing) existing
    = load_config config existing.
Proof.
  intros config existing. unfold load_config.
  destruct (py_eq config (JDict [])) eqn:E.
  - destruct (py_eq existing (JDict [])); reflexivity.
  - rewrite E. reflexivity.
Qed.

Lemma profile_lookup_loaded :
  forall config existing policy_name pipe_id,
    snd (get_policy_class_profile_name config existing policy_name pipe_id)
      = load_config config existing /\
    fst (get_policy_class_profile_name (load_config config existing) existing
           policy_name pipe_id)
      = fst (get_policy_class_profile_name config existing policy_name pipe_id).
Proof.
  intros config existing policy_name pipe_id.
  unfold get_policy_class_profile_name. cbn [fst snd].
  rewrite load_config_idem. split; reflexivity.
Qed.

Lemma has_profile_loaded :
  forall config existing policy_name pipe_id,
    has_profile (load_config config existing) existing policy_name pipe_id
    = has_profile config existing policy_name pipe_id.
Proof.
  intros. unfold has_profile.
  rewrite (proj2 (profile_lookup_loaded _ _ _ _)). reflexivity.
Qed.

Lemma convert_pipe_tag :
  forall cmd pipe_in pipe_id profile_name out,
    convert_pipe cmd pipe_in pipe_id profile_name = Ok out ->
    pipe_tag out = Some (JNum pipe_id).
Proof.
  intros cmd pipe_in pipe_id profile_name out H.
  destruct (convert_pipe_result _ _ _ _ _ H)
    as [params [dscp_map [stats [-> _]]]].
  reflexivity.
Qed.

Lemma pipes_loop_reported :
  forall existing cmd pipes policy_name start config out config',
    pipes_loop existing cmd pipes policy_name start config = (Ok out, config') ->
    map pipe_tag out =
      map (fun i => Some (JNum i))
          (filter (has_profile config existing policy_name)
                  (ids_from start (List.length pipes))).
Proof.
  intros existing cmd. induction pipes as [|pipe_in rest IH];
    intros policy_name start config out config' H.
  - inversion H; reflexivity.
  - cbn [pipes_loop] in H.
    pose proof (profile_lookup_loaded config existing policy_name start)
      as [Hsnd _].
    cbn [List.length ids_from filter]. unfold has_profile at 1.
    destruct (get_policy_class_profile_name config existing policy_name start)
      as [profile config1].
    cbn [fst snd] in *. subst config1.
    destruct profile as [profile_name|e]; [| inversion H].
    assert (Hrest : forall out0 config0,
              pipes_loop existing cmd rest policy_name (start + 1)
                (load_config config existing) = (Ok out0, config0) ->
              map pipe_tag out0 =
                map (fun i => Some (JNum i))
                    (filter (has_profile config existing policy_name)
                            (ids_from (start + 1) (List.length rest)))).
    { intros out0 config0 H0. rewrite (IH _ _ _ _ _ H0).
      f_equal. apply filter_ext. intros i. apply has_profile_loaded. }
    destruct (is_None profile_name) eqn:En; cbn [negb].
    + destruct (pipes_loop existing cmd rest policy_name (start + 1)
                  (load_config config existing)) as [rest_out config2] eqn:E.
      destruct rest_out as [rest_out|e]; [| inversion H].
      cbn [bind] in H. inversion H; subst. apply (Hrest _ _ eq_refl).
    + destruct (convert_pipe cmd pipe_in start profile_name) as [converted|e]
        eqn:Ec; cbn [bind] in H; [| inversion H].
      destruct (pipes_loop existing cmd rest policy_name (start + 1)
                  (load_config config existing)) as [rest_out config2] eqn:E.
      destruct rest_out as [rest_out|e]; [| inversion H].
      cbn [bind] in H. inversion H; subst. cbn [map].
      rewrite (convert_pipe_tag _ _ _ _ _ Ec), (Hrest _ _ eq_refl).
      reflexivity.
Qed.

(** X21: when [convert_pipes] returns, either no policy name was found for
    the subport and the result is [None], or the result lists exactly the
    pipes for which the configuration names a profile, in order, each
    tagged with its own position: a pipe without profile is left out and
    the others keep their pipe ids. *)
Theorem pipes_without_profile_are_left_out :
  forall config existing cmd pipes_in subport_name out,
    fst (convert_pipes config existing cmd pipes_in subport_name) = Ok out ->
    exists policy_name,
      fst (get_if_subport_policy_name config existing subport_name)
        = Ok policy_name /\
      if is_None policy_name then out = JNull
      else
        exists pipes reported,
          py_iter pipes_in = Ok pipes /\
          out = JList reported /\
          map pipe_tag reported =
            map (fun i => Some (JNum i))
                (filter (has_profile config existing policy_name)
                        (ids_from 0 (List.length pipes))).
Proof.
  intros config existing cmd pipes_in subport_name out H.
  unfold convert_pipes in H.
  assert (Hsnd : snd (get_if_subport_policy_name config existing subport_name)
                 = load_config config existing).
  { unfold get_if_subport_policy_name.
    destruct (split_subport_name subport_name). reflexivity. }
  destruct (get_if_subport_policy_name config existing subport_name)
    as [policy config1].
  cbn [fst snd] in *. subst config1.
  destruct policy as [policy_name|e]; [| discriminate H].
  exists policy_name. split; [reflexivity |].
  destruct (is_None policy_name).
  - inversion H; reflexivity.
  - destruct (py_iter pipes_in) as [pipes|e]; [| discriminate H].
    destruct (pipes_loop existing cmd pipes policy_name 0
                (load_config config existing)) as [r config2] eqn:E.
    destruct r as [reported|e]; cbn [fst bind] in H; [| discriminate H].
    inversion H; subst out.
    exists pipes, reported. repeat split.
    rewrite (pipes_loop_reported _ _ _ _ _ _ _ _ E).
    f_equal. apply filter_ext. intros i. apply has_profile_loaded.
Qed.

Lemma pipes_without_profile_are_left_out_witness :
  exists reported,
    fst (convert_pipes (JDict []) running_config "stats"
           (JList [sample_pipe_in; sample_pipe_in; sample_pipe_in]) "dp0p1")
      = Ok (JList reported) /\
    map pipe_tag reported = [Some (JNum 0); Some (JNum 2)].
Proof.
  eexists. split; [reflexivity |].
  destruct (pipes_without_profile_are_left_out (JDict []) running_config
              "stats" (JList [sample_pipe_in; sample_pipe_in; sample_pipe_in])
              "dp0p1" _ eq_refl)
    as [policy_name [Hname Hout]].
  inversion Hname; subst policy_name. cbn [is_None] in Hout.
  destruct Hout as [pipes [reported [Hit [E Htags]]]].
  inversion Hit; subst pipes. inversion E; subst reported. exact Htags.
Defined.

(** * The first error decides *)

Lemma bind_ingress_map_spec :
  forall self links d vlan_id maps,
    bind_ingress_map self links d vlan_id maps =
      match ingress_map_of d maps with
      | Ok (Some m) =>
          Ok (append_binding self (mkBinding vlan_id m),
              add_binding m self (mkBinding vlan_id m) links)
      | Ok None => Ok (self, links)
      | Err e => Err e
      end.
Proof.
  intros self links d vlan_id maps.
  unfold bind_ingress_map, ingress_map_of, except_KeyError.
  destruct (py_getitem d "vyatta-policy-qos-v1:ingress-map") as [name|e];
    cbn [bind].
  - destruct (registry_getitem maps name) as [m|e]; cbn [bind];
      [reflexivity | destruct e; reflexivity].
  - destruct e; reflexivity.
Qed.

Lemma bind_ingress_map_resolves :
  forall self links d vlan_id maps binding,
    ingress_map_of d maps = Ok binding ->
    exists r, bind_ingress_map self links d vlan_id maps = Ok r.
Proof.
  intros self links d vlan_id maps binding H.
  rewrite bind_ingress_map_spec, H.
  destruct binding; eexists; reflexivity.
Qed.

(** Entries that resolve are passed, and the loop raises on the first one
    that names a policy the registry does not hold, with its name. *)
Lemma vif_loop_first_missing :
  forall pns ns policies before vif rest vlan_id d name,
    Forall (vif_resolves pns ns policies) before ->
    py_getitem vif "tagnode" = Ok vlan_id ->
    py_getitem vif (pns ++ ":policy") = Ok d ->
    names_missing_policy d ns policies name ->
    forall first_id self links,
      vif_loop pns ns policies (before ++ vif :: rest) first_id self links
        = Err (KeyError (JStr name)).
Proof.
  intros pns ns policies before vif rest vlan_id d name Hb Ht Hd Hm.
  induction Hb as [|v before [vid [dv [pv [Hv1 [Hv2 Hv3]]]]] _ IH];
    intros first_id self links.
  - apply (vif_loop_missing_head _ _ _ _ _ _ _ _ _ _ _ Ht Hd Hm).
  - cbn [app vif_loop]. rewrite Hv1. cbn [bind]. rewrite Hv2. cbn [bind].
    rewrite Hv3. cbn [bind]. destruct pv; apply IH.
Qed.

Lemma vif_loop_resolves :
  forall pns ns policies vifs,
    Forall (vif_resolves pns ns policies) vifs ->
    forall first_id self links,
      exists r, vif_loop pns ns policies vifs first_id self links = Ok r.
Proof.
  intros pns ns policies vifs Hv.
  induction Hv as [|v vifs [vid [dv [pv [Hv1 [Hv2 Hv3]]]]] _ IH];
    intros first_id self links.
  - eexists; reflexivity.
  - cbn [vif_loop]. rewrite Hv1. cbn [bind]. rewrite Hv2. cbn [bind].
    rewrite Hv3. cbn [bind]. destruct pv; apply IH.
Qed.

Lemma vlan_loop_first_missing :
  forall ns policies maps before vlan rest vlan_id d name,
    Forall (vlan_resolves ns policies maps) before ->
    py_getitem vlan "vlan-id" = Ok vlan_id ->
    py_getitem vlan SWITCH_POLICY = Ok d ->
    names_missing_policy d ns policies name ->
    forall first_id self links,
      vlan_loop ns policies maps (before ++ vlan :: rest) first_id self links
        = Err (KeyError (JStr name)).
Proof.
  intros ns policies maps before vlan rest vlan_id d name Hb Ht Hd Hm.
  induction Hb as [|v before [vid [dv [pv [bv [Hv1 [Hv2 [Hv3 Hv4]]]]]]] _ IH];
    intros first_id self links.
  - apply (vlan_loop_missing_head _ _ _ _ _ _ _ _ _ _ _ Ht Hd Hm).
  - cbn [app vlan_loop]. rewrite Hv1. cbn [bind].
    unfold SWITCH_POLICY in Hv2. rewrite Hv2. cbn [bind].
    rewrite Hv3. cbn [bind].
    destruct pv as [p|]; rewrite bind_ingress_map_spec, Hv4;
      destruct bv; cbn [bind]; apply IH.
Qed.

(** The steps of the constructor up to the loops, under the hypotheses
    that the trunk resolves. *)
Lemma init_reaches_loops :
  forall if_type if_dict policies maps links d0 pp ns trunk_policy binding,
    trunk_policy_dicts if_dict (policy_namespace_of if_type) = Ok (d0, pp) ->
    POLICY_KEY_getitem if_type = Ok ns ->
    attached_policy d0 ns policies = Ok trunk_policy ->
    ingress_map_of d0 maps = Ok binding ->
    exists self1 links1,
      Interface_init if_type if_dict policies maps links =
        (vif_list <- py_get if_dict (vif_namespace_of if_type ++ "vif") ;;
         ' (self2, links2) <-
           (if is_None vif_list then Ok (self1, links1)
            else
              vifs <- py_iter vif_list ;;
              vif_loop (policy_namespace_of if_type) ns policies vifs 1
                       self1 links1) ;;
         vlan_list <- switch_vlan_list pp ;;
         ' (self3, links3) <-
           (if is_None vlan_list then Ok (self2, links2)
            else
              vlans <- py_iter vlan_list ;;
              vlan_loop ns policies maps vlans 1 self2 links2) ;;
         Ok (build_profile_indexes self3, links3)).
Proof.
  intros if_type if_dict policies maps links d0 pp ns trunk_policy binding
         Hd Hns Hp Hb.
  destruct (trunk_policy_dicts_is_dict _ _ _ _ (name_key if_type) Hd)
    as [name Hname].
  unfold Interface_init. rewrite Hname. cbn [bind]. rewrite Hd. cbn [bind].
  rewrite Hns. cbn [bind]. rewrite Hp. cbn [bind].
  unfold init_after_trunk.
  destruct trunk_policy as [p|]; rewrite bind_ingress_map_spec, Hb;
    destruct binding as [m|]; cbn [bind]; eexists; eexists; reflexivity.
Qed.

(** C6, as the code has it: a trunk naming a policy the registry does not
    hold makes the constructor raise [KeyError] with that name; a [vif]
    entry or a hardware-switch VLAN entry naming one makes it raise
    [KeyError] with that name when it is the first thing that fails, the
    trunk and the entries before it resolving, and makes it fail in any
    case, wherever the entry stands; and an interface that was built has
    no subport whose policy is not in the registry. *)
Theorem first_missing_policy_raises :
  forall if_type if_dict policies maps links,
    (forall d pp ns name,
       trunk_policy_dicts if_dict (policy_namespace_of if_type) = Ok (d, pp) ->
       POLICY_KEY_getitem if_type = Ok ns ->
       names_missing_policy d ns policies name ->
       Interface_init if_type if_dict policies maps links
         = Err (KeyError (JStr name))) /\
    (forall d0 pp ns trunk_policy binding before vif rest vlan_id d name,
       trunk_policy_dicts if_dict (policy_namespace_of if_type) = Ok (d0, pp) ->
       POLICY_KEY_getitem if_type = Ok ns ->
       attached_policy d0 ns policies = Ok trunk_policy ->
       ingress_map_of d0 maps = Ok binding ->
       py_get if_dict (vif_namespace_of if_type ++ "vif")
         = Ok (JList (before ++ vif :: rest)) ->
       Forall (vif_resolves (policy_namespace_of if_type) ns policies) before ->
       py_getitem vif "tagnode" = Ok vlan_id ->
       py_getitem vif (policy_namespace_of if_type ++ ":policy") = Ok d ->
       names_missing_policy d ns policies name ->
       Interface_init if_type if_dict policies maps links
         = Err (KeyError (JStr name))) /\
    (forall d0 pp ns trunk_policy binding vif_list before vlan rest vlan_id d
            name,
       trunk_policy_dicts if_dict (policy_namespace_of if_type) = Ok (d0, pp) ->
       POLICY_KEY_getitem if_type = Ok ns ->
       attached_policy d0 ns policies = Ok trunk_policy ->
       ingress_map_of d0 maps = Ok binding ->
       py_get if_dict (vif_namespace_of if_type ++ "vif") = Ok vif_list ->
       (vif_list = JNull \/
        exists vifs,
          vif_list = JList vifs /\
          Forall (vif_resolves (policy_namespace_of if_type) ns policies)
                 vifs) ->
       switch_vlan_list pp = Ok (JList (before ++ vlan :: rest)) ->
       Forall (vlan_resolves ns policies maps) before ->
       py_getitem vlan "vlan-id" = Ok vlan_id ->
       py_getitem vlan SWITCH_POLICY = Ok d ->
       names_missing_policy d ns policies name ->
       Interface_init if_type if_dict policies maps links
         = Err (KeyError (JStr name))) /\
    (forall ns vifs vif d name,
       POLICY_KEY_getitem if_type = Ok ns ->
       py_get if_dict (vif_namespace_of if_type ++ "vif") = Ok (JList vifs) ->
       In vif vifs ->
       py_getitem vif (policy_namespace_of if_type ++ ":policy") = Ok d ->
       names_missing_policy d ns policies name ->
       exists e, Interface_init if_type if_dict policies maps links = Err e) /\
    (forall ns d0 pp vlans vlan d name,
       POLICY_KEY_getitem if_type = Ok ns ->
       trunk_policy_dicts if_dict (policy_namespace_of if_type) = Ok (d0, pp) ->
       switch_vlan_list pp = Ok (JList vlans) ->
       In vlan vlans ->
       py_getitem vlan SWITCH_POLICY = Ok d ->
       names_missing_policy d ns policies name ->
       exists e, Interface_init if_type if_dict policies maps links = Err e) /\
    (forall self links',
       Interface_init if_type if_dict policies maps links = Ok (self, links') ->
       no_dangling_policy policies self).
Proof.
  intros if_type if_dict policies maps links.
  destruct (missing_policy_fails if_type if_dict policies maps links)
    as [Htrunk [Hvif [Hvlan Hbuilt]]].
  split; [exact Htrunk |].
  split; [| split; [| split; [exact Hvif | split; [exact Hvlan | exact Hbuilt]]]].
  - intros d0 pp ns trunk_policy binding before vif rest vlan_id d name
           Hd0 Hns Hp Hb Hlist Hbefore Ht Hd Hm.
    destruct (init_reaches_loops if_type if_dict policies maps links
                _ _ _ _ _ Hd0 Hns Hp Hb) as [self1 [links1 ->]].
    rewrite Hlist. cbn [bind is_None py_iter].
    rewrite (vif_loop_first_missing _ _ _ _ _ _ _ _ _ Hbefore Ht Hd Hm).
    reflexivity.
  - intros d0 pp ns trunk_policy binding vif_list before vlan rest vlan_id d
           name Hd0 Hns Hp Hb Hlist Hvifs Hvlans Hbefore Ht Hd Hm.
    destruct (init_reaches_loops if_type if_dict policies maps links
                _ _ _ _ _ Hd0 Hns Hp Hb) as [self1 [links1 ->]].
    rewrite Hlist. cbn [bind].
    assert (Hstage : exists self2 links2,
               (if is_None vif_list then Ok (self1, links1)
                else
                  vifs <- py_iter vif_list ;;
                  vif_loop (policy_namespace_of if_type) ns policies vifs 1
                           self1 links1) = Ok (self2, links2)).
    { destruct Hvifs as [-> | [vifs [-> Hres]]].
      - eexists; eexists; reflexivity.
      - cbn [is_None py_iter bind].
        destruct (vif_loop_resolves _ _ _ _ Hres 1 self1 links1)
          as [[self2 links2] Hr].
        exists self2, links2. exact Hr. }
    destruct Hstage as [self2 [links2 ->]]. cbn [bind].
    rewrite Hvlans. cbn [bind is_None py_iter].
    rewrite (vlan_loop_first_missing _ _ _ _ _ _ _ _ _ Hbefore Ht Hd Hm).
    reflexivity.
Qed.

(** C6 as stated fails: only the first error is raised.  When the trunk
    and a [vif] both name a policy the registry does not hold, the error
    carries the trunk's name and not the [vif]'s; and when a [vif] without
    policy dictionary precedes the [vif] naming one, the error carries no
    policy name at all. *)
Lemma later_missing_name_not_surfaced :
  names_missing_policy (JDict [ (QOS, JStr "PX") ]) "vyatta-policy-qos-v1"
    two_policies "PX" /\
  Interface_init "dataplane" two_missing_if_dict two_policies [] no_links
    = Err (KeyError (JStr "P3")) /\
  Interface_init "dataplane" two_missing_if_dict two_policies [] no_links
    <> Err (KeyError (JStr "PX")) /\
  Interface_init "dataplane" bare_then_missing_if_dict two_policies [] no_links
    = Err (KeyError (JStr STD_POLICY)).
Proof.
  split; [split; reflexivity |].
  split; [reflexivity |].
  split; [intros H; discriminate H | reflexivity].
Qed.

Lemma first_missing_policy_raises_witness :
  Interface_init "dataplane" second_vif_missing_if_dict two_policies [] no_links
    = Err (KeyError (JStr "PX")).
Proof.
  apply (proj1 (proj2
    (first_missing_policy_raises "dataplane" second_vif_missing_if_dict
       two_policies [] no_links))
    (JDict [ (QOS, JStr "P1") ]) JNull "vyatta-policy-qos-v1"
    (Some (one_class_policy "P1" "prof-a" 24)) None
    [ JDict [ ("tagnode", JNum 10);
              (STD_POLICY, JDict [ (QOS, JStr "P2") ]) ] ]
    (JDict [ ("tagnode", JNum 20);
             (STD_POLICY, JDict [ (QOS, JStr "PX") ]) ])
    [] (JNum 20) (JDict [ (QOS, JStr "PX") ]) "PX").
  - reflexivity.
  - reflexivity.
  - reflexivity.
  - reflexivity.
  - reflexivity.
  - constructor; [| constructor].
    exists (JNum 10), (JDict [ (QOS, JStr "P2") ]),
      (Some (one_class_policy "P2" "local-x" 24)).
    repeat split.
  - reflexivity.
  - reflexivity.
  - split; reflexivity.
Defined.

(** * The subports of a built interface, entry by entry *)

Lemma vif_loop_subports :
  forall pns ns policies vifs first_id self links self' links',
    vif_loop pns ns policies vifs first_id self links = Ok (self', links') ->
    exists added,
      _subports self' = (_subports self ++ added)%list /\
      map subport_id added = ids_from first_id (List.length vifs) /\
      Forall2 (vif_subport pns ns policies) vifs added.
Proof.
  induction vifs as [|vif rest IH]; intros sid self links self' links' H.
  - inversion H; subst. exists []. rewrite app_nil_r.
    repeat split. constructor.
  - cbn [vif_loop] in H.
    apply bind_Ok_inv in H as [vlan_id [Hv H]].
    apply bind_Ok_inv in H as [d [Hd H]].
    apply bind_Ok_inv in H as [policy [Hp H]].
    assert (Hnext : exists self1 links1,
               _subports self1 =
                 (_subports self ++ [mkSubport sid vlan_id policy])%list /\
               vif_loop pns ns policies rest (sid + 1) self1 links1
                 = Ok (self', links')).
    { destruct policy as [p|]; eexists; eexists; (split; [| exact H]);
        reflexivity. }
    destruct Hnext as [self1 [links1 [S1 Hloop]]].
    apply IH in Hloop as [added [Hs [Hid Hrel]]].
    exists (mkSubport sid vlan_id policy :: added).
    rewrite Hs, S1, <- app_assoc. cbn [app map subport_id List.length ids_from].
    rewrite Hid. repeat split.
    constructor; [| exact Hrel].
    exists d. cbn [subport_vlan subport_policy]. repeat split; assumption.
Qed.

Lemma vlan_loop_subports :
  forall ns policies maps vlans first_id self links self' links',
    vlan_loop ns policies maps vlans first_id self links = Ok (self', links') ->
    exists added,
      _subports self' = (_subports self ++ added)%list /\
      switch_subports ns policies first_id vlans added.
Proof.
  induction vlans as [|vlan rest IH]; intros sid self links self' links' H.
  - inversion H; subst. exists []. rewrite app_nil_r.
    split; [reflexivity | constructor].
  - cbn [vlan_loop] in H.
    apply bind_Ok_inv in H as [vlan_id [Hv H]].
    apply bind_Ok_inv in H as [d [Hd H]].
    apply bind_Ok_inv in H as [policy [Hp H]].
    destruct policy as [p|];
      apply bind_Ok_inv in H as [[self2 links2] [Hb H]];
      apply bind_ingress_map_subports in Hb;
      apply IH in H as [added [Hs Hrel]];
      cbn [append_policy append_subport _subports] in Hb.
    + exists (mkSubport sid vlan_id (Some p) :: added).
      rewrite Hs, Hb, <- app_assoc. split; [reflexivity |].
      apply (switch_keep ns policies sid vlan rest added vlan_id d p);
        assumption.
    + exists added. rewrite Hs, Hb. split; [reflexivity |].
      apply (switch_skip ns policies sid vlan rest added vlan_id d);
        assumption.
Qed.

Lemma switch_subports_numbered :
  forall ns policies id vlans part,
    switch_subports ns policies id vlans part ->
    map subport_id part = ids_from id (List.length part) /\
    Forall (fun s => subport_policy s <> None) part.
Proof.
  intros ns policies id vlans part H.
  induction H as [id | id vlan vlans part vlan_id d _ _ _ _ IH
                     | id vlan vlans part vlan_id d p _ _ _ _ [IH1 IH2]].
  - split; [reflexivity | constructor].
  - exact IH.
  - cbn [map subport_id List.length ids_from]. rewrite IH1.
    split; [reflexivity |]. constructor; [discriminate | exact IH2].
Qed.

(** X1: the subport list of a built interface is decided by the
    configuration entry by entry.  It is the trunk's subport (id 0, VLAN
    tag 0) exactly when the trunk's policy dictionary resolves to a policy,
    and with that policy; then one subport for each [vif] entry, numbered
    1, 2, ... in the order of the list, with the entry's [tagnode] and the
    policy the entry resolves to, or none; then, for the VLAN list that the
    hardware-switch parameters hold, one subport for each entry that
    resolves to a policy, numbered from 1 again in the order of the list,
    with the entry's [vlan-id] and that policy. *)
Theorem built_subport_layout :
  forall if_type if_dict policies maps links self links',
    Interface_init if_type if_dict policies maps links = Ok (self, links') ->
    exists d0 pp ns trunk_policy vif_list vlan_list vif_part vlan_part,
      trunk_policy_dicts if_dict (policy_namespace_of if_type) = Ok (d0, pp) /\
      POLICY_KEY_getitem if_type = Ok ns /\
      attached_policy d0 ns policies = Ok trunk_policy /\
      py_get if_dict (vif_namespace_of if_type ++ "vif") = Ok vif_list /\
      switch_vlan_list pp = Ok vlan_list /\
      _subports self =
        (trunk_subports trunk_policy ++ vif_part ++ vlan_part)%list /\
      (if is_None vif_list then vif_part = []
       else
         exists vifs,
           py_iter vif_list = Ok vifs /\
           map subport_id vif_part = ids_from 1 (List.length vifs) /\
           Forall2 (vif_subport (policy_namespace_of if_type) ns policies)
                   vifs vif_part) /\
      (if is_None vlan_list then vlan_part = []
       else
         exists vlans,
           py_iter vlan_list = Ok vlans /\
           switch_subports ns policies 1 vlans vlan_part) /\
      subport_layout (_subports self) (trunk_subports trunk_policy)
        vif_part vlan_part.
Proof.
  intros if_type if_dict policies maps links self links' H.
  unfold Interface_init in H.
  apply bind_Ok_inv in H as [name [_ H]].
  apply bind_Ok_inv in H as [[d0 pp] [Hd0 H]].
  apply bind_Ok_inv in H as [ns [Hns H]].
  apply bind_Ok_inv in H as [trunk_policy [Hp H]].
  assert (Hrun : exists self0 links0,
             _subports self0 = trunk_subports trunk_policy /\
             init_after_trunk if_dict (policy_namespace_of if_type)
               (vif_namespace_of if_type) ns policies maps d0 pp self0 links0
             = Ok (self, links')).
  { destruct trunk_policy as [p|]; eexists; eexists; (split; [| exact H]);
      reflexivity. }
  clear H. destruct Hrun as [self0 [links0 [S0 H]]].
  unfold init_after_trunk in H.
  apply bind_Ok_inv in H as [[self1 links1] [H1 H]].
  apply bind_ingress_map_subports in H1.
  apply bind_Ok_inv in H as [vif_list [Hvif H]].
  apply bind_Ok_inv in H as [[self2 links2] [H2 H]].
  apply bind_Ok_inv in H as [vlan_list [Hvlan H]].
  apply bind_Ok_inv in H as [[self3 links3] [H3 H]].
  inversion H; subst self links'.
  rewrite (build_profile_indexes_field _ _subports) by reflexivity.
  assert (V : exists vif_part,
             _subports self2 = (_subports self1 ++ vif_part)%list /\
             map subport_id vif_part = ids_from 1 (List.length vif_part) /\
             (if is_None vif_list then vif_part = []
              else
                exists vifs,
                  py_iter vif_list = Ok vifs /\
                  map subport_id vif_part = ids_from 1 (List.length vifs) /\
                  Forall2 (vif_subport (policy_namespace_of if_type) ns
                             policies) vifs vif_part)).
  { destruct (is_None vif_list).
    - inversion H2; subst. exists []. rewrite app_nil_r. repeat split.
    - apply bind_Ok_inv in H2 as [vifs [Hit H2]].
      apply vif_loop_subports in H2 as [added [Hs [Hid Hrel]]].
      exists added. split; [exact Hs |]. split.
      + rewrite Hid. f_equal.
        eapply Forall2_length. exact Hrel.
      + exists vifs. repeat split; assumption. }
  destruct V as [vif_part [S2 [I2 V]]].
  assert (W : exists vlan_part,
             _subports self3 = (_subports self2 ++ vlan_part)%list /\
             map subport_id vlan_part = ids_from 1 (List.length vlan_part) /\
             Forall (fun s => subport_policy s <> None) vlan_part /\
             (if is_None vlan_list then vlan_part = []
              else
                exists vlans,
                  py_iter vlan_list = Ok vlans /\
                  switch_subports ns policies 1 vlans vlan_part)).
  { destruct (is_None vlan_list).
    - inversion H3; subst. exists []. rewrite app_nil_r.
      repeat split. constructor.
    - apply bind_Ok_inv in H3 as [vlans [Hit H3]].
      apply vlan_loop_subports in H3 as [added [Hs Hrel]].
      destruct (switch_subports_numbered _ _ _ _ _ Hrel) as [Hid Hpol].
      exists added. repeat split; try assumption.
      exists vlans. split; assumption. }
  destruct W as [vlan_part [S3 [I3 [F3 W]]]].
  exists d0, pp, ns, trunk_policy, vif_list, vlan_list, vif_part, vlan_part.
  assert (S : _subports self3 =
              (trunk_subports trunk_policy ++ vif_part ++ vlan_part)%list).
  { rewrite S3, S2, H1, S0, <- app_assoc. reflexivity. }
  repeat split; try assumption.
  destruct trunk_policy as [p|]; [right; exists p | left]; reflexivity.
Qed.

Lemma built_subport_layout_witness :
  exists self links,
    Interface_init "dataplane" switch_if_dict two_policies [] no_links
      = Ok (self, links) /\
    _subports self =
      [ mkSubport 0 (JNum 0) (Some (one_class_policy "P1" "prof-a" 24));
        mkSubport 1 (JNum 20) (Some (one_class_policy "P2" "local-x" 24)) ] /\
    exists d0 pp ns trunk_policy vif_part vlan_part,
      trunk_policy_dicts switch_if_dict (policy_namespace_of "dataplane")
        = Ok (d0, pp) /\
      attached_policy d0 ns two_policies = Ok trunk_policy /\
      _subports self =
        (trunk_subports trunk_policy ++ vif_part ++ vlan_part)%list.
Proof.
  eexists. eexists. split; [reflexivity |]. split; [reflexivity |].
  destruct (built_subport_layout "dataplane" switch_if_dict two_policies []
              no_links _ _ eq_refl)
    as [d0 [pp [ns [trunk_policy [vif_list [vlan_list [vif_part [vlan_part
          [Hd [_ [Hp [_ [_ [S _]]]]]]]]]]]]]].
  exists d0, pp, ns, trunk_policy, vif_part, vlan_part.
  repeat split; assumption.
Defined.
